(** * CDK2Git: the Git smart-HTTP core of [git_handler.py] and [cdktf_handler.py]

    A shallow embedding of the object builder, the packfile encoder, the
    packet-line reader, the side-band multiplexer, the reference
    advertisement and the fetch flow, followed by the properties of the
    specification that were checked against it.

    Conventions.
    - Python [bytes] is [list byte]; Python [str] is the list of its code
      points ([list N]).
    - A call that may raise returns [Res A]: [Ok a] or [Raise e]. An
      [except Exception] clause catches the exceptions of class
      [Exception] only: [SystemExit] and [KeyboardInterrupt] pass it.
    - [hashlib.sha1] is implemented in [SHA1]; [zlib.compress] is a
      parameter of the encoder (any byte-string function). *)

From Stdlib Require Import ZArith NArith List Lia Bool.
From Stdlib Require Import Strings.String Strings.Ascii Strings.Byte.
From Stdlib Require Import DecimalString.
From stdpp Require Import base list sorting gmap sets.
From Equations Require Import Equations.

Local Open Scope Z_scope.

(* ===================================================================== *)
(** * Python primitives used by the handlers *)
(* ===================================================================== *)

Abbreviation bytes := (list byte).
Abbreviation str := (list N).

Inductive exn : Type :=
| ValueError
| UnicodeDecodeError
| UnicodeEncodeError
| StructError
| TypeError
| FileNotFoundError
| OSError
| RuntimeError
| SystemExit
| KeyboardInterrupt.

(** Whether the exception derives from [Exception], so that an
    [except Exception] clause catches it. [SystemExit] and
    [KeyboardInterrupt] derive from [BaseException] only. *)
Definition is_exception (x : exn) : bool :=
  match x with
  | SystemExit | KeyboardInterrupt => false
  | _ => true
  end.

Inductive Res (A : Type) : Type :=
| Ok (a : A)
| Raise (e : exn).
Arguments Ok {A} a.
Arguments Raise {A} e.

#[global] Instance Res_ret : MRet Res := @Ok.
#[global] Instance Res_bind : MBind Res := fun A B f m =>
  match m with
  | Ok a => f a
  | Raise e => Raise e
  end.

Definition is_ok {A} (r : Res A) : bool :=
  match r with Ok _ => true | Raise _ => false end.

(** [try: r except Exception: default] *)
Definition except_Exception {A} (r : Res A) (default : A) : Res A :=
  match r with
  | Ok a => Ok a
  | Raise x => if is_exception x then Ok default else Raise x
  end.

Module Py.

(** ** Bytes *)

Definition byte_val (b : byte) : Z := Z.of_N (Byte.to_N b).

Definition byte_of (z : Z) : byte :=
  match Byte.of_N (Z.to_N z) with
  | Some b => b
  | None => x00
  end.

(** [bytearray.append(z)]: the value must be in [range(0, 256)]. *)
Definition bytearray_append (buf : bytes) (z : Z) : Res bytes :=
  if (0 <=? z) && (z <? 256) then Ok (buf ++ [byte_of z])
  else Raise ValueError.

(** [b"..."] literals (without escapes) and literals of [str]. *)
Definition b (s : string) : bytes := list_byte_of_string s.
Definition s (lit : string) : str := map Byte.to_N (list_byte_of_string lit).

Definition len {A} (l : list A) : Z := Z.of_nat (length l).

(** Slices [l[lo:hi]] with Python's treatment of negative and
    out-of-range indices. *)
Definition clamp_index (n i : Z) : Z :=
  if i <? 0 then Z.max 0 (i + n) else Z.min i n.

Definition slice {A} (l : list A) (lo hi : Z) : list A :=
  let n := len l in
  let lo' := clamp_index n lo in
  let hi' := clamp_index n hi in
  take (Z.to_nat (hi' - lo')) (drop (Z.to_nat lo') l).

(** [l[lo:]] *)
Definition slice_from {A} (l : list A) (lo : Z) : list A :=
  drop (Z.to_nat (clamp_index (len l) lo)) l.

(** [bytes.startswith] *)
Fixpoint startswith (l p : bytes) : bool :=
  match p, l with
  | [], _ => true
  | _ :: _, [] => false
  | y :: p', x :: l' => Byte.eqb x y && startswith l' p'
  end.

(** [bytes.find(bytes([c]))]: index of the first occurrence, or -1. *)
Fixpoint find_byte (l : bytes) (c : byte) : Z :=
  match l with
  | [] => -1
  | x :: l' =>
      if Byte.eqb x c then 0
      else let r := find_byte l' c in if r <? 0 then -1 else r + 1
  end.

(** ** Text *)

(** [bytes.decode('ascii')] *)
Fixpoint decode_ascii (l : bytes) : Res str :=
  match l with
  | [] => Ok []
  | x :: l' =>
      if byte_val x <? 128 then r ← decode_ascii l'; Ok (Byte.to_N x :: r)
      else Raise UnicodeDecodeError
  end.

(** [str.encode('ascii')] *)
Fixpoint encode_ascii (t : str) : Res bytes :=
  match t with
  | [] => Ok []
  | c :: t' =>
      if (c <? 128)%N then r ← encode_ascii t'; Ok (byte_of (Z.of_N c) :: r)
      else Raise UnicodeEncodeError
  end.

(** One code point in UTF-8; lone surrogates (and values that are no code
    point at all) are refused as [str.encode('utf-8')] does. *)
Definition utf8_char (c : N) : Res bytes :=
  let z := Z.of_N c in
  if z <? 0x80 then Ok [byte_of z]
  else if z <? 0x800 then
    Ok [byte_of (Z.lor 0xC0 (Z.shiftr z 6));
        byte_of (Z.lor 0x80 (Z.land z 0x3F))]
  else if (0xD800 <=? z) && (z <? 0xE000) then Raise UnicodeEncodeError
  else if z <? 0x10000 then
    Ok [byte_of (Z.lor 0xE0 (Z.shiftr z 12));
        byte_of (Z.lor 0x80 (Z.land (Z.shiftr z 6) 0x3F));
        byte_of (Z.lor 0x80 (Z.land z 0x3F))]
  else if z <? 0x110000 then
    Ok [byte_of (Z.lor 0xF0 (Z.shiftr z 18));
        byte_of (Z.lor 0x80 (Z.land (Z.shiftr z 12) 0x3F));
        byte_of (Z.lor 0x80 (Z.land (Z.shiftr z 6) 0x3F));
        byte_of (Z.lor 0x80 (Z.land z 0x3F))]
  else Raise UnicodeEncodeError.

(** [str.encode('utf-8')] *)
Fixpoint encode_utf8 (t : str) : Res bytes :=
  match t with
  | [] => Ok []
  | c :: t' => x ← utf8_char c; r ← encode_utf8 t'; Ok (x ++ r)
  end.

(** [str(n)] for a length [n >= 0]. *)
Definition str_of_int (n : Z) : str :=
  s (NilZero.string_of_uint (N.to_uint (Z.to_N n))).

(** ** Hexadecimal *)

Definition hex_digit (d : Z) : N :=
  Z.to_N (if d <? 10 then 48 + d else 87 + d).

Fixpoint hex_digits (fuel : nat) (n : Z) (acc : str) : str :=
  match fuel with
  | O => acc
  | S fuel' =>
      if n <? 16 then hex_digit n :: acc
      else hex_digits fuel' (n / 16) (hex_digit (n mod 16) :: acc)
  end.

(** [f"{n:04x}"] for [n >= 0]: lower-case digits, zero-padded to width 4,
    longer when [n] needs more digits. *)
Definition format_04x (n : Z) : str :=
  let ds := hex_digits (S (Z.to_nat (Z.log2 n))) n [] in
  replicate (4 - length ds)%nat 48%N ++ ds.

(** Value of one hexadecimal digit character. *)
Definition hex_value (c : N) : option Z :=
  let v := Z.of_N c in
  if (48 <=? v) && (v <=? 57) then Some (v - 48)
  else if (97 <=? v) && (v <=? 102) then Some (v - 87)
  else if (65 <=? v) && (v <=? 70) then Some (v - 55)
  else None.

(** [Py_ISSPACE] on ASCII: tab, LF, VT, FF, CR and space. *)
Definition is_space (c : N) : bool :=
  let v := Z.of_N c in ((9 <=? v) && (v <=? 13)) || (v =? 32).

Fixpoint lstrip (l : str) : str :=
  match l with
  | x :: l' => if is_space x then lstrip l' else l
  | [] => []
  end.

(** The digit run of [int(text, 16)]: hexadecimal digits with single
    underscores between them; [prev_us] tells that the previous character
    was an underscore. Returns the value and the unread rest. *)
Fixpoint int16_digits (l : str) (acc : Z) (prev_us : bool)
  : option (Z * str) :=
  match l with
  | [] => if prev_us then None else Some (acc, [])
  | x :: l' =>
      match hex_value x with
      | Some d => int16_digits l' (16 * acc + d) false
      | None =>
          if (x =? 95)%N then
            if prev_us then None else int16_digits l' acc true
          else if prev_us then None else Some (acc, l)
      end
  end.

(** [int(text, 16)] on ASCII text (here always the result of
    [decode('ascii')]): optional blanks, an optional sign, an optional
    [0x]/[0X] prefix followed by at most one underscore, the digits,
    optional blanks. Code points: 43 [+], 45 [-], 48 [0], 88 [X],
    120 [x], 95 [_]. *)
Definition int16 (text : str) : Res Z :=
  let l0 := lstrip text in
  let '(sign, l1) :=
    match l0 with
    | x :: r =>
        if (x =? 43)%N then (1, r)
        else if (x =? 45)%N then (-1, r)
        else (1, l0)
    | [] => (1, l0)
    end in
  let l2 :=
    match l1 with
    | z :: x :: r =>
        if (z =? 48)%N && ((x =? 120)%N || (x =? 88)%N)
        then match r with
             | u :: r' => if (u =? 95)%N then r' else r
             | [] => r
             end
        else l1
    | _ => l1
    end in
  match l2 with
  | [] => Raise ValueError
  | x :: _ =>
      match hex_value x with
      | None => Raise ValueError
      | Some _ =>
          match int16_digits l2 0 false with
          | None => Raise ValueError
          | Some (v, rest) =>
              match lstrip rest with
              | [] => Ok (sign * v)
              | _ :: _ => Raise ValueError
              end
          end
      end
  end.

(** [bytes.hex()] *)
Definition hex_of_bytes (l : bytes) : str :=
  flat_map (fun x => [hex_digit (byte_val x / 16);
                      hex_digit (byte_val x mod 16)]) l.

(** [bytes.fromhex(text)]: pairs of hexadecimal digits; ASCII blanks
    between the pairs are skipped. *)
Fixpoint fromhex (t : str) : Res bytes :=
  match t with
  | [] => Ok []
  | c :: t' =>
      if is_space c then fromhex t'
      else
        match hex_value c, t' with
        | Some hi, c2 :: t'' =>
            match hex_value c2 with
            | Some lo => r ← fromhex t''; Ok (byte_of (16 * hi + lo) :: r)
            | None => Raise ValueError
            end
        | _, _ => Raise ValueError
        end
  end.

(** ** Ordering of [str] and [sorted] *)

(** [a < b] on [str]: lexicographic on code points. *)
Fixpoint str_ltb (a c : str) : bool :=
  match a, c with
  | _, [] => false
  | [], _ :: _ => true
  | x :: a', y :: c' =>
      if (x <? y)%N then true
      else if (x =? y)%N then str_ltb a' c'
      else false
  end.

(** [sorted(l, key=key)] and [list.sort(key=key)] with [str] keys: the
    stable sort. [insert_sorted] puts [x] in front of the first element
    whose key is not smaller, so equal keys keep their input order. *)
Fixpoint insert_sorted {A} (key : A → str) (x : A) (l : list A) : list A :=
  match l with
  | [] => [x]
  | y :: l' =>
      if str_ltb (key y) (key x) then y :: insert_sorted key x l'
      else x :: y :: l'
  end.

Definition sorted {A} (key : A → str) (l : list A) : list A :=
  foldr (insert_sorted key) [] l.

(** [struct.pack('>I', n)] *)
Definition pack_be32 (n : Z) : Res bytes :=
  if (0 <=? n) && (n <? 2 ^ 32) then
    Ok [byte_of (Z.shiftr n 24);
        byte_of (Z.land (Z.shiftr n 16) 255);
        byte_of (Z.land (Z.shiftr n 8) 255);
        byte_of (Z.land n 255)]
  else Raise StructError.

End Py.

(* ===================================================================== *)
(** * SHA-1 ([hashlib.sha1]) *)
(* ===================================================================== *)

Module SHA1.

Definition w32 (x : Z) : Z := Z.land x 0xFFFFFFFF.
Definition add32 (x y : Z) : Z := w32 (x + y).
Definition rotl (n x : Z) : Z :=
  w32 (Z.lor (Z.shiftl x n) (Z.shiftr x (32 - n))).
Definition not32 (x : Z) : Z := Z.lxor x 0xFFFFFFFF.

Definition be32 (x : Z) : list Z :=
  [Z.land (Z.shiftr x 24) 255; Z.land (Z.shiftr x 16) 255;
   Z.land (Z.shiftr x 8) 255; Z.land x 255].

Definition be64 (x : Z) : list Z :=
  be32 (Z.shiftr x 32) ++ be32 (Z.land x 0xFFFFFFFF).

(** Message padding: 0x80, zeros up to 56 mod 64, the bit length. *)
Definition pad (msg : list Z) : list Z :=
  let n := Z.of_nat (length msg) in
  let zeros := Z.to_nat ((55 - n) mod 64) in
  msg ++ [0x80] ++ replicate zeros 0 ++ be64 (8 * n).

Fixpoint words (l : list Z) : list Z :=
  match l with
  | a :: b :: c :: d :: r =>
      (Z.shiftl a 24 + Z.shiftl b 16 + Z.shiftl c 8 + d) :: words r
  | _ => []
  end.

(** Message schedule, most recent word first. *)
Fixpoint expand (n : nat) (rw : list Z) : list Z :=
  match n with
  | O => rw
  | S n' =>
      let w := rotl 1 (Z.lxor (Z.lxor (nth 2 rw 0) (nth 7 rw 0))
                              (Z.lxor (nth 13 rw 0) (nth 15 rw 0))) in
      expand n' (w :: rw)
  end.

Definition schedule (block : list Z) : list Z :=
  rev (expand 64 (rev (words block))).

Record state := State { ha : Z; hb : Z; hc : Z; hd : Z; he : Z }.

Definition init : state :=
  State 0x67452301 0xEFCDAB89 0x98BADCFE 0x10325476 0xC3D2E1F0.

Definition round (st : state) (tw : nat * Z) : state :=
  let '(t, w) := tw in
  let '(State a b c d e) := st in
  let '(f, k) :=
    if (t <? 20)%nat then
      (Z.lor (Z.land b c) (Z.land (not32 b) d), 0x5A827999)
    else if (t <? 40)%nat then
      (Z.lxor (Z.lxor b c) d, 0x6ED9EBA1)
    else if (t <? 60)%nat then
      (Z.lor (Z.lor (Z.land b c) (Z.land b d)) (Z.land c d), 0x8F1BBCDC)
    else
      (Z.lxor (Z.lxor b c) d, 0xCA62C1D6) in
  let tmp := add32 (add32 (add32 (add32 (rotl 5 a) f) e) k) w in
  State tmp a (rotl 30 b) c d.

Definition compress (st : state) (block : list Z) : state :=
  let sched := schedule block in
  let '(State a b c d e) :=
    fold_left round (combine (seq 0 80) sched) st in
  State (add32 (ha st) a) (add32 (hb st) b) (add32 (hc st) c)
        (add32 (hd st) d) (add32 (he st) e).

Fixpoint blocks (n : nat) (l : list Z) (st : state) : state :=
  match n with
  | O => st
  | S n' => blocks n' (drop 64 l) (compress st (take 64 l))
  end.

Definition output (st : state) : bytes :=
  map Py.byte_of
      (be32 (ha st) ++ be32 (hb st) ++ be32 (hc st)
       ++ be32 (hd st) ++ be32 (he st)).

(** [hashlib.sha1(msg).digest()] *)
Definition digest (msg : bytes) : bytes :=
  let padded := pad (map Py.byte_val msg) in
  output (blocks (length padded / 64)%nat padded init).

(** [hashlib.sha1(msg).hexdigest()] *)
Definition hexdigest (msg : bytes) : str := Py.hex_of_bytes (digest msg).

End SHA1.

(* ===================================================================== *)
(** * The handlers *)
(* ===================================================================== *)

Module Git.

Import Py.

(** A tree entry as [create_tree] receives it: (path, hash, blob). *)
Abbreviation entry := (str * str * bytes)%type.
(** A pack object as [create_packfile] receives it: (hash, content). *)
Abbreviation pobject := (str * bytes)%type.

Definition entry_path (o : entry) : str := o.1.1.
Definition entry_hash (o : entry) : str := o.1.2.
Definition entry_blob (o : entry) : bytes := o.2.

Definition NUL : byte := x00.
Definition LF : N := 10%N.

(** ** [create_blob] *)
Definition create_blob (content : str) : Res (str * bytes) :=
  data ← encode_utf8 content;
  n ← encode_utf8 (str_of_int (len data));
  let blob_store := b "blob " ++ n ++ [NUL] ++ data in
  let blob_hash := SHA1.hexdigest blob_store in
  Ok (blob_hash, blob_store).

(** ** [create_tree] *)

(** One turn of the loop: the two [extend] calls. *)
Definition tree_extend (tree_content : bytes) (o : entry) : Res bytes :=
  let '(path, hash_value, _) := o in
  let mode := b "100644" in
  p ← encode_utf8 path;
  h ← fromhex hash_value;
  Ok (tree_content ++ (mode ++ b " " ++ p ++ [NUL]) ++ h).

Fixpoint tree_loop (objects : list entry) (tree_content : bytes)
  : Res bytes :=
  match objects with
  | [] => Ok tree_content
  | o :: rest => c ← tree_extend tree_content o; tree_loop rest c
  end.

Definition create_tree (objects : list entry) : Res (str * bytes) :=
  let sorted_objects := sorted entry_path objects in
  tree_data ← tree_loop sorted_objects [];
  n ← encode_utf8 (str_of_int (len tree_data));
  let tree_store := b "tree " ++ n ++ [NUL] ++ tree_data in
  let tree_hash := SHA1.hexdigest tree_store in
  Ok (tree_hash, tree_store).

(** ** [create_commit] *)
Definition commit_text (tree_hash : str) : str :=
  (s "tree " ++ tree_hash) ++ [LF]
  ++ s "author CDK2Git <cdk2git@example.com> 1701926400 +0000" ++ [LF]
  ++ s "committer CDK2Git <cdk2git@example.com> 1701926400 +0000" ++ [LF]
  ++ [] ++ [LF]
  ++ s "Initial commit - CDKTF synthesis output".

Definition create_commit (tree_hash : str) : Res (str * bytes) :=
  commit_data ← encode_utf8 (commit_text tree_hash);
  n ← encode_utf8 (str_of_int (len commit_data));
  let commit_store := b "commit " ++ n ++ [NUL] ++ commit_data in
  let commit_hash := SHA1.hexdigest commit_store in
  Ok (commit_hash, commit_store).

(** ** [create_packfile] *)

Definition obj_type (content : bytes) : Z :=
  if startswith content (b "commit ") then 1
  else if startswith content (b "tree ") then 2
  else 3.

(** The content after the store header (after the first NUL, if any). *)
Definition strip_header (content : bytes) : bytes :=
  let null_pos := find_byte content NUL in
  if negb (null_pos =? -1) then slice_from content (null_pos + 1)
  else content.

(** The [while size > 0] loop and the [data.append(c)] after it. *)
Equations? size_header (size c : Z) (data : bytes) : Res bytes
  by wf (Z.to_nat size) lt :=
  size_header size c data with Z_lt_dec 0 size := {
    | left _ =>
        match bytearray_append data (Z.lor 0x80 c) with
        | Ok data' => size_header (Z.shiftr size 7) (Z.land size 0x7f) data'
        | Raise e => Raise e
        end
    | right _ => bytearray_append data c }.
Proof.
  rewrite Z.shiftr_div_pow2 by lia.
  apply Z2Nat.inj_lt; [apply Z.div_pos; lia | lia |].
  apply Z.div_lt; lia.
Defined.

Section Encoder.

(** [zlib.compress] *)
Variable zlib_compress : bytes → bytes.

(** One turn of the loop over the objects. *)
Definition pack_object (data : bytes) (o : pobject) : Res bytes :=
  let '(_, content) := o in
  let obj_type := obj_type content in
  let content := strip_header content in
  let compressed := zlib_compress content in
  let size := len content in
  let c := Z.lor (Z.shiftl obj_type 4) (Z.land size 0x0f) in
  let size := Z.shiftr size 4 in
  data' ← size_header size c data;
  Ok (data' ++ compressed).

Fixpoint pack_loop (objects : list pobject) (data : bytes) : Res bytes :=
  match objects with
  | [] => Ok data
  | o :: rest => d ← pack_object data o; pack_loop rest d
  end.

Definition create_packfile (objects : list pobject) : Res bytes :=
  version ← pack_be32 2;
  count ← pack_be32 (len objects);
  let header := b "PACK" ++ version ++ count in
  data ← pack_loop objects [];
  let pack := header ++ data in
  let sha1_hash := SHA1.digest pack in
  Ok (pack ++ sha1_hash).

End Encoder.

(** ** [parse_request] *)

(** The body of the [try] in one turn of the [while] loop: the new
    position and want-list, or the exception that ends the loop. *)
Definition parse_packet (data : bytes) (pos : Z) (wants : list str)
  : Res (Z * list str) :=
  text ← decode_ascii (slice data pos (pos + 4));
  length ← int16 text;
  if length =? 0 then Ok (pos + 4, wants)
  else
    let packet := slice data (pos + 4) (pos + length) in
    wants' ← (if startswith packet (b "want ")
              then w ← decode_ascii (slice packet 5 45); Ok (wants ++ [w])
              else Ok wants);
    Ok (pos + length, wants').

(** The [while pos < len(data)] loop. Nothing bounds the number of turns,
    so the loop is run with fuel: [None] when the fuel runs out. *)
Fixpoint parse_loop (fuel : nat) (data : bytes) (pos : Z) (wants : list str)
  : option (list str) :=
  if pos <? len data then
    match fuel with
    | O => None
    | S fuel' =>
        match parse_packet data pos wants with
        | Ok (pos', wants') => parse_loop fuel' data pos' wants'
        | Raise _ => Some wants
        end
    end
  else Some wants.

Definition parse_request (fuel : nat) (data : bytes) : option (list str) :=
  parse_loop fuel data 0 [].

(** ** [format_side_band] *)

(** [range(0, stop, step)] for [step > 0]. *)
Definition range_step (stop step : Z) : list Z :=
  map (fun k => Z.of_nat k * step) (seq 0 (Z.to_nat ((stop + step - 1) / step))).

Fixpoint side_band_loop (chunk_size : Z) (data : bytes) (band : Z)
  (starts : list Z) (result : bytes) : Res bytes :=
  match starts with
  | [] => Ok result
  | i :: rest =>
      let chunk := slice data i (i + chunk_size) in
      let length := len chunk + 5 in
      h ← encode_ascii (format_04x length);
      r ← bytearray_append (result ++ h) band;
      side_band_loop chunk_size data band rest (r ++ chunk)
  end.

(** [format_side_band] with its local [chunk_size] as a parameter. *)
Definition format_side_band_chunked (chunk_size : Z) (data : bytes) (band : Z)
  : Res bytes :=
  result ← side_band_loop chunk_size data band
             (range_step (len data) chunk_size) [];
  Ok (result ++ b "0000").

Definition chunk_size : Z := 65519.

Definition format_side_band (data : bytes) (band : Z) : Res bytes :=
  format_side_band_chunked chunk_size data band.

(** ** [format_pack_response] *)
Definition nak : bytes := b "NAK" ++ [x0a].

Definition format_pack_response (pack_data : bytes) : Res bytes :=
  h ← encode_ascii (format_04x (len nak + 4));
  side ← format_side_band pack_data 1;
  Ok ((h ++ nak) ++ side).

(** ** The synthesis collaborator ([CDKTFHandler.synthesize]) *)

(** A path is the list of its components; the file system is the set of
    the paths that exist. *)
Abbreviation path := (list str).
Abbreviation filesystem := (gset path).

(** What running the project's code and the synthesis does, as far as
    the handlers can tell: an exception raised by [exec], [App], the
    stack or [synth] (of any class: the project's code may call
    [sys.exit]), no [MyStack] in the namespace, no output directory after
    [synth], or an output directory. *)
Inductive synth_outcome : Type :=
| ExecRaises (x : exn)
| NoMyStack
| NoOutputDir
| Synthesized.

(** The surroundings of one request: the handler's [project_path], the
    project's [main.py] ([None] when there is no such file, otherwise the
    result of reading it), the directory [tempfile.mkdtemp] makes, the
    outcome of the synthesis of a source text, the paths that the run
    leaves in the file system whatever its outcome (what the project's
    code writes, and what [App(outdir=...)] creates before [MyStack] is
    looked up), what [os.walk] finds below a directory (the regular files
    in the order it yields them, each with its path relative to the
    directory and the result of reading it as text), and what a call of
    [shutil.rmtree] fails to remove (nothing when it succeeds; otherwise
    it raises, and every caller logs the exception and goes on). *)
Record env : Type := Env {
  project_path : option str;
  main_py : option (Res str);
  mkdtemp : Res str;
  run_cdktf : str → synth_outcome;
  written : str → filesystem;
  walk : path → list (str * Res str);
  undeleted : path → filesystem
}.

(** [try: shutil.rmtree(d) except Exception: log]: what is at or below
    [d] goes, apart from what the call fails to remove. *)
Definition rmtree (e : env) (d : path) (fs : filesystem) : filesystem :=
  filter (fun p => ¬ d `prefix_of` p ∨ p ∈ undeleted e d) fs.

(** [os.path.exists(d)] *)
Definition exists_path (d : path) (fs : filesystem) : bool :=
  bool_decide (d ∈ fs).

Definition out_dir (temp_dir : path) : path := temp_dir ++ [s "cdktf.out"].

Definition write_files (synth_dir : path) (files : list (str * Res str))
  : filesystem :=
  list_to_set (map (fun f => synth_dir ++ [f.1]) files).

(** Returns the output directory, [None], or the exception that leaves
    the function, and the file system it leaves. The [except Exception]
    clause removes [temp_dir] (when [mkdtemp] has returned); the two
    [return None] inside the [try] do not, and neither does an exception
    that the clause does not catch. *)
Definition synthesize (e : env) (cdktf_code : str) (fs : filesystem)
  : Res (option path) * filesystem :=
  match mkdtemp e with
  | Raise x => (except_Exception (Raise x) None, fs)
  | Ok name =>
      let temp_dir := [name] in
      let fs1 := written e cdktf_code ∪ ({[temp_dir]} ∪ fs) in
      match run_cdktf e cdktf_code with
      | ExecRaises x =>
          if is_exception x then
            (Ok None,
             if exists_path temp_dir fs1 then rmtree e temp_dir fs1 else fs1)
          else (Raise x, fs1)
      | NoMyStack => (Ok None, fs1)
      | NoOutputDir => (Ok None, fs1)
      | Synthesized =>
          let synth_dir := out_dir temp_dir in
          (Ok (Some synth_dir),
           {[synth_dir]} ∪ write_files synth_dir (walk e synth_dir) ∪ fs1)
      end
  end.

(** ** Building the objects of a synthesis *)

(** [get_project_dir]: [os.path.join] refuses a project path of [None]. *)
Definition get_project_dir (e : env) : Res str :=
  match project_path e with
  | Some p => Ok p
  | None => Raise TypeError
  end.

(** [open(main_py_path, 'r')] and [f.read()] *)
Definition read_main_py (e : env) : Res str :=
  match main_py e with
  | Some r => r
  | None => Raise FileNotFoundError
  end.

(** The [os.walk] loop of both flows. *)
Fixpoint collect_objects (files : list (str * Res str)) (objects : list entry)
  : Res (list entry) :=
  match files with
  | [] => Ok objects
  | (rel_path, read) :: rest =>
      content ← read;
      '(hash_value, blob) ← create_blob content;
      collect_objects rest (objects ++ [(rel_path, hash_value, blob)])
  end.

(** The finally-clause of both flows. *)
Definition cleanup (e : env) (synth_dir : option path) (fs : filesystem)
  : filesystem :=
  match synth_dir with
  | Some d => if exists_path d fs then rmtree e d fs else fs
  | None => fs
  end.

(** ** [get_refs] *)

Definition zero_hash : str := replicate 40 48%N.

Definition capabilities : str :=
  s "multi_ack thin-pack side-band side-band-64k ofs-delta shallow deepen-since deepen-not deepen-relative no-progress include-tag multi_ack_detailed symref=HEAD:refs/heads/main agent=git/2.43.0".

(** [f"{len(line) + 4:04x}{line}"] *)
Definition pkt_text (line : str) : str := format_04x (len line + 4) ++ line.

Definition head_line (commit_hash : str) : str :=
  commit_hash ++ s " HEAD" ++ [0%N] ++ capabilities ++ [LF].

Definition main_line (commit_hash : str) : str :=
  commit_hash ++ s " refs/heads/main" ++ [LF].

Definition advertisement (commit_hash : str) : Res bytes :=
  let first_pkt := pkt_text (s "# service=git-upload-pack" ++ [LF]) in
  let second_pkt := s "0000" in
  let third_pkt := pkt_text (head_line commit_hash) in
  let fourth_pkt := pkt_text (main_line commit_hash) in
  let final_pkt := s "0000" in
  encode_utf8 (first_pkt ++ second_pkt ++ third_pkt ++ fourth_pkt ++ final_pkt).

(** The part of the [try] after [synthesize] returned [synth_dir]. *)
Definition refs_commit_hash (files : list (str * Res str)) : Res str :=
  objects ← collect_objects files [];
  match objects with
  | _ :: _ =>
      '(tree_hash, _) ← create_tree objects;
      '(commit_hash, _) ← create_commit tree_hash;
      Ok commit_hash
  | [] => Ok zero_hash
  end.

(** The [try]: the commit hash (or the exception), the value of
    [synth_dir] when the [try] is left, and the file system. *)
Definition get_refs_try (e : env) (fs : filesystem)
  : Res str * option path * filesystem :=
  match get_project_dir e with
  | Raise x => (Raise x, None, fs)
  | Ok _ =>
      match read_main_py e with
      | Raise x => (Raise x, None, fs)
      | Ok cdktf_code =>
          let '(synth_dir, fs1) := synthesize e cdktf_code fs in
          match synth_dir with
          | Raise x => (Raise x, None, fs1)
          | Ok None => (Ok zero_hash, None, fs1)
          | Ok (Some d) => (refs_commit_hash (walk e d), Some d, fs1)
          end
      end
  end.

(** The [except Exception] clause gives the zero identity; the [finally]
    clause runs in every case; an exception that the clause does not
    catch leaves [get_refs] after it. *)
Definition get_refs (e : env) (fs : filesystem) : Res bytes * filesystem :=
  let '(r, synth_dir, fs1) := get_refs_try e fs in
  let fs2 := cleanup e synth_dir fs1 in
  (commit_hash ← except_Exception r zero_hash; advertisement commit_hash, fs2).

(** ** [generate_pack] *)

Section Fetch.

Variable zlib_compress : bytes → bytes.

(** From the objects of the walk to the response. *)
Definition pack_objects_of (objects : list entry) (tree commit : pobject)
  : list pobject :=
  let pack_objects := map (fun o : entry => (entry_hash o, entry_blob o)) objects in
  let pack_objects := pack_objects ++ [tree] in
  let pack_objects := pack_objects ++ [commit] in
  sorted fst pack_objects.

Definition build_response (files : list (str * Res str))
  : Res (option bytes) :=
  objects ← collect_objects files [];
  match objects with
  | [] => Ok None
  | _ :: _ =>
      '(tree_hash, tree_content) ← create_tree objects;
      '(commit_hash, commit_content) ← create_commit tree_hash;
      let pack_objects :=
        pack_objects_of objects (tree_hash, tree_content)
                        (commit_hash, commit_content) in
      pack_data ← create_packfile zlib_compress pack_objects;
      r ← format_pack_response pack_data;
      Ok (Some r)
  end.

Definition generate_pack_try (e : env) (fs : filesystem)
  : Res (option bytes) * option path * filesystem :=
  match get_project_dir e with
  | Raise x => (Raise x, None, fs)
  | Ok _ =>
      match main_py e with
      | None => (Ok None, None, fs)
      | Some (Raise x) => (Raise x, None, fs)
      | Some (Ok cdktf_code) =>
          let '(synth_dir, fs1) := synthesize e cdktf_code fs in
          match synth_dir with
          | Raise x => (Raise x, None, fs1)
          | Ok None => (Ok None, None, fs1)
          | Ok (Some d) => (build_response (walk e d), Some d, fs1)
          end
      end
  end.

(** The outer [option] is the fuel of [parse_request]; inside it, the
    value returned (Python's [Optional[bytes]]) or the exception that the
    [except Exception] clause does not catch. *)
Definition generate_pack (fuel : nat) (e : env) (fs : filesystem)
  (request_data : bytes) : option (Res (option bytes) * filesystem) :=
  match parse_request fuel request_data with
  | None => None
  | Some [] => Some (Ok None, fs)
  | Some (_ :: _) =>
      let '(r, synth_dir, fs1) := generate_pack_try e fs in
      Some (except_Exception r None, cleanup e synth_dir fs1)
  end.

End Fetch.

End Git.

(* ===================================================================== *)
(** * The reader of a side-band stream, as the specification words it *)
(* ===================================================================== *)

Module PktLine.

Inductive packet : Type :=
| Flush
| Data (body : bytes).

(** Four hexadecimal digits. *)
Definition hex4 (l : bytes) : option Z :=
  match map (fun x => Py.hex_value (Byte.to_N x)) l with
  | [Some a; Some b; Some c; Some d] => Some (((a * 16 + b) * 16 + c) * 16 + d)
  | _ => None
  end.

(** Decode: scan consecutive 4-hex-digit length prefixes; [0000] is a
    flush; otherwise the next [length - 4] bytes are the body. Every turn
    consumes at least four bytes, so the length of the input is fuel
    enough. *)
Fixpoint decode_fuel (fuel : nat) (l : bytes) : option (list packet) :=
  match l with
  | [] => Some []
  | _ :: _ =>
      match fuel with
      | O => None
      | S fuel' =>
          match hex4 (take 4 l) with
          | None => None
          | Some 0 => rest ← decode_fuel fuel' (drop 4 l); Some (Flush :: rest)
          | Some n =>
              if (n <? 4) || (Z.of_nat (length l) <? n) then None
              else
                let body := take (Z.to_nat (n - 4)) (drop 4 l) in
                rest ← decode_fuel fuel' (drop (Z.to_nat n) l);
                Some (Data body :: rest)
          end
      end
  end.

Definition decode (l : bytes) : option (list packet) :=
  decode_fuel (length l) l.

(** The bodies of the non-flush packets, each without its band byte. *)
Definition band_payload (p : packet) : bytes :=
  match p with
  | Flush => []
  | Data body => drop 1 body
  end.

Definition demultiplex (ps : list packet) : bytes :=
  concat (map band_payload ps).

(** Encode: four lower-case hexadecimal digits for the length of the
    payload plus 4, then the payload. *)
Definition length_field (n : Z) : bytes :=
  map (fun d => Py.byte_of (Z.of_N (Py.hex_digit d)))
      [n / 4096 mod 16; n / 256 mod 16; n / 16 mod 16; n mod 16].

Definition encode (payload : bytes) : bytes :=
  length_field (Py.len payload + 4) ++ payload.

Definition flush : bytes := Py.b "0000".

End PktLine.

(* ===================================================================== *)
(** * Vocabulary of the specification *)
(* ===================================================================== *)

Module Spec.

Import Py.

(** The bytes of a text of ASCII characters. *)
Definition ascii_bytes (t : str) : bytes := map (fun c => byte_of (Z.of_N c)) t.

(** The UTF-8 bytes of a text that can be encoded. *)
Definition utf8 (t : str) : bytes :=
  match encode_utf8 t with
  | Ok x => x
  | Raise _ => []
  end.

(** The store encoding ["<type> <payload-length>\0<payload>"]. *)
Definition store (type : string) (payload : bytes) : bytes :=
  b type ++ b " " ++ ascii_bytes (str_of_int (len payload)) ++ [x00] ++ payload.

(** One tree entry: ["100644 <path>\0"] and the raw identity bytes. *)
Definition tree_entry (path : str) (identity : bytes) : bytes :=
  b "100644 " ++ utf8 path ++ [x00] ++ identity.

(** The reference advertisement for a commit identity: the service
    line, a flush, the HEAD line with the capabilities after a NUL, the
    line of the default branch, a flush. *)
Definition advertised (identity : bytes) : bytes :=
  PktLine.encode (b "# service=git-upload-pack" ++ [x0a])
  ++ PktLine.flush
  ++ PktLine.encode (identity ++ b " HEAD" ++ [x00]
                     ++ ascii_bytes Git.capabilities ++ [x0a])
  ++ PktLine.encode (identity ++ b " refs/heads/main" ++ [x0a])
  ++ PktLine.flush.

(** The all-zero identity, 40 characters. *)
Definition zero_identity : bytes := replicate 40 "0"%byte.

(** A tree entry whose identity is given by its 20 raw bytes, as
    [create_tree] receives it: with the identity in hexadecimal. *)
Definition hex_entry (o : str * bytes * bytes) : Git.entry :=
  (o.1.1, hex_of_bytes o.1.2, o.2).

End Spec.

(** A request whose two packets send [parse_request] from offset 0 to
    offset 4 and from offset 4 back to offset 0. *)
Definition looping_request : bytes := Py.b "0004-004".


Module PackSpec.

Import Py.

(** Big-endian 32-bit field. *)
Definition be32 (n : Z) : bytes :=
  [byte_of (n / 2 ^ 24 mod 256); byte_of (n / 2 ^ 16 mod 256);
   byte_of (n / 2 ^ 8 mod 256); byte_of (n mod 256)].

(** The bytes of a size/type header: [c] holds the bits carried by the
    byte being emitted and [rest] the size bits that remain. A byte has
    bit 7 set when more size bits remain; each following byte carries the
    next 7 bits; [n] is the number of bytes that follow the first. *)
Fixpoint varint (n : nat) (rest c : Z) : list Z :=
  match n with
  | O => [c]
  | S n' => Z.lor 0x80 c :: varint n' (Z.shiftr rest 7) (Z.land rest 0x7f)
  end.

(** The number of 7-bit groups needed for [rest]. *)
Definition size_groups (rest : Z) : nat :=
  if rest <=? 0 then O else S (Z.to_nat (Z.log2 rest / 7)).

(** First byte [(type << 4) | (size & 0xF)], then the remaining size. *)
Definition object_header (type size : Z) : bytes :=
  map byte_of
      (varint (size_groups (Z.shiftr size 4)) (Z.shiftr size 4)
              (Z.lor (Z.shiftl type 4) (Z.land size 0xF))).

(** One pack entry: header and compressed payload. *)
Definition pack_entry (zlib_compress : bytes → bytes) (o : Git.pobject) : bytes :=
  let payload := Git.strip_header o.2 in
  object_header (Git.obj_type o.2) (len payload) ++ zlib_compress payload.

(** Everything in front of the trailer. *)
Definition pack_body (zlib_compress : bytes → bytes) (objects : list Git.pobject)
  : bytes :=
  b "PACK" ++ be32 2 ++ be32 (len objects)
  ++ concat (map (pack_entry zlib_compress) objects).

(** The integrity check of a pack: its last 20 bytes are the digest of
    all the bytes before them. *)
Definition trailer_ok (pack : bytes) : Prop :=
  drop (length pack - 20) pack = SHA1.digest (take (length pack - 20) pack).

(** Reading a size/type header back: the type and the size, from the
    bytes of the header. *)
Fixpoint read_size (l : list Z) (shift : Z) : Z :=
  match l with
  | [] => 0
  | x :: l' => Z.shiftl (Z.land x 0x7f) shift + read_size l' (shift + 7)
  end.

Definition read_header (hdr : bytes) : Z * Z :=
  match map byte_val hdr with
  | [] => (0, 0)
  | x :: l => (Z.land (Z.shiftr x 4) 7, Z.land x 0xF + read_size l 4)
  end.

End PackSpec.


(* ===================================================================== *)
(** * The objects of a synthesis *)
(* ===================================================================== *)

Module Objects.

Import Py.

(** The kinds of object, their names in a store and their type numbers
    in a pack. *)
Inductive kind : Type := Commit | Tree | Blob.

Definition kind_name (k : kind) : string :=
  match k with
  | Commit => "commit"
  | Tree => "tree"
  | Blob => "blob"
  end.

Definition kind_code (k : kind) : Z :=
  match k with
  | Commit => 1
  | Tree => 2
  | Blob => 3
  end.

(** An object: its kind and its payload. Its identity is the SHA-1
    digest of its store, written as 40 hexadecimal characters. *)
Definition object : Type := kind * bytes.

Definition store_of (o : object) : bytes := Spec.store (kind_name o.1) o.2.
Definition raw_identity (o : object) : bytes := SHA1.digest (store_of o).
Definition identity (o : object) : str := SHA1.hexdigest (store_of o).

(** The object as the handlers pass it to the encoder. *)
Definition to_pobject (o : object) : Git.pobject := (identity o, store_of o).

(** The blob of a file's content, the tree that lists files (path and
    content) in the order given, and the commit of a tree. *)
Definition blob_of (content : str) : object := (Blob, Spec.utf8 content).

Definition tree_of (listed : list (str * str)) : object :=
  (Tree,
   concat (map (fun f => Spec.tree_entry f.1 (raw_identity (blob_of f.2)))
               listed)).

Definition commit_of (tree : object) : object :=
  (Commit, Spec.ascii_bytes (Git.commit_text (identity tree))).

(** The entry of an object in a pack, and the pack of a list of objects
    in the order given: header, entries, SHA-1 of all that precedes. *)
Definition pack_entry (zlib_compress : bytes → bytes) (o : object) : bytes :=
  PackSpec.object_header (kind_code o.1) (len o.2) ++ zlib_compress o.2.

Definition pack_body (zlib_compress : bytes → bytes) (objects : list object)
  : bytes :=
  b "PACK" ++ PackSpec.be32 2 ++ PackSpec.be32 (len objects)
  ++ concat (map (pack_entry zlib_compress) objects).

Definition pack (zlib_compress : bytes → bytes) (objects : list object) : bytes :=
  pack_body zlib_compress objects ++ SHA1.digest (pack_body zlib_compress objects).

(** A file as [os.walk] and [open] deliver it when it can be read, and
    the entry that the walk loop appends for it, with the digest in raw
    bytes and in hexadecimal. *)
Definition read_file (f : str * str) : str * Res str := (f.1, Ok f.2).

Definition raw_file (f : str * str) : str * bytes * bytes :=
  (f.1, raw_identity (blob_of f.2), store_of (blob_of f.2)).

Definition entry_of_file (f : str * str) : Git.entry :=
  (f.1, identity (blob_of f.2), store_of (blob_of f.2)).

(** A file whose path and content UTF-8 can encode. *)
Definition encodable_file (f : str * str) : Prop :=
  is_ok (encode_utf8 f.1) = true ∧ is_ok (encode_utf8 f.2) = true.

End Objects.


(* ===================================================================== *)
(** * Scenarios *)
(* ===================================================================== *)

Module Scenario.

Import Py Spec Git.

(** The surroundings in which the synthesis succeeds and [os.walk] finds
    [files] below the output directory. *)
Definition synthesizes (e : env) (files : list (str * Res str)) : Prop :=
  ∃ p cdktf_code name,
    project_path e = Some p
    ∧ main_py e = Some (Ok cdktf_code)
    ∧ mkdtemp e = Ok name
    ∧ run_cdktf e cdktf_code = Synthesized
    ∧ walk e (out_dir [name]) = files.

(** Scenario A: one file [hello.txt] containing ["hi\n"]. *)
Definition hello_files : list (str * Res str) :=
  [(s "hello.txt", Ok (s "hi" ++ [LF]))].

Definition hello_blob : pobject :=
  let st := store "blob" (b "hi" ++ [x0a]) in (SHA1.hexdigest st, st).

Definition hello_env : env :=
  {| project_path := Some (s "your-cdktf-project");
     main_py := Some (Ok (s "class MyStack(TerraformStack): pass"));
     mkdtemp := Ok (s "tmpk3v9");
     run_cdktf := fun _ => Synthesized;
     written := fun _ => ∅;
     walk := fun _ => hello_files;
     undeleted := fun _ => ∅ |}.

(** The three objects of Scenario A, in the order of their identities
    (45b9..., 7a28..., aec7...). *)
Definition hello_blob_object : Objects.object := (Objects.Blob, b "hi" ++ [x0a]).

Definition hello_tree_object : Objects.object :=
  (Objects.Tree,
   b "100644 hello.txt" ++ [x00] ++ Objects.raw_identity hello_blob_object).

Definition hello_commit_object : Objects.object :=
  Objects.commit_of hello_tree_object.

Definition hello_objects : list Objects.object :=
  [hello_blob_object; hello_tree_object; hello_commit_object].

(** Surroundings in which the project's code raises. *)
Definition failing_env : env :=
  {| project_path := Some (s "your-cdktf-project");
     main_py := Some (Ok (s "raise RuntimeError"));
     mkdtemp := Ok (s "tmpk3v9");
     run_cdktf := fun _ => ExecRaises RuntimeError;
     written := fun _ => ∅;
     walk := fun _ => [];
     undeleted := fun _ => ∅ |}.

(** Surroundings in which the project's code calls [sys.exit]. *)
Definition exiting_env : env :=
  {| project_path := Some (s "your-cdktf-project");
     main_py := Some (Ok (s "import sys; sys.exit(1)"));
     mkdtemp := Ok (s "tmpk3v9");
     run_cdktf := fun _ => ExecRaises SystemExit;
     written := fun _ => ∅;
     walk := fun _ => [];
     undeleted := fun _ => ∅ |}.


(** Surroundings in which the project's code defines no [MyStack];
    [App(outdir=...)] has made its directories by then. *)
Definition no_stack_env : env :=
  {| project_path := Some (s "your-cdktf-project");
     main_py := Some (Ok (s "pass"));
     mkdtemp := Ok (s "tmpk3v9");
     run_cdktf := fun _ => NoMyStack;
     written := fun _ =>
       {[ [s "tmpk3v9"; s "cdktf.out"];
          [s "tmpk3v9"; s "cdktf.out"; s "stacks"] ]};
     walk := fun _ => [];
     undeleted := fun _ => ∅ |}.

(** Two requests with one want line each, for different identities. *)
Definition want_request : bytes :=
  b "0032want 45b983be36b73c0788dc9cbcb76cbb80fc7bb057" ++ [x0a] ++ b "0000".

Definition other_want_request : bytes :=
  b "0032want 0000000000000000000000000000000000000000" ++ [x0a] ++ b "0000".

(** Two entries with the same path. *)
Definition twin_a : entry := (s "a", replicate 40 48%N, []).
Definition twin_b : entry := (s "a", replicate 40 49%N, []).

(** Scenario D: files at [b.txt] and [a.txt]. *)
Definition entry_b : str * bytes * bytes := (s "b.txt", replicate 20 x22, []).
Definition entry_a : str * bytes * bytes := (s "a.txt", replicate 20 x11, []).

(** A full chunk of the side-band multiplexer. *)
Definition full_chunk : bytes := replicate (Z.to_nat 65519) x00.

End Scenario.


(* ===================================================================== *)
(** * Failures of the advertisement flow *)
(* ===================================================================== *)

Module Failure.

Import Git.





End Failure.


(* ===================================================================== *)
(** * Vocabulary of the statements *)
(* ===================================================================== *)

(** The order of [str], as propositions. *)
Definition str_lt (a c : str) : Prop := Py.str_ltb a c = true.
Definition str_le (a c : str) : Prop := Py.str_ltb c a = false.

(** The order of the elements that [sorted] compares by their keys. *)
Definition key_le {A} (key : A → str) (x y : A) : Prop := str_le (key x) (key y).
Definition key_lt {A} (key : A → str) (x y : A) : Prop := str_lt (key x) (key y).

(** A text of ASCII characters. *)
Definition is_ascii (t : str) : Prop := Forall (fun c => (c < 128)%N) t.

(** An entry that [create_tree] can encode: a path without lone
    surrogates and an identity of 20 bytes. *)
Definition encodable (o : str * bytes * bytes) : Prop :=
  is_ok (Py.encode_utf8 o.1.1) = true ∧ length o.1.2 = 20%nat.

(** The payload of a tree, for entries in the order given. *)
Definition tree_payload (l : list (str * bytes * bytes)) : bytes :=
  concat (map (fun o => Spec.tree_entry o.1.1 o.1.2) l).

(** The bytes that [bytes.fromhex] reads from an identity written in
    hexadecimal (in either case). *)
Definition raw_of_hex (h : str) : bytes :=
  match Py.fromhex h with
  | Ok d => d
  | Raise _ => []
  end.

(** An entry as [create_tree] receives it, that it can encode: a path
    without lone surrogates and an identity that is the hexadecimal form
    of 20 bytes. *)
Definition encodable_entry (o : Git.entry) : Prop :=
  is_ok (Py.encode_utf8 (Git.entry_path o)) = true
  ∧ ∃ d, Py.fromhex (Git.entry_hash o) = Ok d ∧ length d = 20%nat.

(** The payload of a tree, for such entries in the order given. *)
Definition entries_payload (l : list Git.entry) : bytes :=
  concat (map (fun o => Spec.tree_entry (Git.entry_path o)
                                        (raw_of_hex (Git.entry_hash o))) l).

(** What [collect_objects] appends: one entry per file, in the order of
    the walk, each with the blob of the file's content. *)
Definition blob_of_file (f : str * Res str) (o : Git.entry) : Prop :=
  ∃ content,
    f.2 = Ok content
    ∧ Git.create_blob content = Ok (Git.entry_hash o, Git.entry_blob o)
    ∧ Git.entry_path o = f.1.

(** The starts [j0 * cs, (j0 + 1) * cs, ...] of [k] consecutive chunks. *)
Definition starts_from (cs : Z) (j0 k : nat) : list Z :=
  map (fun j => Z.of_nat j * cs) (seq j0 k).

(** Whether the four digits of [f"{n:04x}"] read back as [n]. *)
Definition hex4_roundtrip_at (n : Z) : bool :=
  match Py.encode_ascii (Py.format_04x n) with
  | Ok h =>
      (length h =? 4)%nat &&
      match PktLine.hex4 h with
      | Some m => m =? n
      | None => false
      end
  | Raise _ => false
  end.

Definition digits16 : list Z := map Z.of_nat (seq 0 16).


(* ===================================================================== *)
(** * Vocabulary of the further properties *)
(* ===================================================================== *)

Module Wire.

Import Py.

(** The text of a byte string of ASCII characters. *)
Definition ascii_text (l : bytes) : str := map Byte.to_N l.

Definition all_ascii (l : bytes) : bool := forallb (fun x => byte_val x <? 128) l.

(** A want line as a client sends it: the packet-line of ["want "], the
    40 characters of the identity and whatever follows them (capabilities,
    a line feed). *)
Definition want_line (w : bytes * bytes) : bytes :=
  PktLine.encode (b "want " ++ w.1 ++ w.2).

(** An identity of 40 ASCII characters, and a line that fits the four
    digits of the length field. *)
Definition well_formed_want (w : bytes * bytes) : Prop :=
  length w.1 = 40%nat ∧ all_ascii w.1 = true ∧ len w.2 < 65000.

(** No minus sign among the bytes. *)
Definition no_minus (data : bytes) : bool :=
  forallb (fun x => negb (Byte.eqb x "-"%byte)) data.

(** Whether [int(text, 16)] reads the four digits of a length field back,
    through [decode('ascii')]. *)
Definition int16_roundtrip_at (n : Z) : bool :=
  match decode_ascii (PktLine.length_field n) ≫= int16 with
  | Ok m => m =? n
  | Raise _ => false
  end.

(** Whether [f"{n:04x}"], encoded, is the length field of [n]. *)
Definition length_field_at (n : Z) : bool :=
  match encode_ascii (format_04x n), PktLine.length_field n with
  | Ok [x1; x2; x3; x4], [y1; y2; y3; y4] =>
      Byte.eqb x1 y1 && Byte.eqb x2 y2 && Byte.eqb x3 y3 && Byte.eqb x4 y4
  | _, _ => false
  end.

(** The chunks of the side-band multiplexer: [k] consecutive pieces of
    [cs] bytes (the last one may be shorter). *)
Definition chunk (cs : Z) (data : bytes) (j : nat) : bytes :=
  take (Z.to_nat cs) (drop (Z.to_nat (Z.of_nat j * cs)) data).

Definition chunks (cs : Z) (k : nat) (data : bytes) : list bytes :=
  map (chunk cs data) (seq 0 k).

(** The number of chunks: the length divided by the chunk size, rounded
    up. *)
Definition chunk_count (cs : Z) (data : bytes) : nat :=
  Z.to_nat ((len data + cs - 1) / cs).

(** One side-band packet-line: length field, band byte, chunk. *)
Definition frame (band : Z) (chunk : bytes) : bytes :=
  PktLine.length_field (len chunk + 5) ++ [byte_of band] ++ chunk.

(** A big-endian 32-bit field read back. *)
Definition read_be32 (l : bytes) : Z :=
  fold_left (fun acc x => acc * 256 + byte_val x) l 0.

(** 40 hexadecimal digits in lower case. *)
Definition is_hex40 (id : bytes) : Prop :=
  length id = 40%nat
  ∧ Forall (fun x => (48 <= byte_val x <= 57) ∨ (97 <= byte_val x <= 102)) id.

End Wire.


(* ===================================================================== *)
(** * The routes of [app.py] *)
(* ===================================================================== *)

Module App.

Import Py Git.

(** What the routes find outside the process: the [main.py] of each
    project directory ([None] when there is none), and the synthesis
    collaborator as in [Git.env]. *)
Record world : Type := World {
  main_py_of : str → option (Res str);
  world_mkdtemp : Res str;
  world_run_cdktf : str → synth_outcome;
  world_written : str → filesystem;
  world_walk : path → list (str * Res str);
  world_undeleted : path → filesystem
}.

(** The one [GitHandler] object of the module: its [project_path]. *)
Definition handler : Type := option str.

(** [set_project_path] *)
Definition set_project_path (h : handler) (project_path : str) : handler :=
  Some project_path.

(** The surroundings of a call on the handler. *)
Definition env_of (w : world) (h : handler) : env :=
  {| project_path := h;
     main_py := match h with
                | Some p => main_py_of w p
                | None => None
                end;
     mkdtemp := world_mkdtemp w;
     run_cdktf := world_run_cdktf w;
     written := world_written w;
     walk := world_walk w;
     undeleted := world_undeleted w |}.

(** A reply: status, body and the mimetype given to [Response] ([None]
    for a plain text reply). *)
Record response : Type := Response {
  status : Z;
  body : bytes;
  mimetype : option str
}.

Fixpoint str_eqb (a c : str) : bool :=
  match a, c with
  | [], [] => true
  | x :: a', y :: c' => (x =? y)%N && str_eqb a' c'
  | _, _ => false
  end.

(** [x != text] for an optional argument or header. *)
Definition differs (x : option str) (text : str) : bool :=
  match x with
  | Some v => negb (str_eqb v text)
  | None => true
  end.

(** [info_refs]: the reply (or the exception that leaves the function),
    the handler and the file system afterwards. *)
Definition info_refs (w : world) (h : handler) (fs : filesystem)
  (project : str) (service : option str)
  : Res response * handler * filesystem :=
  if differs service (s "git-upload-pack") then
    (Ok (Response 400 (b "Service not available") None), h, fs)
  else
    let h' := set_project_path h project in
    let '(refs_data, fs') := get_refs (env_of w h') fs in
    (data ← refs_data;
     Ok (Response 200 data
           (Some (s "application/x-git-upload-pack-advertisement"))),
     h', fs').

(** [git_upload_pack]; [None] when [parse_request] has not returned
    within the fuel. The [except Exception] clause of the route replies
    500; an exception of another class leaves the route. *)
Definition git_upload_pack (zlib_compress : bytes → bytes) (fuel : nat)
  (w : world) (h : handler) (fs : filesystem) (project : str)
  (content_type : option str) (data : bytes)
  : option (Res response * handler * filesystem) :=
  if differs content_type (s "application/x-git-upload-pack-request") then
    Some (Ok (Response 400 (b "Invalid content type") None), h, fs)
  else
    let h' := set_project_path h project in
    match generate_pack zlib_compress fuel (env_of w h') fs data with
    | None => None
    | Some (pack_data, fs') =>
        let reply :=
          match pack_data with
          | Ok None | Ok (Some []) =>
              Ok (Response 500 (b "Failed to generate pack data") None)
          | Ok (Some (x :: r)) =>
              Ok (Response 200 (x :: r)
                    (Some (s "application/x-git-upload-pack-result")))
          | Raise x =>
              except_Exception (Raise x)
                (Response 500 (b "Internal server error") None)
          end in
        Some (reply, h', fs')
    end.

End App.

(* ===================================================================== *)
(** * Conditions of the fetch flow *)
(* ===================================================================== *)

Module Fetch.

Import Py Git.

(** A file of the synthesis that can become a blob: its relative path and
    its content can be encoded as UTF-8 and it could be read. *)
Definition usable_file (f : str * Res str) : Prop :=
  is_ok (encode_utf8 f.1) = true
  ∧ ∃ content, f.2 = Ok content ∧ is_ok (encode_utf8 content) = true.

(** Everything [generate_pack] needs after the want-list: a project path,
    a readable [main.py], a synthesis with an output directory, at least
    one file, only usable files, and a number of objects that fits the
    count field of a pack. *)
Definition fetchable (e : env) : Prop :=
  ∃ p cdktf_code name,
    project_path e = Some p
    ∧ main_py e = Some (Ok cdktf_code)
    ∧ mkdtemp e = Ok name
    ∧ run_cdktf e cdktf_code = Synthesized
    ∧ walk e (out_dir [name]) ≠ []
    ∧ Forall usable_file (walk e (out_dir [name]))
    ∧ len (walk e (out_dir [name])) + 2 < 2 ^ 32.

(** The entry of a tree with the raw digest of its blob. *)
Definition raw_entry (o : entry) : str * bytes * bytes :=
  (entry_path o, SHA1.digest (entry_blob o), entry_blob o).

(** The surroundings raise [x]: reading [main.py], [mkdtemp], the run of
    the project's code, or reading a file of the output does. *)
Definition raises (e : env) (x : exn) : Prop :=
  main_py e = Some (Raise x)
  ∨ mkdtemp e = Raise x
  ∨ (∃ cdktf_code, run_cdktf e cdktf_code = ExecRaises x)
  ∨ (∃ d rel_path, (rel_path, Raise x) ∈ walk e d).

(** The project's code, and nothing before it, raises [x], which is no
    [Exception]. *)
Definition exits (e : env) (x : exn) : Prop :=
  ∃ p cdktf_code name,
    project_path e = Some p
    ∧ main_py e = Some (Ok cdktf_code)
    ∧ mkdtemp e = Ok name
    ∧ run_cdktf e cdktf_code = ExecRaises x
    ∧ is_exception x = false.

(** Surroundings in which whatever is raised is an [Exception]. *)
Definition tame (e : env) : Prop := ∀ x, raises e x → is_exception x = true.

End Fetch.


(* ===================================================================== *)
(** * Facts about the primitives *)
(* ===================================================================== *)

Section PrimitiveFacts.

Import Py.

Lemma byte_val_range (x : byte) : 0 <= byte_val x < 256.
Proof. destruct x; vm_compute; split; congruence. Qed.

Lemma byte_of_val (x : byte) : byte_of (byte_val x) = x.
Proof. destruct x; reflexivity. Qed.

Lemma len_app {A} (l1 l2 : list A) : len (l1 ++ l2) = len l1 + len l2.
Proof. unfold len. rewrite length_app. lia. Qed.

Lemma len_nonneg {A} (l : list A) : 0 <= len l.
Proof. unfold len. lia. Qed.

(** The primitives agree with Python on these values. *)
Example sha1_empty :
  SHA1.hexdigest [] = s "da39a3ee5e6b4b0d3255bfef95601890afd80709".
Proof. vm_compute. reflexivity. Qed.

Example sha1_abc :
  SHA1.hexdigest (b "abc") = s "a9993e364706816aba3e25717850c26c9cd0d89d".
Proof. vm_compute. reflexivity. Qed.

Example sha1_55_bytes :
  SHA1.hexdigest (replicate 55 "a"%byte)
  = s "c1c8bbdc22796e28c0e15163d20899b65621d65a".
Proof. vm_compute. reflexivity. Qed.

Example sha1_56_bytes :
  SHA1.hexdigest (replicate 56 "a"%byte)
  = s "c2db330f6083854c99d4b5bfb6e8f29f201be699".
Proof. vm_compute. reflexivity. Qed.

Example sha1_130_bytes :
  SHA1.hexdigest (replicate 130 "a"%byte)
  = s "e1cd437ec3e8a60db34e1d150a4fc73882d83b41".
Proof. vm_compute. reflexivity. Qed.

Example int16_values :
  map int16 [s "0004"; s "+004"; s " 1a "; s "0x1f"; s "0X1f"; s "0x_1";
             s "1_0a"; s "-0x1"; s "00_0"; [9; 49; 10]%N]
  = map Ok [4; 4; 26; 31; 31; 1; 266; -1; 0; 1].
Proof. vm_compute. reflexivity. Qed.

Example int16_errors :
  forallb (fun t => negb (is_ok (int16 t)))
    [s "_1"; s "1_"; s "1__0"; s ""; s "- 1"; s "0x"; s "0x "; s "-"; s "+";
     s "0_x1"; s "-_1"; s "1 f"; [28; 49]%N; [49; 0; 49]%N]
  = true.
Proof. vm_compute. reflexivity. Qed.

Example format_04x_values :
  map format_04x [65524; 5; 70000; 0] = [s "fff4"; s "0005"; s "11170"; s "0000"].
Proof. vm_compute. reflexivity. Qed.

Example fromhex_values :
  (fromhex (s "0a 0B"), fromhex (s " 0a 0b "), fromhex (s "0 a"), fromhex (s "abc"))
  = (Ok [x0a; x0b], Ok [x0a; x0b], Raise ValueError, Raise ValueError).
Proof. vm_compute. reflexivity. Qed.

Example slice_values :
  (slice (b "abcd") (-1) 3, slice (b "abcd") (-4) 0, slice (b "abcd") 8 0,
   slice (b "abcd") 2 100, slice (b "abcd") (-100) 2)
  = ([], [], [], b "cd", b "ab").
Proof. vm_compute. reflexivity. Qed.

Example sorted_values :
  sorted id [s "b"; s "a"; s "ab"; []; s "B"] = [[]; s "B"; s "a"; s "ab"; s "b"].
Proof. vm_compute. reflexivity. Qed.

Example utf8_values :
  (encode_utf8 [233; 8364; 128512]%N, encode_utf8 [55296]%N)
  = (Ok [xc3; xa9; xe2; x82; xac; xf0; x9f; x98; x80], Raise UnicodeEncodeError).
Proof. vm_compute. reflexivity. Qed.

(** A slice with both ends non-negative and the start inside the list. *)
Lemma slice_take_drop {A} (l : list A) (lo hi : Z) :
  0 <= lo <= len l → lo <= hi →
  slice l lo hi = take (Z.to_nat (hi - lo)) (drop (Z.to_nat lo) l).
Proof.
  intros Hlo Hhi. unfold slice, clamp_index.
  destruct (Z.ltb_spec lo 0); [lia|].
  destruct (Z.ltb_spec hi 0); [lia|].
  rewrite (Z.min_l lo) by lia.
  destruct (Z.le_gt_cases hi (len l)).
  - rewrite Z.min_l by lia. reflexivity.
  - rewrite Z.min_r by lia.
    rewrite !take_ge; [reflexivity| |]; rewrite length_drop; unfold len in *; lia.
Qed.

(** The four digits of [f"{n:04x}"] read back as [n]: checked on every
    value a length field of four digits can take, digit by digit. *)
Lemma hex4_roundtrip_checked :
  forallb (fun a => forallb (fun b => forallb (fun c => forallb (fun d =>
    hex4_roundtrip_at (((a * 16 + b) * 16 + c) * 16 + d))
    digits16) digits16) digits16) digits16 = true.
Proof. vm_compute. reflexivity. Qed.

Lemma in_digits16 (d : Z) : 0 <= d < 16 → In d digits16.
Proof.
  intros H. unfold digits16. apply in_map_iff. exists (Z.to_nat d).
  split; [lia|]. apply in_seq. lia.
Qed.

Lemma format_04x_hex4 (n : Z) :
  0 <= n < 65536 →
  ∃ h, encode_ascii (format_04x n) = Ok h ∧ length h = 4%nat
       ∧ PktLine.hex4 h = Some n.
Proof.
  intros Hn.
  pose proof hex4_roundtrip_checked as Hall.
  rewrite forallb_forall in Hall.
  assert (Ha : 0 <= n / 4096 < 16)
    by (split; [apply Z.div_pos; lia | apply Z.div_lt_upper_bound; lia]).
  specialize (Hall (n / 4096) (in_digits16 _ Ha)).
  rewrite forallb_forall in Hall.
  specialize (Hall (n / 256 mod 16) (in_digits16 _ (Z.mod_pos_bound _ 16 eq_refl))).
  rewrite forallb_forall in Hall.
  specialize (Hall (n / 16 mod 16) (in_digits16 _ (Z.mod_pos_bound _ 16 eq_refl))).
  rewrite forallb_forall in Hall.
  specialize (Hall (n mod 16) (in_digits16 _ (Z.mod_pos_bound _ 16 eq_refl))).
  replace (((n / 4096 * 16 + n / 256 mod 16) * 16 + n / 16 mod 16) * 16 + n mod 16)
    with n in Hall.
  2:{ replace (n / 4096) with (n / 16 / 16 / 16)
        by (rewrite !Z.div_div by lia; reflexivity).
      replace (n / 256) with (n / 16 / 16)
        by (rewrite !Z.div_div by lia; reflexivity).
      pose proof (Z.div_mod n 16 ltac:(lia)).
      pose proof (Z.div_mod (n / 16) 16 ltac:(lia)).
      pose proof (Z.div_mod (n / 16 / 16) 16 ltac:(lia)).
      assert (n / 16 / 16 / 16 < 16).
      { rewrite !Z.div_div by lia. apply Z.div_lt_upper_bound; lia. }
      assert (0 <= n / 16 / 16 / 16) by (repeat apply Z.div_pos; lia).
      lia. }
  unfold hex4_roundtrip_at in Hall.
  destruct (encode_ascii (format_04x n)) as [h|]; [|discriminate].
  exists h. split; [reflexivity|].
  apply andb_prop in Hall as [H1 H2].
  apply Nat.eqb_eq in H1. split; [exact H1|].
  destruct (PktLine.hex4 h) as [m|]; [|discriminate].
  apply Z.eqb_eq in H2. congruence.
Qed.

End PrimitiveFacts.

(* ===================================================================== *)
(** * The side-band multiplexer *)
(* ===================================================================== *)

Section SideBandFacts.

Import Py PktLine.

Lemma decode_fuel_mono (f : nat) : ∀ (l : bytes) (ps : list packet),
  decode_fuel f l = Some ps → ∀ f', (f <= f')%nat → decode_fuel f' l = Some ps.
Proof.
  induction f as [|f IH]; intros l ps H f' Hle.
  - destruct l; simpl in H; [|discriminate].
    destruct f'; exact H.
  - destruct f' as [|f']; [lia|].
    destruct l as [|x l]; [exact H|].
    cbn [decode_fuel] in *.
    destruct (hex4 (take 4 (x :: l))) as [[|n|n]|]; try discriminate;
      repeat match goal with
      | H : context [if ?c then _ else _] |- _ => destruct c; try discriminate
      | H : context [decode_fuel f ?l'] |- _ =>
          let E := fresh "E" in
          destruct (decode_fuel f l') eqn:E; [|discriminate];
          rewrite (IH _ _ E f') by lia
      end; exact H.
Qed.

(** One packet-line in front of a stream that decodes. *)
Lemma decode_frame (h body tail : bytes) (ps : list packet) :
  length h = 4%nat → hex4 h = Some (len body + 4) → 0 < len body →
  decode tail = Some ps →
  decode (h ++ body ++ tail) = Some (Data body :: ps).
Proof.
  intros Hh Hhex Hbody Htail. unfold decode.
  destruct h as [|h0 [|h1 [|h2 [|h3 [|? ?]]]]]; try discriminate Hh.
  set (hh := [h0; h1; h2; h3]) in *.
  assert (Hl : length (hh ++ body ++ tail)
               = S (3 + length body + length tail)%nat).
  { rewrite !length_app. simpl. lia. }
  rewrite Hl. change (hh ++ body ++ tail) with (h0 :: [h1; h2; h3] ++ body ++ tail).
  cbn [decode_fuel].
  change (h0 :: [h1; h2; h3] ++ body ++ tail) with (hh ++ body ++ tail).
  replace (take 4 (hh ++ body ++ tail)) with hh by reflexivity.
  rewrite Hhex.
  assert (Hn : ∃ p, len body + 4 = Z.pos p).
  { destruct (len body + 4) eqn:E; try lia. eauto. }
  destruct Hn as [p Hp]. rewrite Hp.
  rewrite Hl. unfold len in *.
  destruct (Z.ltb_spec (Z.pos p) 4); [lia|].
  destruct (Z.ltb_spec (Z.of_nat (S (3 + length body + length tail))) (Z.pos p));
    [lia|].
  cbn [orb].
  replace (Z.to_nat (Z.pos p - 4)) with (length body) by lia.
  replace (Z.to_nat (Z.pos p)) with (length hh + length body)%nat by (simpl; lia).
  replace (drop 4 (hh ++ body ++ tail)) with (body ++ tail) by reflexivity.
  rewrite take_app_length.
  rewrite <- drop_drop, drop_app_length, drop_app_length.
  rewrite (decode_fuel_mono _ _ _ Htail) by lia.
  reflexivity.
Qed.

Lemma decode_flush : decode (b "0000") = Some [Flush].
Proof. reflexivity. Qed.

Section Chunked.

Variable cs : Z.
Hypothesis cs_pos : 0 < cs.
Hypothesis cs_fits : cs + 5 < 65536.
Variable data : bytes.

(** The chunk that starts at [i], for a start inside the data. *)
Lemma chunk_at (i : Z) :
  0 <= i < len data →
  let chunk := slice data i (i + cs) in
  chunk = take (Z.to_nat cs) (drop (Z.to_nat i) data)
  ∧ 0 < len chunk <= cs
  ∧ chunk ++ drop (Z.to_nat (i + cs)) data = drop (Z.to_nat i) data.
Proof.
  intros Hi chunk. unfold chunk.
  rewrite slice_take_drop by lia.
  replace (i + cs - i) with cs by lia.
  split; [reflexivity|]. split.
  - unfold len in *. rewrite length_take, length_drop. lia.
  - rewrite Z2Nat.inj_add by lia. rewrite <- drop_drop.
    apply take_drop.
Qed.

Lemma side_band_loop_spec (k : nat) : ∀ (j0 : nat) (result : bytes),
  Z.of_nat (j0 + k) = (len data + cs - 1) / cs →
  ∃ frames ps,
    Git.side_band_loop cs data 1 (starts_from cs j0 k) result = Ok (result ++ frames)
    ∧ decode (frames ++ b "0000") = Some (ps ++ [Flush])
    ∧ Forall (fun p => ∃ chunk, p = Data (x01 :: chunk) ∧ 0 < len chunk <= cs) ps
    ∧ demultiplex ps = drop (Z.to_nat (Z.of_nat j0 * cs)) data.
Proof.
  pose proof (len_nonneg data) as Hlen.
  pose proof (Z.div_mod (len data + cs - 1) cs ltac:(lia)) as Hdm.
  pose proof (Z.mod_pos_bound (len data + cs - 1) cs cs_pos) as Hmod.
  induction k as [|k IH]; intros j0 result HK.
  - exists [], []. cbn. rewrite app_nil_r. repeat split; [constructor|].
    symmetry. apply drop_ge. unfold len in *.
    replace (j0 + 0)%nat with j0 in HK by lia. nia.
  - assert (Hi : 0 <= Z.of_nat j0 * cs < len data) by nia.
    destruct (chunk_at _ Hi) as (Hchunk & Hsize & Hrest).
    set (chunk := slice data (Z.of_nat j0 * cs) (Z.of_nat j0 * cs + cs)) in *.
    destruct (format_04x_hex4 (len chunk + 5) ltac:(lia)) as (h & Hh & Hh4 & Hhex).
    destruct (IH (S j0) ((result ++ h ++ [x01]) ++ chunk) ltac:(lia))
      as (frames & ps & Hloop & Hdec & Hband & Hdemux).
    exists (h ++ (x01 :: chunk) ++ frames), (Data (x01 :: chunk) :: ps).
    split; [|split; [|split]].
    + unfold starts_from. cbn [seq map Git.side_band_loop].
      fold chunk. rewrite Hh. cbn [mbind Res_bind].
      unfold bytearray_append. change ((0 <=? 1) && (1 <? 256)) with true.
      cbn [mbind Res_bind]. fold (starts_from cs (S j0) k).
      change (byte_of 1) with x01.
      rewrite <- (app_assoc result h [x01]), Hloop.
      f_equal. rewrite <- !app_assoc. reflexivity.
    + rewrite <- !app_assoc.
      apply (decode_frame h (x01 :: chunk) (frames ++ b "0000")); auto.
      * rewrite Hhex. f_equal. unfold len. cbn [length]. lia.
      * unfold len. cbn [length]. lia.
    + constructor; [|exact Hband]. exists chunk. split; [reflexivity|lia].
    + unfold demultiplex in *. cbn [map concat band_payload].
      change (drop 1 (x01 :: chunk)) with chunk. rewrite Hdemux.
      replace (Z.of_nat (S j0) * cs) with (Z.of_nat j0 * cs + cs) by lia.
      exact Hrest.
Qed.

Lemma format_side_band_chunked_spec :
  ∃ out ps,
    Git.format_side_band_chunked cs data 1 = Ok out
    ∧ decode out = Some (ps ++ [Flush])
    ∧ Forall (fun p => ∃ chunk, p = Data (x01 :: chunk) ∧ 0 < len chunk <= cs) ps
    ∧ demultiplex (ps ++ [Flush]) = data.
Proof.
  destruct (side_band_loop_spec (Z.to_nat ((len data + cs - 1) / cs)) 0 [])
    as (frames & ps & Hloop & Hdec & Hband & Hdemux).
  { pose proof (len_nonneg data). rewrite Nat.add_0_l, Z2Nat.id; [reflexivity|].
    apply Z.div_pos; lia. }
  exists (frames ++ b "0000"), ps.
  unfold Git.format_side_band_chunked, Git.range_step.
  fold (starts_from cs 0 (Z.to_nat ((len data + cs - 1) / cs))).
  rewrite Hloop. split; [reflexivity|]. split; [exact Hdec|]. split; [exact Hband|].
  unfold demultiplex in *. rewrite map_app, concat_app, Hdemux.
  cbn. rewrite app_nil_r. reflexivity.
Qed.

End Chunked.

End SideBandFacts.

(** C5. For every byte string, [format_side_band] (band 1) succeeds; its
    output decodes as packet-lines that are band-1 data packets followed by
    one final flush packet, and the bodies of the data packets, each
    without its band byte, concatenated in order, are the input. *)
Theorem side_band_inverse (data : bytes) :
  ∃ out ps,
    Git.format_side_band data 1 = Ok out
    ∧ PktLine.decode out = Some (ps ++ [PktLine.Flush])
    ∧ Forall (fun p => ∃ chunk, p = PktLine.Data (x01 :: chunk)) ps
    ∧ PktLine.demultiplex (ps ++ [PktLine.Flush]) = data
    ∧ last (ps ++ [PktLine.Flush]) = Some PktLine.Flush.
Proof.
  destruct (format_side_band_chunked_spec Git.chunk_size eq_refl eq_refl data)
    as (out & ps & Hout & Hdec & Hband & Hdemux).
  exists out, ps. repeat split; try assumption.
  - eapply Forall_impl; [exact Hband|].
    intros p (chunk & -> & _). eauto.
  - apply last_snoc.
Qed.

(** C6, at an input of exactly one full chunk: the packet-line that
    carries it is 65524 bytes long (length field [fff4]), four more than
    the 65520 bytes a packet-line may have. *)
Theorem side_band_full_chunk_exceeds_limit :
  let data := Scenario.full_chunk in
  let body := x01 :: data in
  Git.format_side_band data 1 = Ok (Py.b "fff4" ++ body ++ Py.b "0000")
  ∧ PktLine.decode (Py.b "fff4" ++ body ++ Py.b "0000")
    = Some [PktLine.Data body; PktLine.Flush]
  ∧ Py.len (Py.b "fff4" ++ body) = 65524
  ∧ 65520 < Py.len (Py.b "fff4" ++ body).
Proof.
  cbv zeta. repeat split; vm_compute; reflexivity.
Qed.

(* ===================================================================== *)
(** * The request reader *)
(* ===================================================================== *)

Section ParseFacts.

Import Py.

(** A length field may be negative: [int("-004", 16)] is [-4]. *)
Example int16_negative : int16 (s "-004") = Ok (-4).
Proof. reflexivity. Qed.

(** More fuel does not change a result. *)
Lemma parse_loop_mono (f : nat) : ∀ data pos wants r,
  Git.parse_loop f data pos wants = Some r →
  ∀ f', (f <= f')%nat → Git.parse_loop f' data pos wants = Some r.
Proof.
  induction f as [|f IH]; intros data pos wants r H f' Hle.
  - destruct f'; cbn in *; destruct (pos <? len data); congruence.
  - destruct f' as [|f']; [lia|]. cbn [Git.parse_loop] in *.
    destruct (pos <? len data); [|exact H].
    destruct (Git.parse_packet data pos wants) as [[pos' wants']|]; [|exact H].
    apply IH with (f' := f') in H; [exact H|lia].
Qed.

Lemma looping_request_forth :
  Git.parse_packet looping_request 0 [] = Ok (4, []).
Proof. reflexivity. Qed.

Lemma looping_request_back :
  Git.parse_packet looping_request 4 [] = Ok (0, []).
Proof. reflexivity. Qed.

Lemma looping_request_cycle (fuel : nat) :
  Git.parse_loop fuel looping_request 0 [] = None
  ∧ Git.parse_loop fuel looping_request 4 [] = None.
Proof.
  induction fuel as [|fuel [IH0 IH4]]; [split; reflexivity|].
  split.
  - change (Git.parse_loop (S fuel) looping_request 0 [])
      with (Git.parse_loop fuel looping_request 4 []).
    exact IH4.
  - change (Git.parse_loop (S fuel) looping_request 4 [])
      with (Git.parse_loop fuel looping_request 0 []).
    exact IH0.
Qed.

End ParseFacts.

(** C7, at the request body [0004-004]: whatever the number of turns
    allowed, the loop of [parse_request] has not ended, so the call never
    returns a want-list. *)
Theorem parse_request_never_returns (fuel : nat) :
  Git.parse_request fuel looping_request = None.
Proof. apply looping_request_cycle. Qed.

(* ===================================================================== *)
(** * The order of [str] and [sorted] *)
(* ===================================================================== *)

Section OrderFacts.

Import Py.

Lemma str_ltb_irrefl (a : str) : str_ltb a a = false.
Proof.
  induction a as [|x a IH]; [reflexivity|]. cbn.
  rewrite N.ltb_irrefl, N.eqb_refl. exact IH.
Qed.

Lemma str_ltb_trans (a : str) : ∀ c d,
  str_ltb a c = true → str_ltb c d = true → str_ltb a d = true.
Proof.
  induction a as [|x a IH]; intros [|y c] [|z d] H1 H2; cbn in *;
    try discriminate; try reflexivity.
  destruct (N.ltb_spec x y), (N.ltb_spec y z), (N.ltb_spec x z);
    try reflexivity; try lia.
  - destruct (N.eqb_spec y z); [lia|discriminate].
  - destruct (N.eqb_spec x y); [lia|discriminate].
  - destruct (N.eqb_spec x y); [|discriminate].
    destruct (N.eqb_spec y z); [|discriminate].
    destruct (N.eqb_spec x z); [|lia]. eauto.
Qed.

Lemma str_ltb_trichotomy (a : str) : ∀ c,
  str_ltb a c = false → str_ltb c a = false → a = c.
Proof.
  induction a as [|x a IH]; intros [|y c] H1 H2; cbn in *;
    try discriminate; try reflexivity.
  destruct (N.ltb_spec x y), (N.ltb_spec y x); try discriminate; try lia.
  assert (x = y) by lia. subst y. rewrite N.eqb_refl in *.
  f_equal. auto.
Qed.

#[local] Instance str_le_trans : Transitive str_le.
Proof.
  intros a c d H1 H2. unfold str_le in *.
  destruct (str_ltb d a) eqn:E; [|reflexivity].
  destruct (str_ltb c d) eqn:E2.
  - rewrite (str_ltb_trans _ _ _ E2 E) in H1. discriminate.
  - rewrite (str_ltb_trichotomy _ _ E2 H2) in H1. congruence.
Qed.

Lemma str_lt_le (a c : str) : str_lt a c → str_le a c.
Proof.
  unfold str_lt, str_le. intros H.
  destruct (str_ltb c a) eqn:E; [|reflexivity].
  pose proof (str_ltb_trans _ _ _ H E) as F.
  rewrite str_ltb_irrefl in F. discriminate.
Qed.

Section Sorted.

Context {A : Type} (key : A → str).

#[local] Instance key_le_trans : Transitive (key_le key).
Proof. intros x y z. unfold key_le. apply str_le_trans. Qed.

Lemma insert_sorted_perm (x : A) (l : list A) :
  insert_sorted key x l ≡ₚ x :: l.
Proof.
  induction l as [|y l IH]; [reflexivity|]. cbn.
  destruct (str_ltb (key y) (key x)); [|reflexivity].
  rewrite IH. apply Permutation_swap.
Qed.

Lemma sorted_perm (l : list A) : sorted key l ≡ₚ l.
Proof.
  induction l as [|x l IH]; [reflexivity|]. unfold sorted in *. cbn.
  rewrite insert_sorted_perm, IH. reflexivity.
Qed.

Lemma insert_sorted_Sorted (x : A) (l : list A) :
  Sorted (key_le key) l → Sorted (key_le key) (insert_sorted key x l).
Proof.
  induction 1 as [|y l Hl IH Hhd]; cbn.
  - repeat constructor.
  - destruct (str_ltb (key y) (key x)) eqn:E.
    + constructor; [exact IH|].
      destruct Hhd as [|z l' Hyz]; cbn.
      * constructor. apply str_lt_le. exact E.
      * destruct (str_ltb (key z) (key x)); constructor;
          [exact Hyz | apply str_lt_le; exact E].
    + constructor; [constructor; assumption|]. constructor. exact E.
Qed.

Lemma sorted_Sorted (l : list A) : Sorted (key_le key) (sorted key l).
Proof.
  induction l as [|x l IH]; [constructor|].
  apply insert_sorted_Sorted. exact IH.
Qed.

Lemma sorted_StronglySorted (l : list A) :
  StronglySorted (key_le key) (sorted key l).
Proof. apply Sorted_StronglySorted; [apply _|apply sorted_Sorted]. Qed.

Lemma NoDup_key_inj (l : list A) (x y : A) :
  NoDup (map key l) → x ∈ l → y ∈ l → key x = key y → x = y.
Proof.
  induction l as [|z l IH]; intros Hnd Hx Hy Hk; [inv Hx|].
  cbn in Hnd. apply NoDup_cons in Hnd as [Hz Hnd].
  inv Hx; inv Hy; auto.
  - exfalso. apply Hz. rewrite Hk. apply list_elem_of_fmap_2. assumption.
  - exfalso. apply Hz. rewrite <- Hk. apply list_elem_of_fmap_2. assumption.
Qed.

(** With pairwise distinct keys the result does not depend on the order
    of the input. *)
Lemma sorted_permutation_invariant (l1 l2 : list A) :
  NoDup (map key l1) → l1 ≡ₚ l2 → sorted key l1 = sorted key l2.
Proof.
  intros Hnd Hp.
  apply (StronglySorted_unique_strong (key_le key));
    [|apply sorted_StronglySorted..|].
  - intros x1 x2 H1 H2 R12 R21.
    apply (NoDup_key_inj l1); [exact Hnd| | |].
    + rewrite <- (sorted_perm l1). exact H1.
    + rewrite Hp, <- (sorted_perm l2). exact H2.
    + symmetry. apply str_ltb_trichotomy; assumption.
  - rewrite !sorted_perm. exact Hp.
Qed.

(** With pairwise distinct keys the result is strictly ascending. *)
Lemma sorted_strict (l : list A) :
  NoDup (map key l) → StronglySorted (key_lt key) (sorted key l).
Proof.
  intros Hnd.
  assert (Hnd' : NoDup (map key (sorted key l))).
  { rewrite (sorted_perm l). exact Hnd. }
  pose proof (sorted_StronglySorted l) as Hs.
  induction Hs as [|x l' Hs IH Hall]; [constructor|].
  cbn in Hnd'. apply NoDup_cons in Hnd' as [Hx Hnd'].
  constructor; [auto|].
  rewrite Forall_forall in Hall |- *. intros y Hy.
  unfold key_lt, str_lt. destruct (str_ltb (key x) (key y)) eqn:E; [reflexivity|].
  exfalso. apply Hx.
  rewrite (str_ltb_trichotomy _ _ E (Hall y Hy)).
  apply list_elem_of_fmap_2. exact Hy.
Qed.

End Sorted.

End OrderFacts.

(* ===================================================================== *)
(** * Text, hexadecimal and digests *)
(* ===================================================================== *)

Section EncodingFacts.

Import Py Spec.

Lemma encode_utf8_ascii (t : str) :
  is_ascii t → encode_utf8 t = Ok (ascii_bytes t).
Proof.
  induction 1 as [|c t Hc Ht IH]; [reflexivity|].
  cbn [encode_utf8]. unfold utf8_char.
  destruct (Z.ltb_spec (Z.of_N c) 128); [|lia].
  cbn [mbind Res_bind]. rewrite IH. reflexivity.
Qed.

Lemma is_ascii_app (t u : str) : is_ascii t → is_ascii u → is_ascii (t ++ u).
Proof. apply Forall_app_2. Qed.

Lemma is_ascii_literal (lit : string) :
  forallb (fun c => (c <? 128)%N) (s lit) = true → is_ascii (s lit).
Proof.
  intros H. apply Forall_forall. intros c Hc.
  rewrite forallb_forall in H. apply N.ltb_lt, H, list_elem_of_In, Hc.
Qed.

Lemma is_ascii_digits (u : Decimal.uint) :
  is_ascii (s (NilEmpty.string_of_uint u)).
Proof.
  induction u; cbn; try constructor; try exact IHu; reflexivity.
Qed.

Lemma is_ascii_str_of_int (n : Z) : is_ascii (str_of_int n).
Proof.
  unfold str_of_int, NilZero.string_of_uint.
  destruct (N.to_uint (Z.to_N n)) eqn:E;
    try (rewrite <- E; apply is_ascii_digits).
  repeat constructor.
Qed.

Lemma encode_str_of_int (n : Z) :
  encode_utf8 (str_of_int n) = Ok (ascii_bytes (str_of_int n)).
Proof. apply encode_utf8_ascii, is_ascii_str_of_int. Qed.

Lemma is_ascii_hex (d : bytes) : is_ascii (hex_of_bytes d).
Proof.
  induction d as [|x d IH]; [constructor|].
  unfold hex_of_bytes in *. cbn [flat_map app].
  constructor; [|constructor; [|exact IH]]; destruct x; reflexivity.
Qed.

Lemma fromhex_hex (d : bytes) : fromhex (hex_of_bytes d) = Ok d.
Proof.
  induction d as [|x d IH]; [reflexivity|].
  unfold hex_of_bytes in *. cbn [flat_map app].
  transitivity (r ← fromhex (flat_map (fun x => [hex_digit (byte_val x / 16);
                        hex_digit (byte_val x mod 16)]) d); Ok (x :: r)).
  - destruct x; reflexivity.
  - rewrite IH. reflexivity.
Qed.

Lemma digest_length (msg : bytes) : length (SHA1.digest msg) = 20%nat.
Proof. reflexivity. Qed.

Lemma hexdigest_ascii (msg : bytes) : is_ascii (SHA1.hexdigest msg).
Proof. apply is_ascii_hex. Qed.

End EncodingFacts.

(* ===================================================================== *)
(** * The object builder *)
(* ===================================================================== *)

Section TreeFacts.

Import Py Spec.

Lemma insert_sorted_map {A B} (f : A → B) (key : B → str) (x : A) (l : list A) :
  insert_sorted key (f x) (map f l) = map f (insert_sorted (key ∘ f) x l).
Proof.
  induction l as [|y l IH]; [reflexivity|]. cbn.
  destruct (str_ltb (key (f y)) (key (f x))); [|reflexivity].
  rewrite IH. reflexivity.
Qed.

Lemma sorted_map {A B} (f : A → B) (key : B → str) (l : list A) :
  sorted key (map f l) = map f (sorted (key ∘ f) l).
Proof.
  induction l as [|x l IH]; [reflexivity|]. unfold sorted in *. cbn.
  rewrite IH. apply insert_sorted_map.
Qed.

Lemma tree_loop_spec (l : list (str * bytes * bytes)) : ∀ acc,
  Forall encodable l →
  Git.tree_loop (map hex_entry l) acc = Ok (acc ++ tree_payload l).
Proof.
  induction l as [|[[p d] x] l IH]; intros acc Hl.
  - cbn. rewrite app_nil_r. reflexivity.
  - apply Forall_cons in Hl as [[Hp _] Hl].
    cbn [map Git.tree_loop hex_entry Git.tree_extend fst snd].
    cbn [fst snd] in Hp.
    unfold tree_payload. cbn [map concat]. unfold tree_entry, utf8. cbn [fst snd].
    destruct (encode_utf8 p) as [pb|]; [|discriminate].
    cbn [mbind Res_bind]. rewrite fromhex_hex. cbn [mbind Res_bind].
    rewrite IH by exact Hl. f_equal. unfold tree_payload, tree_entry, utf8.
    rewrite <- !app_assoc. reflexivity.
Qed.

Lemma create_tree_store (l : list (str * bytes * bytes)) :
  Forall encodable l →
  let sorted_l := sorted (fun o => o.1.1) l in
  Git.create_tree (map hex_entry l)
  = Ok (SHA1.hexdigest (store "tree" (tree_payload sorted_l)),
        store "tree" (tree_payload sorted_l)).
Proof.
  intros Hl sorted_l. unfold Git.create_tree.
  rewrite (sorted_map hex_entry Git.entry_path).
  change (Git.entry_path ∘ hex_entry) with (fun o : str * bytes * bytes => o.1.1).
  fold sorted_l.
  rewrite tree_loop_spec.
  2:{ rewrite Forall_forall in Hl |- *. intros o Ho. apply Hl.
      rewrite <- (sorted_perm (fun o : str * bytes * bytes => o.1.1) l). exact Ho. }
  cbn [mbind Res_bind app]. rewrite encode_str_of_int. reflexivity.
Qed.

Lemma tree_loop_entries (l : list Git.entry) : ∀ acc,
  Forall encodable_entry l →
  Git.tree_loop l acc = Ok (acc ++ entries_payload l).
Proof.
  induction l as [|[[p h] x] l IH]; intros acc Hl.
  - cbn. rewrite app_nil_r. reflexivity.
  - apply Forall_cons in Hl as [[Hp (d & Hd & _)] Hl].
    cbn [Git.tree_loop Git.tree_extend].
    unfold Git.entry_path, Git.entry_hash in Hp, Hd. cbn [fst snd] in Hp, Hd.
    unfold entries_payload. cbn [map concat].
    unfold tree_entry, utf8, raw_of_hex, Git.entry_path, Git.entry_hash.
    cbn [fst snd].
    destruct (encode_utf8 p) as [pb|]; [|discriminate].
    cbn [mbind Res_bind]. rewrite Hd. cbn [mbind Res_bind].
    rewrite IH by exact Hl. f_equal. unfold entries_payload, tree_entry, utf8,
      raw_of_hex, Git.entry_path, Git.entry_hash.
    rewrite <- !app_assoc. reflexivity.
Qed.

Lemma create_tree_entries (l : list Git.entry) :
  Forall encodable_entry l →
  Git.create_tree l
  = Ok (SHA1.hexdigest (store "tree" (entries_payload (sorted Git.entry_path l))),
        store "tree" (entries_payload (sorted Git.entry_path l))).
Proof.
  intros Hl. unfold Git.create_tree.
  rewrite tree_loop_entries.
  2:{ rewrite Forall_forall in Hl |- *. intros o Ho. apply Hl.
      rewrite <- (sorted_perm Git.entry_path l). exact Ho. }
  cbn [mbind Res_bind app]. rewrite encode_str_of_int. reflexivity.
Qed.

Lemma create_tree_permutation (l l' : list Git.entry) :
  NoDup (map Git.entry_path l) → l ≡ₚ l' →
  Git.create_tree l = Git.create_tree l'.
Proof.
  intros Hnd Hp. unfold Git.create_tree.
  rewrite (sorted_permutation_invariant Git.entry_path l l' Hnd Hp).
  reflexivity.
Qed.

End TreeFacts.

(** C3, as the code has it. For entries with pairwise distinct paths,
    [create_tree] returns the same result for every permutation of the
    entries; when the paths can be encoded and the identities are the
    hexadecimal form of 20 bytes, the result is the identity and the
    store ["tree <len>\0"] followed by, per entry, ["100644 <path>\0"]
    and the 20 raw identity bytes, with the paths in strictly ascending
    order. *)
Theorem create_tree_canonical (l l' : list Git.entry) :
  NoDup (map Git.entry_path l) →
  l ≡ₚ l' →
  Git.create_tree l = Git.create_tree l'
  ∧ (Forall encodable_entry l →
     ∃ sorted_l,
       sorted_l ≡ₚ l
       ∧ StronglySorted (fun x y => str_lt (Git.entry_path x) (Git.entry_path y))
                        sorted_l
       ∧ Forall (fun o => length (raw_of_hex (Git.entry_hash o)) = 20%nat)
                sorted_l
       ∧ Git.create_tree l
         = Ok (SHA1.hexdigest (Spec.store "tree" (entries_payload sorted_l)),
               Spec.store "tree" (entries_payload sorted_l))).
Proof.
  intros Hnd Hp. split; [exact (create_tree_permutation l l' Hnd Hp)|].
  intros Hl. exists (Py.sorted Git.entry_path l).
  split; [apply sorted_perm|].
  split; [apply (sorted_strict Git.entry_path); exact Hnd|].
  split; [|apply create_tree_entries; exact Hl].
  rewrite sorted_perm. eapply Forall_impl; [exact Hl|].
  intros o [_ (d & Hd & Hlen)]. unfold raw_of_hex. rewrite Hd. exact Hlen.
Qed.

(* ===================================================================== *)
(** * The packfile encoder *)
(* ===================================================================== *)

Section PackFacts.

Import Py PackSpec.

Example object_header_blob_300 : object_header 3 300 = [xbc; x12].
Proof. reflexivity. Qed.

Example read_header_blob_300 : read_header [xbc; x12] = (3, 300).
Proof. reflexivity. Qed.

Lemma size_groups_zero (r : Z) : r <= 0 → size_groups r = O.
Proof. unfold size_groups. intros H. destruct (Z.leb_spec r 0); [reflexivity|lia]. Qed.

Lemma size_groups_pos (r : Z) :
  0 < r → size_groups r = S (size_groups (Z.shiftr r 7)).
Proof.
  intros H. unfold size_groups.
  destruct (Z.leb_spec r 0); [lia|]. f_equal.
  rewrite Z.shiftr_div_pow2 by lia.
  destruct (Z.leb_spec (r / 2 ^ 7) 0) as [Hs|Hs].
  - assert (r < 2 ^ 7).
    { destruct (Z.lt_ge_cases r (2 ^ 7)); [assumption|].
      assert (1 <= r / 2 ^ 7) by (apply Z.div_le_lower_bound; lia). lia. }
    assert (Z.log2 r < 7) by (apply Z.log2_lt_pow2; lia).
    pose proof (Z.log2_nonneg r).
    rewrite Z.div_small by lia. reflexivity.
  - rewrite <- Z.shiftr_div_pow2 by lia.
    rewrite Z.log2_shiftr by lia.
    assert (2 ^ 7 <= r).
    { destruct (Z.lt_ge_cases r (2 ^ 7)); [|assumption].
      rewrite Z.div_small in Hs by lia. lia. }
    assert (7 <= Z.log2 r) by (apply Z.log2_le_pow2; lia).
    rewrite Z.max_r by lia.
    replace (Z.log2 r) with ((Z.log2 r - 7) + 1 * 7) at 1 by lia.
    rewrite Z.div_add by lia.
    assert (0 <= (Z.log2 r - 7) / 7) by (apply Z.div_pos; lia).
    lia.
Qed.

Lemma lor_continuation (c : Z) : 0 <= c < 128 → 0 <= Z.lor 0x80 c < 256.
Proof.
  intros Hc. split; [apply Z.lor_nonneg; lia|].
  destruct (Z.eq_dec c 0) as [-> | Hne]; [reflexivity|].
  change 256 with (2 ^ 8). apply Z.log2_lt_pow2.
  - assert (0 <= Z.lor 128 c) by (apply Z.lor_nonneg; lia).
    assert (Z.lor 128 c <> 0) by (rewrite Z.lor_eq_0_iff; lia). lia.
  - rewrite Z.log2_lor by lia.
    assert (Z.log2 c < 7) by (apply Z.log2_lt_pow2; lia).
    change (Z.log2 128) with 7. lia.
Qed.

Lemma size_header_varint (n : nat) : ∀ (r c : Z) (data : bytes),
  0 <= r → 0 <= c < 128 → size_groups r = n →
  Git.size_header r c data = Ok (data ++ map byte_of (varint n r c)).
Proof.
  induction n as [|n IH]; intros r c data Hr Hc Hn.
  - assert (r = 0).
    { destruct (Z.eq_dec r 0); [assumption|].
      rewrite size_groups_pos in Hn by lia. discriminate. }
    subst r. simp size_header. cbn.
    unfold bytearray_append.
    destruct (Z.leb_spec 0 c); [|lia]. destruct (Z.ltb_spec c 256); [|lia].
    reflexivity.
  - assert (0 < r).
    { destruct (Z.lt_ge_cases 0 r); [assumption|].
      rewrite size_groups_zero in Hn by lia. discriminate. }
    rewrite size_groups_pos in Hn by lia. injection Hn as Hn.
    simp size_header. destruct (Z_lt_dec 0 r) as [Hlt|]; [|lia]. cbn.
    unfold bytearray_append at 1.
    pose proof (lor_continuation c Hc).
    destruct (Z.leb_spec 0 (Z.lor 128 c)); [|lia].
    destruct (Z.ltb_spec (Z.lor 128 c) 256); [|lia].
    cbn [andb].
    rewrite (IH (Z.shiftr r 7) (Z.land r 127)); [| | |exact Hn].
    + rewrite <- app_assoc. reflexivity.
    + apply Z.shiftr_nonneg. lia.
    + change 127 with (Z.ones 7). rewrite Z.land_ones by lia.
      apply Z.mod_pos_bound. lia.
Qed.

Lemma obj_type_range (content : bytes) :
  Git.obj_type content = 1 ∨ Git.obj_type content = 2 ∨ Git.obj_type content = 3.
Proof.
  unfold Git.obj_type.
  destruct (startswith content (b "commit ")); [auto|].
  destruct (startswith content (b "tree ")); auto.
Qed.

Lemma first_byte_range (type size : Z) :
  type = 1 ∨ type = 2 ∨ type = 3 →
  0 <= Z.lor (Z.shiftl type 4) (Z.land size 0xF) < 128.
Proof.
  intros Ht.
  assert (Hlow : 0 <= Z.land size 15 < 16).
  { change 15 with (Z.ones 4). rewrite Z.land_ones by lia.
    apply Z.mod_pos_bound. lia. }
  assert (Hhigh : 0 < Z.shiftl type 4 ∧ Z.log2 (Z.shiftl type 4) < 7)
    by (destruct Ht as [-> | [-> | ->]]; split; reflexivity).
  destruct Hhigh as [Hpos Hlog].
  split; [apply Z.lor_nonneg; lia|].
  change 128 with (2 ^ 7). apply Z.log2_lt_pow2.
  - assert (0 <= Z.lor (Z.shiftl type 4) (Z.land size 15))
      by (apply Z.lor_nonneg; lia).
    assert (Z.lor (Z.shiftl type 4) (Z.land size 15) <> 0)
      by (rewrite Z.lor_eq_0_iff; lia).
    lia.
  - rewrite Z.log2_lor by lia.
    destruct (Z.eq_dec (Z.land size 15) 0) as [-> | Hne]; [cbn; lia|].
    assert (Z.log2 (Z.land size 15) < 4) by (apply Z.log2_lt_pow2; lia).
    lia.
Qed.

Section Encoder.

Variable zlib_compress : bytes → bytes.

Lemma pack_object_spec (data : bytes) (o : Git.pobject) :
  Git.pack_object zlib_compress data o = Ok (data ++ pack_entry zlib_compress o).
Proof.
  destruct o as [h content]. unfold Git.pack_object, pack_entry, object_header.
  cbn [snd].
  assert (Hr : 0 <= Z.shiftr (len (Git.strip_header content)) 4)
    by apply Z.shiftr_nonneg, len_nonneg.
  rewrite (size_header_varint _ _ _ _ Hr
             (first_byte_range _ _ (obj_type_range content)) eq_refl).
  cbn [mbind Res_bind]. rewrite <- app_assoc. reflexivity.
Qed.

Lemma pack_loop_spec (objects : list Git.pobject) : ∀ data,
  Git.pack_loop zlib_compress objects data
  = Ok (data ++ concat (map (pack_entry zlib_compress) objects)).
Proof.
  induction objects as [|o objects IH]; intros data; cbn [Git.pack_loop map concat].
  - rewrite app_nil_r. reflexivity.
  - rewrite pack_object_spec. cbn [mbind Res_bind].
    rewrite IH, <- app_assoc. reflexivity.
Qed.

Lemma pack_be32_spec (n : Z) : 0 <= n < 2 ^ 32 → pack_be32 n = Ok (be32 n).
Proof.
  intros Hn. unfold pack_be32, be32.
  destruct (Z.leb_spec 0 n); [|lia]. destruct (Z.ltb_spec n (2 ^ 32)); [|lia].
  cbn [andb]. change 255 with (Z.ones 8).
  rewrite !Z.land_ones, !Z.shiftr_div_pow2 by lia.
  rewrite (Z.mod_small (n / 2 ^ 24)); [reflexivity|].
  split; [apply Z.div_pos; lia|apply Z.div_lt_upper_bound; lia].
Qed.

Lemma pack_be32_overflow (n : Z) : 2 ^ 32 <= n → pack_be32 n = Raise StructError.
Proof.
  intros Hn. unfold pack_be32.
  destruct (Z.ltb_spec n (2 ^ 32)); [lia|]. rewrite andb_false_r. reflexivity.
Qed.

Lemma create_packfile_spec (objects : list Git.pobject) :
  len objects < 2 ^ 32 →
  Git.create_packfile zlib_compress objects
  = Ok (pack_body zlib_compress objects
        ++ SHA1.digest (pack_body zlib_compress objects)).
Proof.
  intros Hn. unfold Git.create_packfile, pack_body.
  rewrite (pack_be32_spec 2) by lia.
  rewrite (pack_be32_spec (len objects)) by (pose proof (len_nonneg objects); lia).
  cbn [mbind Res_bind]. rewrite pack_loop_spec.
  cbn [mbind Res_bind app]. rewrite <- !app_assoc. reflexivity.
Qed.

Lemma create_packfile_overflow (objects : list Git.pobject) :
  2 ^ 32 <= len objects →
  Git.create_packfile zlib_compress objects = Raise StructError.
Proof.
  intros Hn. unfold Git.create_packfile.
  rewrite (pack_be32_spec 2) by lia.
  rewrite (pack_be32_overflow (len objects)) by exact Hn.
  reflexivity.
Qed.

End Encoder.

Lemma byte_val_of (z : Z) : 0 <= z < 256 → byte_val (byte_of z) = z.
Proof.
  intros Hz. unfold byte_of, byte_val.
  destruct (Byte.of_N (Z.to_N z)) as [x|] eqn:E.
  - apply Byte.to_of_N in E. lia.
  - apply Byte.of_N_None_iff in E. lia.
Qed.

Lemma land_continuation (c : Z) : 0 <= c < 128 → Z.land (Z.lor 0x80 c) 0x7f = c.
Proof.
  intros Hc. rewrite Z.land_lor_distr_l.
  change (Z.land 128 127) with 0. rewrite Z.lor_0_l.
  change 127 with (Z.ones 7). rewrite Z.land_ones by lia.
  apply Z.mod_small. lia.
Qed.

Lemma varint_range (n : nat) : ∀ r c,
  0 <= c < 128 → Forall (fun z => 0 <= z < 256) (varint n r c).
Proof.
  induction n as [|n IH]; intros r c Hc; cbn [varint].
  - constructor; [lia|constructor].
  - constructor; [apply lor_continuation; exact Hc|].
    apply IH. change 127 with (Z.ones 7). rewrite Z.land_ones by lia.
    apply Z.mod_pos_bound. lia.
Qed.

Lemma map_byte_val_of (l : list Z) :
  Forall (fun z => 0 <= z < 256) l → map byte_val (map byte_of l) = l.
Proof.
  induction 1 as [|z l Hz Hl IH]; [reflexivity|].
  cbn [map]. rewrite byte_val_of, IH by exact Hz. reflexivity.
Qed.

(** The bytes after the first one hold the remaining size, seven bits
    at a time, least significant group first. *)
Lemma read_size_varint (n : nat) : ∀ r c shift,
  0 <= r → 0 <= shift → size_groups r = n →
  read_size (tl (varint n r c)) shift = Z.shiftl r shift.
Proof.
  induction n as [|n IH]; intros r c shift Hr Hs Hn.
  - assert (r = 0).
    { destruct (Z.eq_dec r 0); [assumption|].
      rewrite size_groups_pos in Hn by lia. discriminate. }
    subst r. cbn. rewrite Z.shiftl_0_l. reflexivity.
  - assert (0 < r).
    { destruct (Z.lt_ge_cases 0 r); [assumption|].
      rewrite size_groups_zero in Hn by lia. discriminate. }
    rewrite size_groups_pos in Hn by lia. injection Hn as Hn.
    cbn [varint tl].
    assert (Hc' : 0 <= Z.land r 127 < 128).
    { change 127 with (Z.ones 7). rewrite Z.land_ones by lia.
      apply Z.mod_pos_bound. lia. }
    assert (Hr' : 0 <= Z.shiftr r 7) by (apply Z.shiftr_nonneg; lia).
    pose proof (IH (Z.shiftr r 7) (Z.land r 127) (shift + 7) Hr' ltac:(lia) Hn)
      as Htl.
    assert (Hhead : ∃ x, varint n (Z.shiftr r 7) (Z.land r 127)
                         = x :: tl (varint n (Z.shiftr r 7) (Z.land r 127))
                         ∧ Z.land x 127 = Z.land r 127).
    { destruct n; cbn [varint tl]; eexists; split; try reflexivity.
      - change 127 with (Z.ones 7). rewrite !Z.land_ones by lia.
        apply Z.mod_mod. lia.
      - apply land_continuation. exact Hc'. }
    destruct Hhead as (x & Hx & Hland). rewrite Hx. cbn [read_size].
    rewrite Hland, Htl.
    change 127 with (Z.ones 7). rewrite Z.land_ones by lia.
    rewrite !Z.shiftl_mul_pow2, Z.shiftr_div_pow2 by lia.
    rewrite Z.pow_add_r by lia.
    pose proof (Z.div_mod r (2 ^ 7) ltac:(lia)). nia.
Qed.

Lemma first_byte_fields (type low : Z) (more : bool) :
  type = 1 ∨ type = 2 ∨ type = 3 → 0 <= low < 16 →
  let c := Z.lor (Z.shiftl type 4) low in
  let x := if more then Z.lor 0x80 c else c in
  Z.land (Z.shiftr x 4) 7 = type ∧ Z.land x 0xF = low.
Proof.
  intros Ht Hlow.
  assert (Hl : In low (map Z.of_nat (seq 0 16))).
  { apply in_map_iff. exists (Z.to_nat low). split; [lia|]. apply in_seq. lia. }
  cbn in Hl.
  destruct Ht as [-> | [-> | ->]];
    repeat (destruct Hl as [<- | Hl]; [destruct more; split; reflexivity|]);
    destruct Hl.
Qed.

(** A size/type header read back gives the type and the size. *)
Lemma read_object_header (type size : Z) :
  type = 1 ∨ type = 2 ∨ type = 3 → 0 <= size →
  read_header (object_header type size) = (type, size).
Proof.
  intros Ht Hsize. unfold read_header, object_header.
  assert (Hlow : 0 <= Z.land size 15 < 16).
  { change 15 with (Z.ones 4). rewrite Z.land_ones by lia.
    apply Z.mod_pos_bound. lia. }
  rewrite map_byte_val_of by (apply varint_range, first_byte_range; exact Ht).
  pose proof (read_size_varint (size_groups (Z.shiftr size 4)) (Z.shiftr size 4)
                (Z.lor (Z.shiftl type 4) (Z.land size 15)) 4
                ltac:(apply Z.shiftr_nonneg; lia) ltac:(lia) eq_refl) as Htl.
  destruct (size_groups (Z.shiftr size 4)) as [|n]; cbn [varint tl] in *.
  - destruct (first_byte_fields type (Z.land size 15) false Ht Hlow) as [H1 H2].
    cbv zeta in H1, H2. rewrite H1, H2. f_equal. rewrite Htl.
    change 15 with (Z.ones 4). rewrite Z.land_ones by lia.
    rewrite Z.shiftl_mul_pow2, Z.shiftr_div_pow2 by lia.
    pose proof (Z.div_mod size (2 ^ 4) ltac:(lia)). lia.
  - destruct (first_byte_fields type (Z.land size 15) true Ht Hlow) as [H1 H2].
    cbv zeta in H1, H2. rewrite H1, H2. f_equal. rewrite Htl.
    change 15 with (Z.ones 4). rewrite Z.land_ones by lia.
    rewrite Z.shiftl_mul_pow2, Z.shiftr_div_pow2 by lia.
    pose proof (Z.div_mod size (2 ^ 4) ltac:(lia)). lia.
Qed.

Lemma trailer_ok_iff (body' trailer : bytes) :
  length trailer = 20%nat →
  trailer_ok (body' ++ trailer) ↔ SHA1.digest body' = trailer.
Proof.
  intros Ht. unfold trailer_ok.
  replace (length (body' ++ trailer) - 20)%nat with (length body')
    by (rewrite length_app; lia).
  rewrite drop_app_length, take_app_length. split; congruence.
Qed.

End PackFacts.

(** X18. The format of a pack. For every list of fewer than 2^32
    objects, [create_packfile] returns the magic [PACK], the big-endian
    32-bit version 2, the big-endian 32-bit object count, then per object
    the size/type header ([PackSpec.object_header]: first byte
    [(type << 4) | (size & 0xF)], every following byte the next 7 bits of
    the size, bit 7 set on each byte but the last; read back, it gives the
    type and the size) and the zlib-compressed payload; the last 20 bytes
    are the SHA-1 digest of all the bytes before them. For 2^32 objects
    or more, the count does not fit its field, [struct.pack] raises and
    nothing is returned. *)
Theorem create_packfile_format (zlib_compress : bytes → bytes)
  (objects : list Git.pobject) :
  (Py.len objects < 2 ^ 32 →
   let body := PackSpec.pack_body zlib_compress objects in
   let trailer := SHA1.digest body in
   Git.create_packfile zlib_compress objects = Ok (body ++ trailer)
   ∧ Forall (fun o =>
               let type := Git.obj_type o.2 in
               let size := Py.len (Git.strip_header o.2) in
               PackSpec.read_header (PackSpec.object_header type size)
               = (type, size)) objects
   ∧ length trailer = 20%nat
   ∧ PackSpec.trailer_ok (body ++ trailer))
  ∧ (2 ^ 32 <= Py.len objects →
     Git.create_packfile zlib_compress objects = Raise StructError).
Proof.
  split.
  - intros Hn body trailer.
    split; [apply create_packfile_spec; exact Hn|].
    split.
    { apply Forall_forall. intros o _. cbv zeta.
      apply read_object_header; [apply obj_type_range|apply len_nonneg]. }
    split; [apply digest_length|].
    apply trailer_ok_iff; [apply digest_length|reflexivity].
  - apply create_packfile_overflow.
Qed.

Lemma create_packfile_format_witness :
  Py.len [Scenario.hello_blob] < 2 ^ 32
  ∧ Git.create_packfile (fun x => x) [Scenario.hello_blob]
    = Ok (PackSpec.pack_body (fun x => x) [Scenario.hello_blob]
          ++ SHA1.digest (PackSpec.pack_body (fun x => x) [Scenario.hello_blob]))
  ∧ 2 ^ 32 <= Py.len (replicate (Z.to_nat 4294967296) Scenario.hello_blob)
  ∧ Git.create_packfile (fun x => x)
      (replicate (Z.to_nat 4294967296) Scenario.hello_blob)
    = Raise StructError.
Proof.
  assert (H1 : Py.len [Scenario.hello_blob] < 2 ^ 32) by reflexivity.
  assert (H2 : 2 ^ 32
               <= Py.len (replicate (Z.to_nat 4294967296) Scenario.hello_blob)).
  { unfold Py.len. rewrite length_replicate. lia. }
  split; [exact H1|]. split.
  - exact (proj1 (proj1 (create_packfile_format (fun x => x)
                           [Scenario.hello_blob]) H1)).
  - split; [exact H2|].
    exact (proj2 (create_packfile_format (fun x => x)
                    (replicate (Z.to_nat 4294967296) Scenario.hello_blob)) H2).
Defined.

(** The pack of the one blob ["hi\n"], with the identity in place of
    [zlib.compress]: header, one entry of type 3 and size 3, and the
    digest that [hashlib.sha1] gives for these 16 bytes. *)
Example create_packfile_hello_blob :
  Git.create_packfile (fun x => x) [Scenario.hello_blob]
  = Ok (Py.b "PACK" ++ [x00; x00; x00; x02; x00; x00; x00; x01; x33]
        ++ Py.b "hi" ++ [x0a]
        ++ [xfa; xee; xf2; x79; x00; xd4; xe9; x97; x14; x89;
            x86; xcf; x1b; xbd; xcf; xf0; x6d; x79; x30; x4e]).
Proof. vm_compute. reflexivity. Qed.

Lemma create_tree_canonical_witness :
  NoDup (map Git.entry_path
             (map Spec.hex_entry [Scenario.entry_b; Scenario.entry_a]))
  ∧ map Spec.hex_entry [Scenario.entry_b; Scenario.entry_a]
    ≡ₚ map Spec.hex_entry [Scenario.entry_a; Scenario.entry_b]
  ∧ Forall encodable_entry
           (map Spec.hex_entry [Scenario.entry_b; Scenario.entry_a])
  ∧ Git.create_tree (map Spec.hex_entry [Scenario.entry_b; Scenario.entry_a])
    = Git.create_tree (map Spec.hex_entry [Scenario.entry_a; Scenario.entry_b])
  ∧ ∃ sorted_l,
      sorted_l ≡ₚ map Spec.hex_entry [Scenario.entry_b; Scenario.entry_a]
      ∧ StronglySorted
          (fun x y => str_lt (Git.entry_path x) (Git.entry_path y)) sorted_l
      ∧ Forall (fun o => length (raw_of_hex (Git.entry_hash o)) = 20%nat)
               sorted_l
      ∧ Git.create_tree (map Spec.hex_entry [Scenario.entry_b; Scenario.entry_a])
        = Ok (SHA1.hexdigest (Spec.store "tree" (entries_payload sorted_l)),
              Spec.store "tree" (entries_payload sorted_l)).
Proof.
  assert (Hnd : NoDup (map Git.entry_path
                  (map Spec.hex_entry [Scenario.entry_b; Scenario.entry_a]))).
  { apply NoDup_cons; split.
    - intros H. apply list_elem_of_singleton in H. discriminate H.
    - apply NoDup_singleton. }
  assert (Hperm : map Spec.hex_entry [Scenario.entry_b; Scenario.entry_a]
                  ≡ₚ map Spec.hex_entry [Scenario.entry_a; Scenario.entry_b]).
  { apply Permutation_swap. }
  assert (Henc : Forall encodable_entry
                   (map Spec.hex_entry [Scenario.entry_b; Scenario.entry_a])).
  { repeat constructor.
    - exists (replicate 20 x22). split; reflexivity.
    - exists (replicate 20 x11). split; reflexivity. }
  split; [exact Hnd|]. split; [exact Hperm|]. split; [exact Henc|].
  destruct (create_tree_canonical _ _ Hnd Hperm) as [H1 H2].
  split; [exact H1|exact (H2 Henc)].
Defined.

(** Scenario D: the entry of [a.txt] comes before the entry of [b.txt]. *)
Example tree_lists_a_before_b :
  Py.sorted (fun o : str * bytes * bytes => o.1.1)
            [Scenario.entry_b; Scenario.entry_a]
  = [Scenario.entry_a; Scenario.entry_b].
Proof. reflexivity. Qed.

(** An identity that is no hexadecimal text makes [create_tree] raise. *)
Example create_tree_bad_identity_raises :
  Git.create_tree [(Py.s "a.txt", Py.s "zz", [])] = Raise ValueError.
Proof. reflexivity. Qed.

(** An identity written with upper-case digits is read all the same. *)
Example upper_case_identity_encodable :
  encodable_entry (Py.s "a.txt", replicate 40 70%N, []).
Proof.
  split; [reflexivity|]. exists (replicate 20 xff). split; reflexivity.
Qed.

(** C3 as stated fails when two entries have the same path: the sort is
    stable, so the two orders of the input give two different trees. *)
Lemma create_tree_same_path_order_matters :
  [Scenario.twin_a; Scenario.twin_b] ≡ₚ [Scenario.twin_b; Scenario.twin_a]
  ∧ Git.create_tree [Scenario.twin_a; Scenario.twin_b]
    ≠ Git.create_tree [Scenario.twin_b; Scenario.twin_a].
Proof.
  split; [apply Permutation_swap|].
  intros H.
  apply (f_equal (fun r => match r with
                           | Ok p => Py.slice p.1 0 1
                           | Raise _ => []
                           end)) in H.
  vm_compute in H. discriminate H.
Qed.

(* ===================================================================== *)
(** * The fetch flow *)
(* ===================================================================== *)

Section FetchFacts.

Import Py Spec Scenario.

Variable zlib_compress : bytes → bytes.

Lemma format_side_band_ok (data : bytes) :
  ∃ side, Git.format_side_band data 1 = Ok side.
Proof.
  destruct (format_side_band_chunked_spec Git.chunk_size eq_refl eq_refl data)
    as (out & _ & Hout & _).
  exists out. exact Hout.
Qed.

Lemma format_pack_response_spec (pack side : bytes) :
  Git.format_side_band pack 1 = Ok side →
  Git.format_pack_response pack = Ok ((b "0008" ++ Git.nak) ++ side).
Proof.
  intros H. unfold Git.format_pack_response. rewrite H. reflexivity.
Qed.

Lemma collect_objects_spec (files : list (str * Res str)) :
  ∀ acc objects,
    Git.collect_objects files acc = Ok objects →
    ∃ new, objects = acc ++ new ∧ Forall2 blob_of_file files new.
Proof.
  induction files as [|[rel_path read] files IH]; intros acc objects H.
  - cbn in H. injection H as <-. exists []. rewrite app_nil_r. auto.
  - cbn [Git.collect_objects] in H.
    destruct read as [content|]; [|discriminate].
    cbn [mbind Res_bind] in H.
    destruct (Git.create_blob content) as [[h blob]|] eqn:Hb; [|discriminate].
    cbn [mbind Res_bind] in H.
    destruct (IH _ _ H) as (new & -> & Hnew).
    exists ((rel_path, h, blob) :: new). rewrite <- app_assoc. split; [reflexivity|].
    constructor; [|exact Hnew].
    exists content. cbn. rewrite Hb. auto.
Qed.

Lemma build_response_inv (files : list (str * Res str)) (response : bytes) :
  Git.build_response zlib_compress files = Ok (Some response) →
  ∃ objects tree commit pack,
    Git.collect_objects files [] = Ok objects
    ∧ objects ≠ []
    ∧ Git.create_tree objects = Ok tree
    ∧ Git.create_commit tree.1 = Ok commit
    ∧ Git.create_packfile zlib_compress
        (Git.pack_objects_of objects tree commit) = Ok pack
    ∧ Git.format_pack_response pack = Ok response.
Proof.
  unfold Git.build_response. intros H.
  destruct (Git.collect_objects files []) as [objects|] eqn:Hobj; [|discriminate].
  cbn [mbind Res_bind] in H. destruct objects as [|o objects]; [discriminate|].
  destruct (Git.create_tree (o :: objects)) as [[th tc]|] eqn:Ht; [|discriminate].
  cbn [mbind Res_bind] in H.
  destruct (Git.create_commit th) as [[ch cc]|] eqn:Hc; [|discriminate].
  cbn [mbind Res_bind] in H.
  destruct (Git.create_packfile zlib_compress _) as [pack|] eqn:Hp; [|discriminate].
  cbn [mbind Res_bind] in H.
  destruct (Git.format_pack_response pack) as [r|] eqn:Hr; [|discriminate].
  injection H as <-.
  exists (o :: objects), (th, tc), (ch, cc), pack.
  split; [reflexivity|]. split; [discriminate|]. split; [exact Ht|].
  split; [exact Hc|]. split; [exact Hp|exact Hr].
Qed.

Lemma synthesize_some (e : Git.env) (code : str) (fs : Git.filesystem)
  (d : Git.path) :
  (Git.synthesize e code fs).1 = Ok (Some d) →
  ∃ name, Git.mkdtemp e = Ok name ∧ Git.run_cdktf e code = Git.Synthesized
          ∧ d = Git.out_dir [name].
Proof.
  unfold Git.synthesize.
  destruct (Git.mkdtemp e) as [name|x]; [|cbn; destruct (is_exception x); discriminate].
  destruct (Git.run_cdktf e code) as [x| | |]; try discriminate.
  - destruct (is_exception x); discriminate.
  - cbn. intros H. injection H as <-. eauto.
Qed.

Lemma generate_pack_success_inv (fuel : nat) (e : Git.env)
  (fs fs' : Git.filesystem) (request response : bytes) :
  Git.generate_pack zlib_compress fuel e fs request
  = Some (Ok (Some response), fs') →
  ∃ p code name w ws,
    Git.parse_request fuel request = Some (w :: ws)
    ∧ Git.project_path e = Some p
    ∧ Git.main_py e = Some (Ok code)
    ∧ Git.mkdtemp e = Ok name
    ∧ Git.run_cdktf e code = Git.Synthesized
    ∧ Git.build_response zlib_compress (Git.walk e (Git.out_dir [name]))
      = Ok (Some response).
Proof.
  unfold Git.generate_pack.
  destruct (Git.parse_request fuel request) as [[|w ws]|]; try discriminate.
  unfold Git.generate_pack_try, Git.get_project_dir.
  destruct (Git.project_path e) as [p|]; [|discriminate].
  destruct (Git.main_py e) as [[code|x]|]; try discriminate.
  2:{ cbn. destruct (is_exception x); discriminate. }
  destruct (Git.synthesize e code fs) as [[[d|]|x] fs1] eqn:Es; try discriminate.
  2:{ cbn. destruct (is_exception x); discriminate. }
  destruct (synthesize_some e code fs d) as (name & Hd & Hr & ->);
    [rewrite Es; reflexivity|].
  intros H. exists p, code, name, w, ws.
  repeat split; try assumption; try reflexivity.
  destruct (Git.build_response zlib_compress _) as [[r|]|x]; try discriminate.
  - injection H as <- _. reflexivity.
  - cbn in H. destruct (is_exception x); discriminate.
Qed.

Lemma generate_pack_try_synthesizes (e : Git.env) (fs : Git.filesystem)
  (files : list (str * Res str)) :
  synthesizes e files →
  ∃ d fs1, Git.generate_pack_try zlib_compress e fs
           = (Git.build_response zlib_compress files, Some d, fs1).
Proof.
  intros (p & code & name & Hp & Hm & Hd & Hr & Hw).
  unfold Git.generate_pack_try, Git.get_project_dir, Git.synthesize.
  rewrite Hp, Hm, Hd, Hr, Hw. eauto.
Qed.

End FetchFacts.

(** The blob of Scenario A has the identity Git gives to ["hi\n"]. *)
Example hello_blob_identity :
  Scenario.hello_blob.1 = Py.s "45b983be36b73c0788dc9cbcb76cbb80fc7bb057".
Proof. vm_compute. reflexivity. Qed.

(** C10. Two requests whose parsed want-lists are both non-empty get the
    same result (response and file system) in the same surroundings; a
    request whose want-list is empty is rejected before any work. *)
Theorem want_list_does_not_select (zlib_compress : bytes → bytes) (e : Git.env)
  (fs : Git.filesystem) (fuel1 fuel2 : nat) (request1 request2 : bytes)
  (wants1 wants2 : list str) :
  Git.parse_request fuel1 request1 = Some wants1 → wants1 ≠ [] →
  Git.parse_request fuel2 request2 = Some wants2 → wants2 ≠ [] →
  Git.generate_pack zlib_compress fuel1 e fs request1
  = Git.generate_pack zlib_compress fuel2 e fs request2
  ∧ ∀ fuel request,
      Git.parse_request fuel request = Some [] →
      Git.generate_pack zlib_compress fuel e fs request = Some (Ok None, fs).
Proof.
  intros H1 Hw1 H2 Hw2. split.
  - unfold Git.generate_pack. rewrite H1, H2.
    destruct wants1; [congruence|]. destruct wants2; [congruence|]. reflexivity.
  - intros fuel request H. unfold Git.generate_pack. rewrite H. reflexivity.
Qed.

Lemma want_list_does_not_select_witness :
  Git.generate_pack (fun x => x) 3 Scenario.hello_env ∅ Scenario.want_request
  = Git.generate_pack (fun x => x) 4 Scenario.hello_env ∅
      Scenario.other_want_request
  ∧ ∀ fuel request,
      Git.parse_request fuel request = Some [] →
      Git.generate_pack (fun x => x) fuel Scenario.hello_env ∅ request
      = Some (Ok None, ∅).
Proof.
  apply (want_list_does_not_select (fun x => x) Scenario.hello_env ∅ 3 4
           Scenario.want_request Scenario.other_want_request
           [Py.s "45b983be36b73c0788dc9cbcb76cbb80fc7bb057"]
           [Py.s "0000000000000000000000000000000000000000"]).
  - reflexivity.
  - discriminate.
  - reflexivity.
  - discriminate.
Defined.

(** Scenario B: a request that is just a flush packet has no wants. *)
Example flush_request_rejected (zlib_compress : bytes → bytes) (e : Git.env)
  (fs : Git.filesystem) :
  Git.generate_pack zlib_compress 1 e fs (Py.b "0000") = Some (Ok None, fs).
Proof. reflexivity. Qed.

(* ===================================================================== *)
(** * The advertisement flow and the scratch directory *)
(* ===================================================================== *)

Section RefsFacts.

Import Py Spec Scenario Failure.

Lemma advertisement_zero :
  Git.advertisement Git.zero_hash = Ok (advertised zero_identity).
Proof. vm_compute. reflexivity. Qed.




(** When the project's code raises what is no [Exception], the exception
    leaves [get_refs]. *)
Lemma get_refs_exits (e : Git.env) (fs : Git.filesystem) (x : exn) :
  Fetch.exits e x → (Git.get_refs e fs).1 = Raise x.
Proof.
  intros (p & code & name & Hp & Hm & Hd & Hr & Hx).
  unfold Git.get_refs, Git.get_refs_try, Git.get_project_dir, Git.read_main_py,
    Git.synthesize.
  rewrite Hp, Hm, Hd, Hr, Hx. cbn. rewrite Hx. reflexivity.
Qed.

(** The directory made by [mkdtemp] is not below its own [cdktf.out]. *)
Lemma out_dir_not_prefix (name : str) : ¬ Git.out_dir [name] `prefix_of` [name].
Proof.
  intros H. apply prefix_length in H. cbn in H. lia.
Qed.

Lemma cleanup_keeps_temp_dir (e : Git.env) (name : str) (fs : Git.filesystem) :
  [name] ∈ fs → [name] ∈ Git.cleanup e (Some (Git.out_dir [name])) fs.
Proof.
  intros H. unfold Git.cleanup, Git.rmtree.
  destruct (Git.exists_path _ fs); [|exact H].
  apply elem_of_filter. split; [left; apply out_dir_not_prefix|exact H].
Qed.

Lemma synthesize_synthesized (e : Git.env) (code name : str)
  (fs : Git.filesystem) :
  Git.mkdtemp e = Ok name → Git.run_cdktf e code = Git.Synthesized →
  ∃ fs1, Git.synthesize e code fs = (Ok (Some (Git.out_dir [name])), fs1)
         ∧ [name] ∈ fs1 ∧ Git.out_dir [name] ∈ fs1.
Proof.
  intros Hd Hr. unfold Git.synthesize. rewrite Hd, Hr.
  eexists. split; [reflexivity|]. split; set_solver.
Qed.

Lemma synthesize_no_stack (e : Git.env) (code name : str)
  (fs : Git.filesystem) :
  Git.mkdtemp e = Ok name → Git.run_cdktf e code = Git.NoMyStack →
  Git.synthesize e code fs
  = (Ok None, Git.written e code ∪ ({[ [name] ]} ∪ fs)).
Proof. intros Hd Hr. unfold Git.synthesize. rewrite Hd, Hr. reflexivity. Qed.

(** After a synthesis that succeeded, the directory made by [mkdtemp] is
    still there when [get_refs] returns. *)
Lemma get_refs_leaves_temp_dir (e : Git.env) (fs : Git.filesystem)
  (p code name : str) :
  Git.project_path e = Some p → Git.main_py e = Some (Ok code) →
  Git.mkdtemp e = Ok name → Git.run_cdktf e code = Git.Synthesized →
  [name] ∈ (Git.get_refs e fs).2.
Proof.
  intros Hp Hm Hd Hr.
  destruct (synthesize_synthesized e code name fs Hd Hr) as (fs1 & Hs & Hin & _).
  unfold Git.get_refs, Git.get_refs_try, Git.get_project_dir, Git.read_main_py.
  rewrite Hp, Hm, Hs. cbn [snd]. apply cleanup_keeps_temp_dir. exact Hin.
Qed.

(** The same for [generate_pack], whatever it returns. *)
Lemma generate_pack_leaves_temp_dir (zlib_compress : bytes → bytes)
  (fuel : nat) (e : Git.env) (fs : Git.filesystem) (request : bytes)
  (p code name w : str) (wants : list str) :
  Git.project_path e = Some p → Git.main_py e = Some (Ok code) →
  Git.mkdtemp e = Ok name → Git.run_cdktf e code = Git.Synthesized →
  Git.parse_request fuel request = Some (w :: wants) →
  ∃ r fs', Git.generate_pack zlib_compress fuel e fs request = Some (r, fs')
           ∧ [name] ∈ fs'.
Proof.
  intros Hp Hm Hd Hr Hw.
  destruct (synthesize_synthesized e code name fs Hd Hr) as (fs1 & Hs & Hin & _).
  unfold Git.generate_pack, Git.generate_pack_try, Git.get_project_dir.
  rewrite Hw, Hp, Hm, Hs. eexists _, _. split; [reflexivity|].
  apply cleanup_keeps_temp_dir. exact Hin.
Qed.

(** Without [MyStack] nothing is removed. *)
Lemma get_refs_no_stack (e : Git.env) (fs : Git.filesystem)
  (p code name : str) :
  Git.project_path e = Some p → Git.main_py e = Some (Ok code) →
  Git.mkdtemp e = Ok name → Git.run_cdktf e code = Git.NoMyStack →
  (Git.get_refs e fs).2 = Git.written e code ∪ ({[ [name] ]} ∪ fs).
Proof.
  intros Hp Hm Hd Hr.
  unfold Git.get_refs, Git.get_refs_try, Git.get_project_dir, Git.read_main_py.
  rewrite Hp, Hm, (synthesize_no_stack e code name fs Hd Hr). reflexivity.
Qed.

End RefsFacts.




(** The advertisement of Scenario C, byte by byte. *)
Example zero_advertisement_head :
  take 48 (Spec.advertised Spec.zero_identity)
  = Py.b "001e# service=git-upload-pack" ++ [x0a] ++ Py.b "0000" ++ Py.b "00f00000000000".
Proof. vm_compute. reflexivity. Qed.

(** C8, on the success path and on the path without [MyStack]: the
    directory made by [tempfile.mkdtemp] still exists when [get_refs] and
    [generate_pack] return; only its [cdktf.out] is removed, and without
    [MyStack] nothing is removed. *)
Theorem scratch_directory_survives :
  [Py.s "tmpk3v9"] ∈ (Git.get_refs Scenario.hello_env ∅).2
  ∧ (∃ r fs',
       Git.generate_pack (fun x => x) 3 Scenario.hello_env ∅ Scenario.want_request
       = Some (r, fs')
       ∧ [Py.s "tmpk3v9"] ∈ fs')
  ∧ [Py.s "tmpk3v9"] ∈ (Git.get_refs Scenario.no_stack_env ∅).2.
Proof.
  split; [|split].
  - apply (get_refs_leaves_temp_dir Scenario.hello_env ∅
             (Py.s "your-cdktf-project")
             (Py.s "class MyStack(TerraformStack): pass")); reflexivity.
  - apply (generate_pack_leaves_temp_dir (fun x => x) 3 Scenario.hello_env ∅
             Scenario.want_request (Py.s "your-cdktf-project")
             (Py.s "class MyStack(TerraformStack): pass") (Py.s "tmpk3v9")
             (Py.s "45b983be36b73c0788dc9cbcb76cbb80fc7bb057") []);
      reflexivity.
  - rewrite (get_refs_no_stack Scenario.no_stack_env ∅
               (Py.s "your-cdktf-project") (Py.s "pass") (Py.s "tmpk3v9"))
      by reflexivity.
    set_solver.
Qed.

(* ===================================================================== *)
(** * Further properties: the request reader *)
(* ===================================================================== *)

Section ReaderFacts.

Import Py Wire.

(** A property checked on the four digits of every 16-bit value holds
    for every 16-bit value. *)
Lemma forall_u16 (f : Z → bool) :
  forallb (fun a => forallb (fun b => forallb (fun c => forallb (fun d =>
    f (((a * 16 + b) * 16 + c) * 16 + d))
    digits16) digits16) digits16) digits16 = true →
  ∀ n, 0 <= n < 65536 → f n = true.
Proof.
  intros Hall n Hn.
  rewrite forallb_forall in Hall.
  assert (Ha : 0 <= n / 4096 < 16)
    by (split; [apply Z.div_pos; lia | apply Z.div_lt_upper_bound; lia]).
  specialize (Hall (n / 4096) (in_digits16 _ Ha)).
  rewrite forallb_forall in Hall.
  specialize (Hall (n / 256 mod 16) (in_digits16 _ (Z.mod_pos_bound _ 16 eq_refl))).
  rewrite forallb_forall in Hall.
  specialize (Hall (n / 16 mod 16) (in_digits16 _ (Z.mod_pos_bound _ 16 eq_refl))).
  rewrite forallb_forall in Hall.
  specialize (Hall (n mod 16) (in_digits16 _ (Z.mod_pos_bound _ 16 eq_refl))).
  replace (((n / 4096 * 16 + n / 256 mod 16) * 16 + n / 16 mod 16) * 16 + n mod 16)
    with n in Hall; [exact Hall|].
  replace (n / 4096) with (n / 16 / 16 / 16)
    by (rewrite !Z.div_div by lia; reflexivity).
  replace (n / 256) with (n / 16 / 16)
    by (rewrite !Z.div_div by lia; reflexivity).
  pose proof (Z.div_mod n 16 ltac:(lia)).
  pose proof (Z.div_mod (n / 16) 16 ltac:(lia)).
  pose proof (Z.div_mod (n / 16 / 16) 16 ltac:(lia)).
  assert (n / 16 / 16 / 16 < 16).
  { rewrite !Z.div_div by lia. apply Z.div_lt_upper_bound; lia. }
  assert (0 <= n / 16 / 16 / 16) by (repeat apply Z.div_pos; lia).
  lia.
Qed.

Lemma length_fields_checked :
  forallb (fun a => forallb (fun b => forallb (fun c => forallb (fun d =>
    (fun n => int16_roundtrip_at n && length_field_at n)
      (((a * 16 + b) * 16 + c) * 16 + d))
    digits16) digits16) digits16) digits16 = true.
Proof. vm_compute. reflexivity. Qed.

Lemma int16_length_field (n : Z) :
  0 <= n < 65536 → decode_ascii (PktLine.length_field n) ≫= int16 = Ok n.
Proof.
  intros Hn.
  pose proof (forall_u16 _ length_fields_checked n Hn) as H.
  apply andb_prop in H as [H _]. unfold int16_roundtrip_at in H.
  destruct (decode_ascii (PktLine.length_field n) ≫= int16) as [m|]; [|discriminate].
  apply Z.eqb_eq in H. congruence.
Qed.

Lemma encode_format_04x (n : Z) :
  0 <= n < 65536 → encode_ascii (format_04x n) = Ok (PktLine.length_field n).
Proof.
  intros Hn.
  pose proof (forall_u16 _ length_fields_checked n Hn) as H.
  apply andb_prop in H as [_ H]. unfold length_field_at in H.
  destruct (encode_ascii (format_04x n)) as [[|x1 [|x2 [|x3 [|x4 [|? ?]]]]]|];
    try discriminate.
  unfold PktLine.length_field in *. cbn [map] in *.
  repeat (apply andb_prop in H as [H ?]).
  repeat match goal with
         | E : Byte.eqb _ _ = true |- _ => apply Byte.byte_dec_bl in E; rewrite E; clear E
         end.
  reflexivity.
Qed.

Lemma slice_middle {A} (p m q : list A) :
  slice (p ++ m ++ q) (len p) (len p + len m) = m.
Proof.
  rewrite slice_take_drop.
  - replace (len p + len m - len p) with (len m) by lia.
    unfold len. rewrite !Nat2Z.id, drop_app_length, take_app_length. reflexivity.
  - rewrite len_app. pose proof (len_nonneg p). pose proof (len_nonneg (m ++ q)). lia.
  - pose proof (len_nonneg m). lia.
Qed.

Lemma startswith_app (p l : bytes) : startswith (p ++ l) p = true.
Proof.
  induction p as [|x p IH]; [destruct l; reflexivity|].
  cbn. rewrite IH. destruct x; reflexivity.
Qed.

Lemma decode_ascii_all_ascii (l : bytes) :
  all_ascii l = true → decode_ascii l = Ok (ascii_text l).
Proof.
  induction l as [|x l IH]; [reflexivity|]. cbn.
  intros H. apply andb_prop in H as [Hx Hl]. rewrite Hx, (IH Hl). reflexivity.
Qed.

Lemma length_field_length (n : Z) : length (PktLine.length_field n) = 4%nat.
Proof. reflexivity. Qed.

(** One turn of the loop on a want line that starts at [len p]. *)
Lemma parse_packet_want (p q : bytes) (w : bytes * bytes) (wants : list str) :
  well_formed_want w →
  Git.parse_packet (p ++ want_line w ++ q) (len p) wants
  = Ok (len p + len (want_line w), wants ++ [ascii_text w.1]).
Proof.
  intros (Hid & Hascii & Hrest). destruct w as [id rest]. cbn [fst snd] in *.
  unfold Git.parse_packet, want_line, PktLine.encode. cbn [fst snd].
  set (payload := b "want " ++ id ++ rest).
  assert (Hlen : len payload = 45 + len rest).
  { unfold payload. rewrite !len_app. unfold len at 1 2. rewrite Hid. cbn. lia. }
  pose proof (len_nonneg rest) as Hr.
  set (field := PktLine.length_field (len payload + 4)).
  assert (Hwin : slice (p ++ (field ++ payload) ++ q) (len p) (len p + 4) = field).
  { rewrite <- (app_assoc field). apply (slice_middle p field (payload ++ q)). }
  rewrite Hwin.
  pose proof (int16_length_field (len payload + 4) ltac:(lia)) as Hint.
  fold field in Hint.
  destruct (decode_ascii field) as [text|]; [|discriminate Hint].
  cbn [mbind Res_bind] in Hint |- *. rewrite Hint. cbn [mbind Res_bind].
  destruct (Z.eqb_spec (len payload + 4) 0); [lia|].
  assert (Hpkt : slice (p ++ (field ++ payload) ++ q) (len p + 4)
                   (len p + (len payload + 4)) = payload).
  { rewrite <- (app_assoc field), (app_assoc p field).
    replace (len p + 4) with (len (p ++ field))
      by (rewrite len_app; reflexivity).
    replace (len p + (len payload + 4)) with (len (p ++ field) + len payload)
      by (rewrite len_app; change (len field) with 4; lia).
    apply slice_middle. }
  rewrite Hpkt.
  assert (Hsw : startswith payload (b "want ") = true)
    by apply startswith_app.
  rewrite Hsw.
  assert (Hw : slice payload 5 45 = id).
  { unfold payload.
    change 5 with (len (b "want ")).
    replace 45 with (len (b "want ") + len id)
      by (unfold len; rewrite Hid; reflexivity).
    apply slice_middle. }
  rewrite Hw, (decode_ascii_all_ascii id Hascii). cbn [mbind Res_bind].
  f_equal. f_equal. rewrite len_app. change (len field) with 4. lia.
Qed.

(** The loop over consecutive want lines. *)
Lemma parse_loop_wants (ws : list (bytes * bytes)) : ∀ p q wants fuel,
  Forall well_formed_want ws →
  Git.parse_loop (length ws + fuel) (p ++ concat (map want_line ws) ++ q)
    (len p) wants
  = Git.parse_loop fuel (p ++ concat (map want_line ws) ++ q)
      (len (p ++ concat (map want_line ws)))
      (wants ++ map (fun w => ascii_text w.1) ws).
Proof.
  induction ws as [|w ws IH]; intros p q wants fuel Hws.
  - cbn. rewrite !app_nil_r. reflexivity.
  - apply Forall_cons in Hws as [Hw Hws].
    cbn [map concat length Nat.add Git.parse_loop].
    rewrite <- !app_assoc.
    assert (Hpos : (len p <? len (p ++ want_line w ++ concat (map want_line ws) ++ q))
                   = true).
    { apply Z.ltb_lt. rewrite !len_app.
      assert (4 <= len (want_line w)).
      { unfold want_line, PktLine.encode. rewrite len_app.
        pose proof (len_nonneg (b "want " ++ w.1 ++ w.2)).
        change (len (PktLine.length_field _)) with 4. lia. }
      pose proof (len_nonneg (concat (map want_line ws))).
      pose proof (len_nonneg q). lia. }
    rewrite Hpos, (parse_packet_want p _ w wants Hw).
    replace (len p + len (want_line w)) with (len (p ++ want_line w))
      by (rewrite len_app; reflexivity).
    rewrite (app_assoc p (want_line w)).
    rewrite (IH (p ++ want_line w) q _ fuel Hws).
    rewrite <- !app_assoc. reflexivity.
Qed.

Lemma parse_loop_end (fuel : nat) (data : bytes) (wants : list str) :
  Git.parse_loop fuel data (len data) wants = Some wants.
Proof. destruct fuel; cbn; rewrite Z.ltb_irrefl; reflexivity. Qed.

End ReaderFacts.

(** X1. A request made of well-formed want lines followed by a flush
    packet is read back: [parse_request] returns the identities of the
    lines, in order, within one turn per packet. *)
Theorem parse_request_reads_wants (ws : list (bytes * bytes)) :
  Forall Wire.well_formed_want ws →
  Git.parse_request (S (length ws))
    (concat (map Wire.want_line ws) ++ PktLine.flush)
  = Some (map (fun w => Wire.ascii_text w.1) ws).
Proof.
  intros Hws. unfold Git.parse_request.
  replace (S (length ws)) with (length ws + 1)%nat by lia.
  change (Git.parse_loop (length ws + 1)
            (concat (map Wire.want_line ws) ++ PktLine.flush) 0 [])
    with (Git.parse_loop (length ws + 1)
            ([] ++ concat (map Wire.want_line ws) ++ PktLine.flush)
            (Py.len (@nil byte)) []).
  rewrite (parse_loop_wants ws [] PktLine.flush [] 1%nat Hws).
  cbn [app].
  set (lines := concat (map Wire.want_line ws)).
  cbn [Git.parse_loop].
  assert (Hlt : (Py.len lines <? Py.len (lines ++ PktLine.flush)) = true).
  { apply Z.ltb_lt. rewrite len_app. change (Py.len PktLine.flush) with 4. lia. }
  rewrite Hlt.
  assert (Hpk : Git.parse_packet (lines ++ PktLine.flush) (Py.len lines)
                  (map (fun w => Wire.ascii_text w.1) ws)
                = Ok (Py.len lines + 4, map (fun w => Wire.ascii_text w.1) ws)).
  { unfold Git.parse_packet.
    pose proof (slice_middle lines PktLine.flush []) as Hs.
    rewrite app_nil_r in Hs. change (Py.len PktLine.flush) with 4 in Hs.
    rewrite Hs. reflexivity. }
  rewrite Hpk.
  replace (Py.len lines + 4) with (Py.len (lines ++ PktLine.flush))
    by (rewrite len_app; reflexivity).
  rewrite Z.ltb_irrefl. reflexivity.
Qed.

Lemma parse_request_reads_wants_witness :
  Forall Wire.well_formed_want
    [(Py.b "45b983be36b73c0788dc9cbcb76cbb80fc7bb057", Py.b " side-band-64k" ++ [x0a]);
     (Py.b "0000000000000000000000000000000000000000", [x0a])]
  ∧ Git.parse_request 3
      (concat (map Wire.want_line
         [(Py.b "45b983be36b73c0788dc9cbcb76cbb80fc7bb057", Py.b " side-band-64k" ++ [x0a]);
          (Py.b "0000000000000000000000000000000000000000", [x0a])])
       ++ PktLine.flush)
    = Some [Py.s "45b983be36b73c0788dc9cbcb76cbb80fc7bb057";
            Py.s "0000000000000000000000000000000000000000"].
Proof.
  assert (H : Forall Wire.well_formed_want
    [(Py.b "45b983be36b73c0788dc9cbcb76cbb80fc7bb057", Py.b " side-band-64k" ++ [x0a]);
     (Py.b "0000000000000000000000000000000000000000", [x0a])]).
  { repeat constructor. }
  split; [exact H|].
  exact (parse_request_reads_wants _ H).
Defined.

Section ReaderEdgeFacts.

Import Py Wire.

Lemma slice_window {A} (p t : list A) :
  slice (p ++ t) (len p) (len p + 4) = take 4 t.
Proof.
  rewrite slice_take_drop.
  - replace (len p + 4 - len p) with 4 by lia.
    unfold len. rewrite Nat2Z.id, drop_app_length. reflexivity.
  - rewrite len_app. pose proof (len_nonneg p). pose proof (len_nonneg t). lia.
  - lia.
Qed.

Lemma lstrip_subset (l : str) (c : N) : c ∈ lstrip l → c ∈ l.
Proof.
  induction l as [|x l IH]; cbn; [auto|].
  destruct (is_space x); [|auto]. intros H. right. auto.
Qed.

Lemma hex_value_nonneg (c : N) (d : Z) : hex_value c = Some d → 0 <= d.
Proof.
  unfold hex_value. intros H.
  repeat match type of H with
         | (if ?c then _ else _) = _ => destruct c eqn:?
         end; try discriminate; injection H as <-; lia.
Qed.

Lemma int16_digits_nonneg (l : str) : ∀ acc prev v rest,
  0 <= acc → int16_digits l acc prev = Some (v, rest) → 0 <= v.
Proof.
  induction l as [|x l IH]; intros acc prev v rest Hacc H; cbn in H.
  - destruct prev; [discriminate|]. injection H as <- _. exact Hacc.
  - destruct (hex_value x) as [d|] eqn:Hd.
    + apply hex_value_nonneg in Hd. eapply IH; [|exact H]. lia.
    + destruct (x =? 95)%N.
      * destruct prev; [discriminate|]. eapply IH; [|exact H]. exact Hacc.
      * destruct prev; [discriminate|]. injection H as <- _. exact Hacc.
Qed.

(** Without a minus sign [int(text, 16)] is never negative. *)
Lemma int16_nonneg (text : str) (v : Z) :
  45%N ∉ text → int16 text = Ok v → 0 <= v.
Proof.
  intros Hminus. unfold int16.
  assert (Hl0 : 45%N ∉ lstrip text) by (intros H; apply Hminus, lstrip_subset, H).
  destruct (lstrip text) as [|x r] eqn:El0.
  - discriminate.
  - destruct (N.eqb_spec x 43).
    + match goal with
      | |- context [int16_digits ?l 0 false] =>
          destruct (int16_digits l 0 false) as [[v' rest]|] eqn:Ed
      end.
      * intros H. apply int16_digits_nonneg in Ed; [|lia].
        repeat match type of H with
               | match ?c with _ => _ end = _ => destruct c; try discriminate
               end. injection H as <-. lia.
      * intros H.
        repeat match type of H with
               | match ?c with _ => _ end = _ => destruct c; try discriminate
               end.
    + destruct (N.eqb_spec x 45).
      * subst x. exfalso. apply Hl0. left.
      * match goal with
        | |- context [int16_digits ?l 0 false] =>
            destruct (int16_digits l 0 false) as [[v' rest]|] eqn:Ed
        end.
        -- intros H. apply int16_digits_nonneg in Ed; [|lia].
           repeat match type of H with
                  | match ?c with _ => _ end = _ => destruct c; try discriminate
                  end. injection H as <-. lia.
        -- intros H.
           repeat match type of H with
                  | match ?c with _ => _ end = _ => destruct c; try discriminate
                  end.
Qed.

Lemma slice_subset {A} (l : list A) (lo hi : Z) (x : A) :
  x ∈ slice l lo hi → x ∈ l.
Proof.
  unfold slice. intros H. apply subseteq_take in H. apply subseteq_drop in H.
  exact H.
Qed.

Lemma decode_ascii_text (l : bytes) (text : str) :
  decode_ascii l = Ok text → text = ascii_text l.
Proof.
  revert text. induction l as [|x l IH]; intros text H; cbn in H.
  - injection H as <-. reflexivity.
  - destruct (byte_val x <? 128); [|discriminate].
    destruct (decode_ascii l) as [r|]; [|discriminate].
    injection H as <-. cbn. f_equal. apply IH. reflexivity.
Qed.

Lemma no_minus_text (data : bytes) :
  no_minus data = true → 45%N ∉ ascii_text data.
Proof.
  intros H Hin. unfold ascii_text in Hin.
  apply list_elem_of_fmap in Hin as (x & Hx & Hin).
  unfold no_minus in H. rewrite forallb_forall in H.
  specialize (H x (proj1 (list_elem_of_In _ _) Hin)).
  destruct x; try discriminate Hx; discriminate H.
Qed.

Lemma no_minus_slice (data : bytes) (lo hi : Z) :
  no_minus data = true → no_minus (slice data lo hi) = true.
Proof.
  unfold no_minus. rewrite !forallb_forall. intros Hall x Hx.
  apply Hall. apply list_elem_of_In. eapply slice_subset.
  apply list_elem_of_In. exact Hx.
Qed.

(** Without a minus sign in the request every packet moves the reader
    forward. *)
Lemma parse_packet_forward (data : bytes) (pos pos' : Z) (wants wants' : list str) :
  no_minus data = true →
  Git.parse_packet data pos wants = Ok (pos', wants') → pos < pos'.
Proof.
  intros Hm. unfold Git.parse_packet.
  destruct (decode_ascii (slice data pos (pos + 4))) as [text|] eqn:Et;
    [|discriminate].
  cbn [mbind Res_bind].
  destruct (int16 text) as [v|] eqn:Ev; [|discriminate].
  cbn [mbind Res_bind].
  assert (Hv : 0 <= v).
  { apply (int16_nonneg text); [|exact Ev].
    rewrite (decode_ascii_text _ _ Et). apply no_minus_text, no_minus_slice, Hm. }
  destruct (Z.eqb_spec v 0).
  - intros H. injection H as <- _. lia.
  - destruct (startswith _ _).
    + destruct (decode_ascii (slice _ 5 45)); [|discriminate].
      cbn. intros H. injection H as <- _. lia.
    + cbn [mbind Res_bind]. intros H. injection H as <- _. lia.
Qed.

Lemma parse_loop_terminates (data : bytes) :
  no_minus data = true →
  ∀ fuel pos wants, len data - pos <= Z.of_nat fuel →
  ∃ r, Git.parse_loop fuel data pos wants = Some r.
Proof.
  intros Hm. induction fuel as [|fuel IH]; intros pos wants Hf.
  - cbn. destruct (Z.ltb_spec pos (len data)); [lia|]. eauto.
  - cbn [Git.parse_loop]. destruct (Z.ltb_spec pos (len data)); [|eauto].
    destruct (Git.parse_packet data pos wants) as [[pos' wants']|] eqn:E; [|eauto].
    apply parse_packet_forward in E; [|exact Hm].
    apply IH. lia.
Qed.

End ReaderEdgeFacts.

(** X2. A request body without a minus sign is always read to an end:
    [parse_request] returns a want-list within as many turns as the body
    has bytes. *)
Theorem parse_request_returns_without_minus (data : bytes) :
  Wire.no_minus data = true →
  ∃ wants, Git.parse_request (length data) data = Some wants.
Proof.
  intros Hm. apply parse_loop_terminates; [exact Hm|]. unfold Py.len. lia.
Qed.

Lemma parse_request_returns_without_minus_witness :
  Wire.no_minus Scenario.want_request = true
  ∧ ∃ wants,
      Git.parse_request (length Scenario.want_request) Scenario.want_request
      = Some wants.
Proof.
  split; [reflexivity|].
  apply (parse_request_returns_without_minus Scenario.want_request).
  reflexivity.
Defined.

(** X3. When the want lines of a request are followed by bytes whose
    first four are no hexadecimal number, [parse_request] stops there and
    returns the identities of the want lines read so far. *)
Theorem parse_request_stops_at_bad_length (ws : list (bytes * bytes))
  (rest : bytes) (e : exn) :
  Forall Wire.well_formed_want ws →
  rest ≠ [] →
  Py.decode_ascii (take 4 rest) ≫= Py.int16 = Raise e →
  Git.parse_request (S (length ws)) (concat (map Wire.want_line ws) ++ rest)
  = Some (map (fun w => Wire.ascii_text w.1) ws).
Proof.
  intros Hws Hrest Hbad. unfold Git.parse_request.
  replace (S (length ws)) with (length ws + 1)%nat by lia.
  change (Git.parse_loop (length ws + 1)
            (concat (map Wire.want_line ws) ++ rest) 0 [])
    with (Git.parse_loop (length ws + 1)
            ([] ++ concat (map Wire.want_line ws) ++ rest)
            (Py.len (@nil byte)) []).
  rewrite (parse_loop_wants ws [] rest [] 1%nat Hws).
  cbn [app].
  set (lines := concat (map Wire.want_line ws)).
  cbn [Git.parse_loop].
  assert (Hlt : (Py.len lines <? Py.len (lines ++ rest)) = true).
  { apply Z.ltb_lt. rewrite len_app. destruct rest; [congruence|].
    unfold Py.len at 3. cbn [length]. lia. }
  rewrite Hlt. unfold Git.parse_packet. rewrite slice_window.
  destruct (Py.decode_ascii (take 4 rest)) as [text|]; [|reflexivity].
  cbn [mbind Res_bind] in Hbad |- *. rewrite Hbad. reflexivity.
Qed.

Lemma parse_request_stops_at_bad_length_witness :
  Forall Wire.well_formed_want
    [(Py.b "45b983be36b73c0788dc9cbcb76cbb80fc7bb057", [x0a])]
  ∧ Py.b "zzzz0000" ≠ []
  ∧ Py.decode_ascii (take 4 (Py.b "zzzz0000")) ≫= Py.int16 = Raise ValueError
  ∧ Git.parse_request 2
      (concat (map Wire.want_line
                 [(Py.b "45b983be36b73c0788dc9cbcb76cbb80fc7bb057", [x0a])])
       ++ Py.b "zzzz0000")
    = Some [Py.s "45b983be36b73c0788dc9cbcb76cbb80fc7bb057"].
Proof.
  assert (H : Forall Wire.well_formed_want
    [(Py.b "45b983be36b73c0788dc9cbcb76cbb80fc7bb057", [x0a])])
    by (repeat constructor).
  assert (Hne : Py.b "zzzz0000" ≠ []) by discriminate.
  split; [exact H|]. split; [exact Hne|]. split; [reflexivity|].
  exact (parse_request_stops_at_bad_length _ _ ValueError H Hne eq_refl).
Defined.

(* ===================================================================== *)
(** * Further properties: the side-band multiplexer *)
(* ===================================================================== *)

Section BandFacts.

Import Py Wire.

Variable cs : Z.
Hypothesis cs_pos : 0 < cs.
Hypothesis cs_fits : cs + 5 < 65536.
Variable data : bytes.
Variable band : Z.
Hypothesis band_ok : 0 <= band < 256.

Lemma side_band_loop_frames (k : nat) : ∀ (j0 : nat) (result : bytes),
  Z.of_nat (j0 + k) = (len data + cs - 1) / cs →
  Git.side_band_loop cs data band (starts_from cs j0 k) result
  = Ok (result ++ concat (map (fun j => frame band (chunk cs data j)) (seq j0 k))).
Proof.
  pose proof (len_nonneg data) as Hlen.
  pose proof (Z.div_mod (len data + cs - 1) cs ltac:(lia)) as Hdm.
  pose proof (Z.mod_pos_bound (len data + cs - 1) cs cs_pos) as Hmod.
  induction k as [|k IH]; intros j0 result HK.
  - cbn. rewrite app_nil_r. reflexivity.
  - assert (Hi : 0 <= Z.of_nat j0 * cs < len data) by nia.
    destruct (chunk_at cs cs_pos data _ Hi) as (Hchunk & Hsize & _).
    unfold starts_from. cbn [seq map concat Git.side_band_loop].
    fold (starts_from cs (S j0) k).
    rewrite Hchunk. fold (chunk cs data j0). rewrite Hchunk in Hsize.
    fold (chunk cs data j0) in Hsize.
    rewrite encode_format_04x by lia. cbn [mbind Res_bind].
    unfold bytearray_append.
    destruct (Z.leb_spec 0 band); [|lia]. destruct (Z.ltb_spec band 256); [|lia].
    cbn [andb mbind Res_bind].
    rewrite IH by lia. f_equal. unfold frame. rewrite <- !app_assoc. reflexivity.
Qed.

Lemma chunks_concat (k : nat) : ∀ j0,
  Z.of_nat (j0 + k) = (len data + cs - 1) / cs →
  concat (map (chunk cs data) (seq j0 k)) = drop (Z.to_nat (Z.of_nat j0 * cs)) data.
Proof.
  pose proof (len_nonneg data) as Hlen.
  pose proof (Z.div_mod (len data + cs - 1) cs ltac:(lia)) as Hdm.
  pose proof (Z.mod_pos_bound (len data + cs - 1) cs cs_pos) as Hmod.
  induction k as [|k IH]; intros j0 HK.
  - cbn. symmetry. apply drop_ge. unfold len in *.
    replace (j0 + 0)%nat with j0 in HK by lia. nia.
  - assert (Hi : 0 <= Z.of_nat j0 * cs < len data) by nia.
    destruct (chunk_at cs cs_pos data _ Hi) as (Hchunk & _ & Hrest).
    cbn [seq map concat]. rewrite IH by lia.
    replace (Z.of_nat (S j0) * cs) with (Z.of_nat j0 * cs + cs) by lia.
    unfold chunk. rewrite <- Hchunk. exact Hrest.
Qed.

Lemma chunk_length (j : nat) :
  Z.of_nat j < (len data + cs - 1) / cs →
  0 < len (chunk cs data j) <= cs
  ∧ (Z.of_nat j + 1 < (len data + cs - 1) / cs → len (chunk cs data j) = cs).
Proof.
  pose proof (len_nonneg data) as Hlen.
  pose proof (Z.div_mod (len data + cs - 1) cs ltac:(lia)) as Hdm.
  pose proof (Z.mod_pos_bound (len data + cs - 1) cs cs_pos) as Hmod.
  intros Hj. unfold chunk, len in *. rewrite length_take, length_drop.
  split; [nia|]. intros Hj'. nia.
Qed.

End BandFacts.

(** X4. For a band in [0, 255] the output of [format_side_band] is one
    packet-line per chunk, with length field, band byte and chunk,
    followed by the flush packet; the chunks are consecutive pieces of the
    input of at most 65519 bytes, all but the last of exactly 65519, so the
    output is 5 bytes per chunk and 4 bytes longer than the input. *)
Theorem format_side_band_frames (data : bytes) (band : Z) :
  0 <= band < 256 →
  let cks := Wire.chunks 65519 (Wire.chunk_count 65519 data) data in
  Git.format_side_band data band
  = Ok (concat (map (Wire.frame band) cks) ++ PktLine.flush)
  ∧ concat cks = data
  ∧ Forall (fun c => 0 < Py.len c <= 65519) cks
  ∧ (∀ j c, cks !! j = Some c → (S j < length cks)%nat → Py.len c = 65519)
  ∧ Py.len (concat (map (Wire.frame band) cks) ++ PktLine.flush)
    = Py.len data + 5 * Z.of_nat (length cks) + 4.
Proof.
  intros Hband cks.
  pose proof (len_nonneg data) as Hlen.
  assert (Hk : Z.of_nat (0 + Wire.chunk_count 65519 data)
               = (Py.len data + 65519 - 1) / 65519).
  { unfold Wire.chunk_count. rewrite Nat.add_0_l, Z2Nat.id; [reflexivity|].
    apply Z.div_pos; lia. }
  assert (Hcat : concat cks = data).
  { unfold cks, Wire.chunks.
    rewrite (chunks_concat 65519 eq_refl eq_refl data _ 0%nat Hk). reflexivity. }
  assert (Hsizes : ∀ j c, cks !! j = Some c →
            0 < Py.len c <= 65519
            ∧ ((S j < length cks)%nat → Py.len c = 65519)).
  { intros j c Hj. unfold cks, Wire.chunks in Hj |- *.
    rewrite list_lookup_fmap in Hj.
    destruct (seq 0 (Wire.chunk_count 65519 data) !! j) as [i|] eqn:Ei;
      [|discriminate].
    apply lookup_seq in Ei as [-> Hi]. cbn in Hj. injection Hj as <-.
    rewrite length_map, length_seq.
    destruct (chunk_length 65519 eq_refl eq_refl data j ltac:(lia)) as [H1 H2].
    split; [exact H1|]. intros Hj. apply H2. lia. }
  split; [|split; [exact Hcat|split; [|split]]].
  - unfold Git.format_side_band, Git.format_side_band_chunked, Git.range_step.
    fold (starts_from Git.chunk_size 0 (Z.to_nat ((Py.len data + Git.chunk_size - 1)
                                                  / Git.chunk_size))).
    change Git.chunk_size with 65519.
    fold (Wire.chunk_count 65519 data).
    rewrite (side_band_loop_frames 65519 eq_refl eq_refl data band Hband
               _ 0%nat [] Hk).
    cbn [mbind Res_bind app]. unfold cks, Wire.chunks. rewrite map_map. reflexivity.
  - apply Forall_forall. intros c Hc.
    apply list_elem_of_lookup in Hc as [j Hj]. apply (Hsizes j c Hj).
  - intros j c Hj. apply (Hsizes j c Hj).
  - assert (Hl : ∀ l : list bytes,
              Py.len (concat (map (Wire.frame band) l))
              = Py.len (concat l) + 5 * Z.of_nat (length l)).
    { induction l as [|c l IH]; [reflexivity|].
      cbn [map concat length]. rewrite !len_app, Nat2Z.inj_succ, IH.
      unfold Wire.frame. rewrite !len_app.
      change (Py.len (PktLine.length_field (Py.len c + 5))) with 4.
      change (Py.len [Py.byte_of band]) with 1. lia. }
    rewrite len_app, Hl, Hcat. change (Py.len PktLine.flush) with 4. lia.
Qed.

Lemma format_side_band_frames_witness :
  0 <= 2 < 256
  ∧ (let cks := Wire.chunks 65519 (Wire.chunk_count 65519 (Py.b "progress")) (Py.b "progress") in
     Git.format_side_band (Py.b "progress") 2
     = Ok (concat (map (Wire.frame 2) cks) ++ PktLine.flush)
     ∧ concat cks = Py.b "progress"
     ∧ Forall (fun c => 0 < Py.len c <= 65519) cks
     ∧ (∀ j c, cks !! j = Some c → (S j < length cks)%nat → Py.len c = 65519)
     ∧ Py.len (concat (map (Wire.frame 2) cks) ++ PktLine.flush)
       = Py.len (Py.b "progress") + 5 * Z.of_nat (length cks) + 4).
Proof.
  split; [lia|].
  apply (format_side_band_frames (Py.b "progress") 2). lia.
Defined.

(** X5. For a band outside [0, 255], [format_side_band] raises
    [ValueError] on every input that is not empty, and returns just the
    flush packet on the empty input. *)
Theorem format_side_band_bad_band (band : Z) :
  ¬ (0 <= band < 256) →
  Git.format_side_band [] band = Ok PktLine.flush
  ∧ ∀ data, data ≠ [] → Git.format_side_band data band = Raise ValueError.
Proof.
  intros Hband. split; [reflexivity|].
  intros data Hdata.
  unfold Git.format_side_band, Git.format_side_band_chunked, Git.range_step.
  change Git.chunk_size with 65519.
  assert (Hlen : 0 < Py.len data).
  { destruct data; [congruence|]. unfold Py.len. cbn [length]. lia. }
  assert (Hk : ∃ k, Z.to_nat ((Py.len data + 65519 - 1) / 65519) = S k).
  { exists (Z.to_nat ((Py.len data + 65519 - 1) / 65519) - 1)%nat.
    assert (1 <= (Py.len data + 65519 - 1) / 65519)
      by (apply Z.div_le_lower_bound; lia).
    lia. }
  destruct Hk as [k ->]. cbn [seq map Git.side_band_loop].
  destruct (chunk_at 65519 eq_refl data 0 ltac:(lia)) as (_ & Hsize & _).
  change (Z.of_nat 0 * 65519) with 0. change (0 + 65519) with 65519 in Hsize |- *.
  rewrite encode_format_04x by lia. cbn [mbind Res_bind].
  unfold Py.bytearray_append.
  destruct (Z.leb_spec 0 band), (Z.ltb_spec band 256); try lia; reflexivity.
Qed.

Lemma format_side_band_bad_band_witness :
  ¬ (0 <= 256 < 256)
  ∧ Git.format_side_band [] 256 = Ok PktLine.flush
  ∧ ∀ data, data ≠ [] → Git.format_side_band data 256 = Raise ValueError.
Proof.
  assert (H : ¬ (0 <= 256 < 256)) by lia.
  split; [exact H|]. exact (format_side_band_bad_band 256 H).
Defined.

(* ===================================================================== *)
(** * Further properties: the objects *)
(* ===================================================================== *)

Section ObjectFacts.

Import Py Spec.

Lemma encode_utf8_error (t : str) (e : exn) :
  encode_utf8 t = Raise e → e = UnicodeEncodeError.
Proof.
  induction t as [|c t IH]; cbn; [discriminate|].
  destruct (utf8_char c) as [x|e'] eqn:Ec.
  - cbn [mbind Res_bind]. destruct (encode_utf8 t) as [r|e'']; [discriminate|].
    cbn [mbind Res_bind]. intros H. injection H as <-. apply IH. reflexivity.
  - cbn [mbind Res_bind]. intros H. injection H as <-.
    unfold utf8_char in Ec.
    repeat match type of Ec with
           | (if ?c then _ else _) = _ => destruct c
           end; congruence.
Qed.

Lemma hex_of_bytes_length (d : bytes) :
  length (hex_of_bytes d) = (2 * length d)%nat.
Proof.
  induction d as [|x d IH]; [reflexivity|].
  unfold hex_of_bytes in *. cbn [flat_map app length]. rewrite IH. lia.
Qed.

Lemma hexdigest_length (msg : bytes) : length (SHA1.hexdigest msg) = 40%nat.
Proof. unfold SHA1.hexdigest. rewrite hex_of_bytes_length, digest_length. reflexivity. Qed.

Lemma create_blob_ok (content : str) (data : bytes) :
  encode_utf8 content = Ok data →
  Git.create_blob content
  = Ok (SHA1.hexdigest (store "blob" data), store "blob" data).
Proof.
  intros H. unfold Git.create_blob. rewrite H. cbn [mbind Res_bind].
  rewrite encode_str_of_int. reflexivity.
Qed.

Lemma create_blob_inv (content h : str) (blob : bytes) :
  Git.create_blob content = Ok (h, blob) →
  ∃ data, encode_utf8 content = Ok data
          ∧ blob = store "blob" data ∧ h = SHA1.hexdigest blob.
Proof.
  unfold Git.create_blob.
  destruct (encode_utf8 content) as [data|]; [|discriminate].
  cbn [mbind Res_bind]. rewrite encode_str_of_int. cbn [mbind Res_bind].
  intros H. injection H as <- <-. exists data. auto.
Qed.

(** The decimal digits of a length are no NUL bytes. *)
Lemma digits_not_nul (u : Decimal.uint) :
  Forall (fun x => x ≠ x00) (ascii_bytes (s (NilEmpty.string_of_uint u))).
Proof.
  induction u; cbn; try constructor; try exact IHu; discriminate.
Qed.

Lemma str_of_int_not_nul (n : Z) :
  Forall (fun x => x ≠ x00) (ascii_bytes (str_of_int n)).
Proof.
  unfold str_of_int, NilZero.string_of_uint.
  destruct (N.to_uint (Z.to_N n)) eqn:E;
    try (rewrite <- E; apply digits_not_nul).
  cbn. repeat constructor. discriminate.
Qed.

Lemma find_byte_first (p rest : bytes) (c : byte) :
  Forall (fun x => x ≠ c) p → find_byte (p ++ c :: rest) c = len p.
Proof.
  induction 1 as [|x p Hx Hp IH]; cbn [app find_byte].
  - destruct (Byte.eqb c c) eqn:E; [reflexivity|].
    destruct c; discriminate E.
  - destruct (Byte.eqb x c) eqn:E.
    + apply Byte.byte_dec_bl in E. congruence.
    + rewrite IH. pose proof (len_nonneg p).
      destruct (Z.ltb_spec (len p) 0); [lia|].
      unfold len. cbn [length]. lia.
Qed.

Lemma strip_header_store_gen (type : bytes) (payload : bytes) :
  Forall (fun x => x ≠ x00) type →
  Git.strip_header (type ++ b " " ++ ascii_bytes (str_of_int (len payload))
                    ++ [x00] ++ payload) = payload.
Proof.
  intros Ht. unfold Git.strip_header, Git.NUL.
  set (header := type ++ b " " ++ ascii_bytes (str_of_int (len payload))).
  assert (Hh : Forall (fun x => x ≠ x00) header).
  { unfold header. apply Forall_app. split; [exact Ht|].
    apply Forall_app. split; [repeat constructor; discriminate|].
    apply str_of_int_not_nul. }
  replace (type ++ b " " ++ ascii_bytes (str_of_int (len payload)) ++ [x00] ++ payload)
    with (header ++ x00 :: payload)
    by (unfold header; rewrite <- !app_assoc; reflexivity).
  rewrite (find_byte_first header payload x00 Hh).
  pose proof (len_nonneg header).
  destruct (Z.eqb_spec (len header) (-1)); [lia|]. cbn [negb].
  unfold slice_from, clamp_index.
  destruct (Z.ltb_spec (len header + 1) 0); [lia|].
  rewrite Z.min_l by (rewrite len_app; unfold len; cbn [length]; lia).
  replace (Z.to_nat (len header + 1)) with (length header + 1)%nat
    by (unfold len; lia).
  rewrite <- drop_drop, drop_app_length. reflexivity.
Qed.

End ObjectFacts.

(** X6. [create_blob] on a content that UTF-8 can encode returns the
    store ["blob <len>\0<bytes>"] and as identity the 40 hexadecimal
    characters of its SHA-1 digest, which [bytes.fromhex] turns back into
    the 20 bytes of the digest; on any other content it raises
    [UnicodeEncodeError]. *)
Theorem create_blob_identity (content : str) :
  match Py.encode_utf8 content with
  | Ok data =>
      let st := Spec.store "blob" data in
      Git.create_blob content = Ok (SHA1.hexdigest st, st)
      ∧ length (SHA1.hexdigest st) = 40%nat
      ∧ is_ascii (SHA1.hexdigest st)
      ∧ Py.fromhex (SHA1.hexdigest st) = Ok (SHA1.digest st)
      ∧ length (SHA1.digest st) = 20%nat
  | Raise _ => Git.create_blob content = Raise UnicodeEncodeError
  end.
Proof.
  destruct (Py.encode_utf8 content) as [data|e] eqn:E.
  - cbv zeta. split; [apply create_blob_ok; exact E|].
    split; [apply hexdigest_length|]. split; [apply hexdigest_ascii|].
    split; [apply fromhex_hex|apply digest_length].
  - unfold Git.create_blob. rewrite E.
    rewrite (encode_utf8_error _ _ E). reflexivity.
Qed.

(** X7. The stores the builders make are taken apart again by
    [create_packfile]: whatever the payload, the type read from a blob,
    tree or commit store is 3, 2 or 1, the content after the first NUL is
    the payload, and so the pack entry is the size/type header of that
    type and payload length followed by the compressed payload. *)
Theorem pack_entry_of_store (zlib_compress : bytes → bytes) (h : str)
  (payload : bytes) :
  (Git.obj_type (Spec.store "blob" payload) = 3
   ∧ Git.obj_type (Spec.store "tree" payload) = 2
   ∧ Git.obj_type (Spec.store "commit" payload) = 1)
  ∧ (Git.strip_header (Spec.store "blob" payload) = payload
     ∧ Git.strip_header (Spec.store "tree" payload) = payload
     ∧ Git.strip_header (Spec.store "commit" payload) = payload)
  ∧ (PackSpec.pack_entry zlib_compress (h, Spec.store "blob" payload)
     = PackSpec.object_header 3 (Py.len payload) ++ zlib_compress payload
     ∧ PackSpec.pack_entry zlib_compress (h, Spec.store "tree" payload)
       = PackSpec.object_header 2 (Py.len payload) ++ zlib_compress payload
     ∧ PackSpec.pack_entry zlib_compress (h, Spec.store "commit" payload)
       = PackSpec.object_header 1 (Py.len payload) ++ zlib_compress payload)
  ∧ Git.pack_object zlib_compress [] (h, Spec.store "blob" payload)
    = Ok (PackSpec.object_header 3 (Py.len payload) ++ zlib_compress payload).
Proof.
  assert (Ht : (Git.obj_type (Spec.store "blob" payload) = 3
   ∧ Git.obj_type (Spec.store "tree" payload) = 2
   ∧ Git.obj_type (Spec.store "commit" payload) = 1)).
  { assert (H2 : Py.startswith (Spec.store "tree" payload) (Py.b "tree ") = true).
    { change (Spec.store "tree" payload)
        with (Py.b "tree " ++ Spec.ascii_bytes (Py.str_of_int (Py.len payload))
              ++ [x00] ++ payload).
      apply startswith_app. }
    assert (H1 : Py.startswith (Spec.store "commit" payload) (Py.b "commit ") = true).
    { change (Spec.store "commit" payload)
        with (Py.b "commit " ++ Spec.ascii_bytes (Py.str_of_int (Py.len payload))
              ++ [x00] ++ payload).
      apply startswith_app. }
    unfold Git.obj_type. rewrite H1, H2. repeat split; reflexivity. }
  assert (Hs : Git.strip_header (Spec.store "blob" payload) = payload
     ∧ Git.strip_header (Spec.store "tree" payload) = payload
     ∧ Git.strip_header (Spec.store "commit" payload) = payload).
  { unfold Spec.store.
    repeat split; apply strip_header_store_gen; repeat constructor; discriminate. }
  destruct Ht as (Ht1 & Ht2 & Ht3). destruct Hs as (Hs1 & Hs2 & Hs3).
  assert (He : PackSpec.pack_entry zlib_compress (h, Spec.store "blob" payload)
     = PackSpec.object_header 3 (Py.len payload) ++ zlib_compress payload
     ∧ PackSpec.pack_entry zlib_compress (h, Spec.store "tree" payload)
       = PackSpec.object_header 2 (Py.len payload) ++ zlib_compress payload
     ∧ PackSpec.pack_entry zlib_compress (h, Spec.store "commit" payload)
       = PackSpec.object_header 1 (Py.len payload) ++ zlib_compress payload).
  { unfold PackSpec.pack_entry. cbn [snd].
    rewrite Ht1, Ht2, Ht3, Hs1, Hs2, Hs3. auto. }
  repeat split; try assumption; try apply He.
  rewrite pack_object_spec. cbn [app]. f_equal. apply He.
Qed.

Section TreeOfFiles.

Import Py Spec Fetch.

Lemma collected_entries (files : list (str * Res str)) (objects : list Git.entry) :
  Git.collect_objects files [] = Ok objects →
  objects = map hex_entry (map raw_entry objects)
  ∧ Forall2 (fun f o =>
               Git.entry_path o = f.1
               ∧ ∃ content data,
                   f.2 = Ok content ∧ encode_utf8 content = Ok data
                   ∧ Git.entry_blob o = store "blob" data) files objects.
Proof.
  intros H. destruct (collect_objects_spec _ _ _ H) as (new & -> & Hnew).
  cbn [app]. clear H. induction Hnew as [|f o files new Hfo Hnew [IH1 IH2]].
  - split; [reflexivity|constructor].
  - destruct Hfo as (content & Hread & Hblob & Hpath).
    destruct (create_blob_inv _ _ _ Hblob) as (data & Henc & Hst & Hh).
    split.
    + cbn [map]. rewrite <- IH1. f_equal.
      destruct o as [[p h] blob]. unfold hex_entry, raw_entry.
      cbn [fst snd Git.entry_path Git.entry_hash Git.entry_blob] in *.
      rewrite Hh. reflexivity.
    + constructor; [|exact IH2]. split; [exact Hpath|]. eauto.
Qed.

Lemma tree_loop_paths (objects : list Git.entry) : ∀ acc r,
  Git.tree_loop objects acc = Ok r →
  Forall (fun o => is_ok (encode_utf8 (Git.entry_path o)) = true) objects.
Proof.
  induction objects as [|[[p h] x] objects IH]; intros acc r H; [constructor|].
  cbn [Git.tree_loop Git.tree_extend] in H.
  destruct (encode_utf8 p) as [pb|] eqn:Ep; [|discriminate].
  cbn [mbind Res_bind] in H.
  destruct (fromhex h) as [hb|]; [|discriminate].
  cbn [mbind Res_bind] in H.
  constructor; [cbn; rewrite Ep; reflexivity|]. eapply IH. exact H.
Qed.

Lemma create_tree_paths (objects : list Git.entry) (tree : str * bytes) :
  Git.create_tree objects = Ok tree →
  Forall (fun o => is_ok (encode_utf8 (Git.entry_path o)) = true) objects.
Proof.
  unfold Git.create_tree. intros H.
  destruct (Git.tree_loop (sorted Git.entry_path objects) []) as [r|] eqn:E;
    [|discriminate].
  apply tree_loop_paths in E.
  rewrite <- (sorted_perm Git.entry_path objects). exact E.
Qed.

Lemma create_tree_collected (files : list (str * Res str))
  (objects : list Git.entry) :
  Git.collect_objects files [] = Ok objects →
  Forall (fun f => is_ok (encode_utf8 f.1) = true) files →
  let entries := sorted (fun o => o.1.1) (map raw_entry objects) in
  Git.create_tree objects
  = Ok (SHA1.hexdigest (store "tree" (tree_payload entries)),
        store "tree" (tree_payload entries)).
Proof.
  intros H Hpaths entries.
  destruct (collected_entries _ _ H) as (Hobj & Hfiles).
  rewrite Hobj at 1. apply create_tree_store.
  clear Hobj H entries.
  induction Hfiles as [|f o files objects [Hp _] _ IH]; [constructor|].
  apply Forall_cons in Hpaths as [Hf Hpaths].
  constructor; [|apply IH; exact Hpaths].
  split; [|apply digest_length].
  change ((raw_entry o).1.1) with (Git.entry_path o). rewrite Hp. exact Hf.
Qed.

Lemma is_ascii_commit_text (h : str) : is_ascii h → is_ascii (Git.commit_text h).
Proof.
  intros Hh. unfold Git.commit_text, Git.LF.
  repeat apply is_ascii_app; try exact Hh;
    try (apply is_ascii_literal; reflexivity);
    repeat constructor.
Qed.

Lemma create_commit_ok (h : str) :
  is_ascii h →
  let st := store "commit" (ascii_bytes (Git.commit_text h)) in
  Git.create_commit h = Ok (SHA1.hexdigest st, st).
Proof.
  intros Hh st. unfold Git.create_commit.
  rewrite (encode_utf8_ascii _ (is_ascii_commit_text h Hh)).
  cbn [mbind Res_bind]. rewrite encode_str_of_int. reflexivity.
Qed.

End TreeOfFiles.

(** X8. When every file of the walk can be read and encoded and has a
    path that can be encoded, the tree built from the collected blobs
    lists the files in ascending order of path, each as
    ["100644 <path>\0"] followed by the 20 bytes of the SHA-1 digest of
    its blob store ["blob <len>\0<content>"]. *)
Theorem tree_of_collected_files (files : list (str * Res str))
  (objects : list Git.entry) :
  Git.collect_objects files [] = Ok objects →
  Forall (fun f => is_ok (Py.encode_utf8 f.1) = true) files →
  let entries := Py.sorted (fun o => o.1.1) (map Fetch.raw_entry objects) in
  Git.create_tree objects
  = Ok (SHA1.hexdigest (Spec.store "tree" (tree_payload entries)),
        Spec.store "tree" (tree_payload entries))
  ∧ Sorted (key_le (fun o => o.1.1)) entries
  ∧ Forall2 (fun f o =>
               Git.entry_path o = f.1
               ∧ ∃ content data,
                   f.2 = Ok content ∧ Py.encode_utf8 content = Ok data
                   ∧ Git.entry_blob o = Spec.store "blob" data) files objects.
Proof.
  intros H Hp entries. split; [apply (create_tree_collected files); assumption|].
  split; [apply sorted_Sorted|]. apply (collected_entries _ _ H).
Qed.

Lemma tree_of_collected_files_witness :
  Git.collect_objects Scenario.hello_files []
  = Ok [(Py.s "hello.txt", Scenario.hello_blob.1, Scenario.hello_blob.2)]
  ∧ Forall (fun f => is_ok (Py.encode_utf8 f.1) = true) Scenario.hello_files
  ∧ (let entries := Py.sorted (fun o => o.1.1)
        (map Fetch.raw_entry
           [(Py.s "hello.txt", Scenario.hello_blob.1, Scenario.hello_blob.2)]) in
     Git.create_tree [(Py.s "hello.txt", Scenario.hello_blob.1, Scenario.hello_blob.2)]
     = Ok (SHA1.hexdigest (Spec.store "tree" (tree_payload entries)),
           Spec.store "tree" (tree_payload entries))
     ∧ Sorted (key_le (fun o => o.1.1)) entries
     ∧ Forall2 (fun f o =>
                  Git.entry_path o = f.1
                  ∧ ∃ content data,
                      f.2 = Ok content ∧ Py.encode_utf8 content = Ok data
                      ∧ Git.entry_blob o = Spec.store "blob" data)
         Scenario.hello_files
         [(Py.s "hello.txt", Scenario.hello_blob.1, Scenario.hello_blob.2)]).
Proof.
  assert (H1 : Git.collect_objects Scenario.hello_files []
    = Ok [(Py.s "hello.txt", Scenario.hello_blob.1, Scenario.hello_blob.2)])
    by (vm_compute; reflexivity).
  assert (H2 : Forall (fun f => is_ok (Py.encode_utf8 f.1) = true)
                 Scenario.hello_files) by (repeat constructor).
  split; [exact H1|]. split; [exact H2|].
  exact (tree_of_collected_files _ _ H1 H2).
Defined.

(* ===================================================================== *)
(** * Further properties: the advertisement *)
(* ===================================================================== *)

Section AdvertisementFacts.

Import Py Spec Wire.

Lemma encode_ascii_inv (t : str) (x : bytes) :
  encode_ascii t = Ok x → is_ascii t ∧ ascii_bytes t = x.
Proof.
  revert x. induction t as [|c t IH]; intros x H; cbn in H.
  - injection H as <-. split; [constructor|reflexivity].
  - destruct (N.ltb_spec c 128); [|discriminate].
    destruct (encode_ascii t) as [r|]; [|discriminate].
    injection H as <-. destruct (IH r eq_refl) as [Ha Hb].
    split; [constructor; assumption|].
    unfold ascii_bytes in *. cbn [map]. rewrite Hb. reflexivity.
Qed.

Lemma ascii_bytes_app (t u : str) :
  ascii_bytes (t ++ u) = ascii_bytes t ++ ascii_bytes u.
Proof. apply map_app. Qed.

Lemma len_ascii_bytes (t : str) : len (ascii_bytes t) = len t.
Proof. unfold len, ascii_bytes. rewrite length_map. reflexivity. Qed.

(** A packet-line made as text is the packet-line of its bytes. *)
Lemma pkt_text_ascii (line : str) :
  is_ascii line → len line + 4 < 65536 →
  is_ascii (Git.pkt_text line)
  ∧ ascii_bytes (Git.pkt_text line) = PktLine.encode (ascii_bytes line).
Proof.
  intros Hl Hn. unfold Git.pkt_text, PktLine.encode.
  pose proof (len_nonneg line).
  destruct (encode_ascii_inv _ _ (encode_format_04x (len line + 4) ltac:(lia)))
    as [Ha Hb].
  split; [apply is_ascii_app; assumption|].
  rewrite ascii_bytes_app, Hb, len_ascii_bytes. reflexivity.
Qed.

Lemma advertisement_ascii (h : str) :
  is_ascii h → length h = 40%nat →
  Git.advertisement h = Ok (advertised (ascii_bytes h)).
Proof.
  intros Hh Hlen. unfold Git.advertisement.
  assert (Hcaps : is_ascii Git.capabilities)
    by (apply is_ascii_literal; reflexivity).
  assert (Hhead : is_ascii (Git.head_line h)).
  { unfold Git.head_line, Git.LF.
    repeat apply is_ascii_app; try assumption;
      try (apply is_ascii_literal; reflexivity); repeat constructor. }
  assert (Hmain : is_ascii (Git.main_line h)).
  { unfold Git.main_line, Git.LF.
    repeat apply is_ascii_app; try assumption;
      try (apply is_ascii_literal; reflexivity); repeat constructor. }
  assert (Hservice : is_ascii (s "# service=git-upload-pack" ++ [Git.LF])).
  { apply is_ascii_app; [apply is_ascii_literal; reflexivity|repeat constructor]. }
  assert (Hhl : len (Git.head_line h) + 4 < 65536).
  { unfold Git.head_line. rewrite !len_app. unfold len. rewrite Hlen.
    vm_compute. reflexivity. }
  assert (Hml : len (Git.main_line h) + 4 < 65536).
  { unfold Git.main_line. rewrite !len_app. unfold len. rewrite Hlen.
    vm_compute. reflexivity. }
  destruct (pkt_text_ascii _ Hservice eq_refl) as [A1 B1].
  destruct (pkt_text_ascii _ Hhead Hhl) as [A2 B2].
  destruct (pkt_text_ascii _ Hmain Hml) as [A3 B3].
  assert (Hflush : is_ascii (s "0000")) by (apply is_ascii_literal; reflexivity).
  cbv zeta.
  rewrite encode_utf8_ascii.
  2:{ apply is_ascii_app; [exact A1|]. apply is_ascii_app; [exact Hflush|].
      apply is_ascii_app; [exact A2|]. apply is_ascii_app; [exact A3|exact Hflush]. }
  f_equal. rewrite !ascii_bytes_app, B1, B2, B3. unfold advertised.
  unfold Git.head_line, Git.main_line, Git.LF. rewrite !ascii_bytes_app.
  reflexivity.
Qed.

Lemma hex_digits_of_byte (x : byte) :
  Forall (fun y => (48 <= byte_val y <= 57) ∨ (97 <= byte_val y <= 102))
         (ascii_bytes (hex_of_bytes [x])).
Proof.
  destruct x; cbn; (constructor; [|constructor; [|constructor]]);
    vm_compute; (left; split; discriminate) || (right; split; discriminate).
Qed.

Lemma is_hex40_hexdigest (msg : bytes) :
  is_hex40 (ascii_bytes (SHA1.hexdigest msg)).
Proof.
  split.
  - unfold ascii_bytes. rewrite length_map. apply hexdigest_length.
  - unfold SHA1.hexdigest. induction (SHA1.digest msg) as [|x d IH];
      [constructor|].
    change (hex_of_bytes (x :: d)) with (hex_of_bytes [x] ++ hex_of_bytes d).
    rewrite ascii_bytes_app. apply Forall_app. split; [apply hex_digits_of_byte|exact IH].
Qed.

Lemma is_hex40_zero : is_hex40 zero_identity.
Proof.
  split; [reflexivity|].
  unfold zero_identity. apply Forall_forall. intros x Hx.
  apply elem_of_replicate in Hx as [-> _]. left. vm_compute. split; discriminate.
Qed.

Lemma create_commit_hash (th ch : str) (cc : bytes) :
  Git.create_commit th = Ok (ch, cc) →
  ch = SHA1.hexdigest cc ∧ Git.obj_type cc = 1.
Proof.
  unfold Git.create_commit.
  destruct (encode_utf8 (Git.commit_text th)) as [data|]; [|discriminate].
  cbn [mbind Res_bind]. rewrite encode_str_of_int. cbn [mbind Res_bind].
  intros H. injection H as <- <-. split; [reflexivity|].
  unfold Git.obj_type.
  match goal with
  | |- context [startswith ?l (b "commit ")] =>
      replace (startswith l (b "commit ")) with true
        by (symmetry; apply (startswith_app (b "commit ")))
  end.
  reflexivity.
Qed.

Lemma refs_commit_hash_cases (files : list (str * Res str)) (h : str) :
  Git.refs_commit_hash files = Ok h →
  h = Git.zero_hash ∨ ∃ st, h = SHA1.hexdigest st.
Proof.
  unfold Git.refs_commit_hash.
  destruct (Git.collect_objects files []) as [[|o objects]|]; try discriminate.
  - cbn. intros H. injection H as <-. auto.
  - cbn [mbind Res_bind].
    destruct (Git.create_tree (o :: objects)) as [[th tc]|]; [|discriminate].
    cbn [mbind Res_bind].
    destruct (Git.create_commit th) as [[ch cc]|] eqn:Ec; [|discriminate].
    cbn [mbind Res_bind]. intros H. injection H as <-.
    right. exists cc. apply (create_commit_hash _ _ _ Ec).
Qed.

Lemma get_refs_try_cases (e : Git.env) (fs : Git.filesystem) (h : str) :
  (Git.get_refs_try e fs).1.1 = Ok h →
  h = Git.zero_hash ∨ ∃ st, h = SHA1.hexdigest st.
Proof.
  unfold Git.get_refs_try.
  destruct (Git.get_project_dir e); [|discriminate].
  destruct (Git.read_main_py e) as [code|]; [|discriminate].
  destruct (Git.synthesize e code fs) as [[[d|]|x] fs1]; cbn [fst].
  - apply refs_commit_hash_cases.
  - intros H. injection H as <-. auto.
  - discriminate.
Qed.

(** ** What the pipeline raises *)

Lemma fromhex_error (x : exn) (n : nat) : ∀ t : str,
  (length t <= n)%nat → fromhex t = Raise x → x = ValueError.
Proof.
  induction n as [|n IH]; intros t Hn.
  - destruct t; [discriminate|cbn in Hn; lia].
  - destruct t as [|c t]; [discriminate|]. cbn [fromhex]. cbn in Hn.
    destruct (is_space c); [apply IH; lia|].
    destruct (hex_value c) as [hi|]; [|congruence].
    destruct t as [|c2 t]; [congruence|].
    destruct (hex_value c2) as [lo|]; [|congruence].
    destruct (fromhex t) as [r|x'] eqn:E; [discriminate|].
    cbn [mbind Res_bind]. intros H. injection H as <-.
    apply (IH t); [cbn in Hn; lia|exact E].
Qed.

Lemma tree_loop_raises (x : exn) (objects : list Git.entry) : ∀ acc,
  Git.tree_loop objects acc = Raise x → is_exception x = true.
Proof.
  induction objects as [|[[p h] blob] objects IH]; intros acc; [discriminate|].
  cbn [Git.tree_loop Git.tree_extend].
  destruct (encode_utf8 p) as [pb|x'] eqn:Ep.
  2:{ cbn. intros H. injection H as <-.
      rewrite (encode_utf8_error _ _ Ep). reflexivity. }
  cbn [mbind Res_bind].
  destruct (fromhex h) as [hb|x'] eqn:Eh.
  2:{ cbn. intros H. injection H as <-.
      rewrite (fromhex_error _ _ h (le_n _) Eh). reflexivity. }
  cbn [mbind Res_bind]. apply IH.
Qed.

Lemma create_tree_raises (x : exn) (objects : list Git.entry) :
  Git.create_tree objects = Raise x → is_exception x = true.
Proof.
  unfold Git.create_tree.
  destruct (Git.tree_loop _ []) as [data|x'] eqn:E.
  - cbn [mbind Res_bind]. rewrite encode_str_of_int. discriminate.
  - cbn. intros H. injection H as <-. exact (tree_loop_raises _ _ _ E).
Qed.

Lemma create_blob_raises (x : exn) (content : str) :
  Git.create_blob content = Raise x → is_exception x = true.
Proof.
  unfold Git.create_blob.
  destruct (encode_utf8 content) as [data|x'] eqn:E.
  - cbn [mbind Res_bind]. rewrite encode_str_of_int. discriminate.
  - cbn. intros H. injection H as <-.
    rewrite (encode_utf8_error _ _ E). reflexivity.
Qed.

Lemma create_commit_raises (x : exn) (h : str) :
  Git.create_commit h = Raise x → is_exception x = true.
Proof.
  unfold Git.create_commit.
  destruct (encode_utf8 (Git.commit_text h)) as [data|x'] eqn:E.
  - cbn [mbind Res_bind]. rewrite encode_str_of_int. discriminate.
  - cbn. intros H. injection H as <-.
    rewrite (encode_utf8_error _ _ E). reflexivity.
Qed.

Lemma collect_objects_raises (x : exn) (files : list (str * Res str)) :
  ∀ acc, Git.collect_objects files acc = Raise x →
         is_exception x = true ∨ ∃ rel_path, (rel_path, Raise x) ∈ files.
Proof.
  induction files as [|[rel_path read] files IH]; intros acc; [discriminate|].
  cbn [Git.collect_objects]. destruct read as [content|x'].
  - cbn [mbind Res_bind].
    destruct (Git.create_blob content) as [[h blob]|x'] eqn:Eb.
    + cbn [mbind Res_bind]. intros H.
      destruct (IH _ H) as [Hx | [rp Hrp]]; [left; exact Hx|].
      right. exists rp. apply elem_of_cons. right. exact Hrp.
    + cbn. intros H. injection H as <-. left. exact (create_blob_raises _ _ Eb).
  - cbn. intros H. injection H as <-. right. exists rel_path.
    apply elem_of_cons. left. reflexivity.
Qed.

Lemma refs_commit_hash_raises (x : exn) (files : list (str * Res str)) :
  Git.refs_commit_hash files = Raise x →
  is_exception x = true ∨ ∃ rel_path, (rel_path, Raise x) ∈ files.
Proof.
  unfold Git.refs_commit_hash.
  destruct (Git.collect_objects files []) as [[|o objects]|x'] eqn:Ec.
  - discriminate.
  - cbn [mbind Res_bind].
    destruct (Git.create_tree (o :: objects)) as [[th tc]|x'] eqn:Et.
    + cbn [mbind Res_bind].
      destruct (Git.create_commit th) as [[ch cc]|x''] eqn:Em; [discriminate|].
      cbn. intros H. injection H as <-. left. exact (create_commit_raises _ _ Em).
    + cbn. intros H. injection H as <-. left. exact (create_tree_raises _ _ Et).
  - cbn. intros H. injection H as <-. exact (collect_objects_raises _ _ _ Ec).
Qed.

Lemma synthesize_raises (e : Git.env) (code : str) (fs : Git.filesystem)
  (x : exn) :
  (Git.synthesize e code fs).1 = Raise x →
  is_exception x = false
  ∧ (Git.mkdtemp e = Raise x ∨ Git.run_cdktf e code = Git.ExecRaises x).
Proof.
  unfold Git.synthesize.
  destruct (Git.mkdtemp e) as [name|x'].
  - destruct (Git.run_cdktf e code) as [x'| | |]; try discriminate.
    destruct (is_exception x') eqn:Ex; [discriminate|].
    cbn. intros H. injection H as <-. auto.
  - cbn. destruct (is_exception x') eqn:Ex; [discriminate|].
    intros H. injection H as <-. auto.
Qed.

Lemma get_refs_try_raises (e : Git.env) (fs : Git.filesystem) (x : exn) :
  (Git.get_refs_try e fs).1.1 = Raise x →
  is_exception x = true ∨ Fetch.raises e x.
Proof.
  unfold Git.get_refs_try, Git.get_project_dir, Git.read_main_py, Fetch.raises.
  destruct (Git.project_path e) as [p|].
  2:{ cbn. intros H. injection H as <-. left. reflexivity. }
  destruct (Git.main_py e) as [[code|x']|].
  - destruct (Git.synthesize e code fs) as [[[d|]|x'] fs1] eqn:Es; cbn [fst].
    + intros H. destruct (refs_commit_hash_raises _ _ H) as [Hx | [rp Hrp]];
        [left; exact Hx|]. right. right. right. right. eauto.
    + discriminate.
    + intros H. injection H as <-.
      destruct (synthesize_raises e code fs x') as [_ [Hm | Hr]];
        [rewrite Es; reflexivity| |]; right; eauto.
  - cbn. intros H. injection H as <-. right. left. reflexivity.
  - cbn. intros H. injection H as <-. left. reflexivity.
Qed.

Lemma get_refs_outcome (e : Git.env) (fs : Git.filesystem) :
  (∃ identity,
     (Git.get_refs e fs).1 = Ok (advertised identity) ∧ is_hex40 identity)
  ∨ (∃ x, (Git.get_refs e fs).1 = Raise x
          ∧ is_exception x = false ∧ Fetch.raises e x).
Proof.
  unfold Git.get_refs.
  pose proof (get_refs_try_cases e fs) as Hc.
  pose proof (get_refs_try_raises e fs) as Hr.
  destruct (Git.get_refs_try e fs) as [[r sd] fs1]. cbn [fst] in *.
  destruct r as [h|x]; cbn [except_Exception].
  - left. cbn [mbind Res_bind]. destruct (Hc h eq_refl) as [-> | [st ->]].
    + exists Spec.zero_identity. split; [apply advertisement_zero|apply is_hex40_zero].
    + exists (Spec.ascii_bytes (SHA1.hexdigest st)).
      split; [|apply is_hex40_hexdigest].
      apply advertisement_ascii; [apply hexdigest_ascii|apply hexdigest_length].
  - destruct (is_exception x) eqn:Ex.
    + left. cbn [mbind Res_bind]. exists Spec.zero_identity.
      split; [apply advertisement_zero|apply is_hex40_zero].
    + right. exists x. split; [reflexivity|]. split; [exact Ex|].
      destruct (Hr x eq_refl) as [H | H]; [congruence|exact H].
Qed.

Lemma get_refs_tame (e : Git.env) (fs : Git.filesystem) :
  Fetch.tame e →
  ∃ identity,
    (Git.get_refs e fs).1 = Ok (advertised identity) ∧ is_hex40 identity.
Proof.
  intros Ht. destruct (get_refs_outcome e fs) as [H | (x & _ & Hx & Hr)];
    [exact H|]. rewrite (Ht x Hr) in Hx. discriminate Hx.
Qed.

End AdvertisementFacts.

(** X9. What [get_refs] returns. In every surroundings it either
    returns the complete advertisement (service line, flush, HEAD line
    with the capabilities, line of [refs/heads/main], flush) with one
    identity of 40 hexadecimal characters on both lines, or raises an
    exception that the surroundings raised and that is no [Exception]
    ([SystemExit], [KeyboardInterrupt]). It does raise when the
    project's code raises such an exception, and it returns an
    advertisement whenever the surroundings raise nothing but
    [Exception]s. *)
Theorem get_refs_advertises_or_exits (e : Git.env) (fs : Git.filesystem) :
  ((∃ identity,
      (Git.get_refs e fs).1 = Ok (Spec.advertised identity)
      ∧ Wire.is_hex40 identity)
   ∨ (∃ x, (Git.get_refs e fs).1 = Raise x
           ∧ is_exception x = false ∧ Fetch.raises e x))
  ∧ (∀ x, Fetch.exits e x → (Git.get_refs e fs).1 = Raise x)
  ∧ (Fetch.tame e →
     ∃ identity,
       (Git.get_refs e fs).1 = Ok (Spec.advertised identity)
       ∧ Wire.is_hex40 identity).
Proof.
  split; [exact (get_refs_outcome e fs)|]. split.
  - intros x Hx. exact (get_refs_exits e fs x Hx).
  - exact (get_refs_tame e fs).
Qed.

Lemma get_refs_advertises_or_exits_witness :
  Fetch.exits Scenario.exiting_env SystemExit
  ∧ (Git.get_refs Scenario.exiting_env ∅).1 = Raise SystemExit
  ∧ Fetch.tame Scenario.failing_env
  ∧ ∃ identity,
      (Git.get_refs Scenario.failing_env ∅).1 = Ok (Spec.advertised identity)
      ∧ Wire.is_hex40 identity.
Proof.
  assert (Hx : Fetch.exits Scenario.exiting_env SystemExit).
  { exists (Py.s "your-cdktf-project"), (Py.s "import sys; sys.exit(1)"),
      (Py.s "tmpk3v9"). repeat split; reflexivity. }
  assert (Ht : Fetch.tame Scenario.failing_env).
  { intros x [H | [H | [[code H] | (d & rp & H)]]].
    - discriminate H.
    - discriminate H.
    - cbn in H. injection H as <-. reflexivity.
    - cbn in H. apply elem_of_nil in H. destruct H. }
  split; [exact Hx|]. split.
  - exact (proj1 (proj2 (get_refs_advertises_or_exits Scenario.exiting_env ∅))
             SystemExit Hx).
  - split; [exact Ht|].
    exact (proj2 (proj2 (get_refs_advertises_or_exits Scenario.failing_env ∅))
             Ht).
Defined.

(* ===================================================================== *)
(** * Further properties: the fetch flow *)
(* ===================================================================== *)

Section FetchFlowFacts.

Import Py Spec Wire Fetch.

Variable zlib_compress : bytes → bytes.

Lemma get_refs_try_synthesized (e : Git.env) (fs : Git.filesystem)
  (p code name : str) :
  Git.project_path e = Some p → Git.main_py e = Some (Ok code) →
  Git.mkdtemp e = Ok name → Git.run_cdktf e code = Git.Synthesized →
  (Git.get_refs_try e fs).1.1
  = Git.refs_commit_hash (Git.walk e (Git.out_dir [name])).
Proof.
  intros Hp Hm Hd Hr.
  unfold Git.get_refs_try, Git.get_project_dir, Git.read_main_py, Git.synthesize.
  rewrite Hp, Hm, Hd, Hr. reflexivity.
Qed.

Lemma get_refs_of_hash (e : Git.env) (fs : Git.filesystem) (st : bytes) :
  (Git.get_refs_try e fs).1.1 = Ok (SHA1.hexdigest st) →
  (Git.get_refs e fs).1 = Ok (advertised (ascii_bytes (SHA1.hexdigest st))).
Proof.
  unfold Git.get_refs.
  destruct (Git.get_refs_try e fs) as [[r sd] fs1]. cbn [fst].
  intros ->. cbn [except_Exception mbind Res_bind]. apply advertisement_ascii; [apply hexdigest_ascii|apply hexdigest_length].
Qed.

Lemma sorted_length {A} (key : A → str) (l : list A) :
  length (sorted key l) = length l.
Proof. apply Permutation_length, sorted_perm. Qed.

Lemma pack_objects_of_length (objects : list Git.entry) (tree commit : Git.pobject) :
  length (Git.pack_objects_of objects tree commit) = (length objects + 2)%nat.
Proof.
  unfold Git.pack_objects_of. rewrite sorted_length, !length_app, length_map.
  cbn. lia.
Qed.

Lemma read_be32_be32 (n : Z) :
  0 <= n < 2 ^ 32 → read_be32 (PackSpec.be32 n) = n.
Proof.
  intros Hn. unfold read_be32, PackSpec.be32. cbn [fold_left].
  rewrite !byte_val_of by (apply Z.mod_pos_bound; lia).
  replace (n / 2 ^ 24) with (n / 2 ^ 8 / 2 ^ 8 / 2 ^ 8)
    by (rewrite !Z.div_div by lia; reflexivity).
  replace (n / 2 ^ 16) with (n / 2 ^ 8 / 2 ^ 8)
    by (rewrite !Z.div_div by lia; reflexivity).
  change (2 ^ 8) with 256.
  assert (H3 : n / 256 / 256 / 256 < 256).
  { rewrite !Z.div_div by lia. apply Z.div_lt_upper_bound; lia. }
  assert (H3' : 0 <= n / 256 / 256 / 256) by (repeat apply Z.div_pos; lia).
  rewrite (Z.mod_small (n / 256 / 256 / 256)) by lia.
  pose proof (Z.div_mod n 256 ltac:(lia)).
  pose proof (Z.div_mod (n / 256) 256 ltac:(lia)).
  pose proof (Z.div_mod (n / 256 / 256) 256 ltac:(lia)).
  lia.
Qed.

Lemma create_packfile_ok_inv (objects : list Git.pobject) (pack : bytes) :
  Git.create_packfile zlib_compress objects = Ok pack →
  len objects < 2 ^ 32
  ∧ pack = PackSpec.pack_body zlib_compress objects
           ++ SHA1.digest (PackSpec.pack_body zlib_compress objects).
Proof.
  intros H. destruct (Z.lt_ge_cases (len objects) (2 ^ 32)) as [Hlt|Hge].
  - split; [exact Hlt|]. rewrite create_packfile_spec in H by exact Hlt.
    injection H as <-. reflexivity.
  - rewrite create_packfile_overflow in H by exact Hge. discriminate.
Qed.

End FetchFlowFacts.

(** Scenario A is served: the fetch of the one-file project returns a
    response. *)
Lemma hello_fetch_succeeds :
  ∃ response fs',
    Git.generate_pack (fun x => x) 3 Scenario.hello_env ∅ Scenario.want_request
    = Some (Ok (Some response), fs').
Proof.
  assert (Hparse : Git.parse_request 3 Scenario.want_request
                   = Some [Py.s "45b983be36b73c0788dc9cbcb76cbb80fc7bb057"])
    by reflexivity.
  destruct (generate_pack_try_synthesizes (fun x => x) Scenario.hello_env ∅
              Scenario.hello_files) as (d & fs1 & Htry).
  { exists (Py.s "your-cdktf-project"),
      (Py.s "class MyStack(TerraformStack): pass"), (Py.s "tmpk3v9").
    repeat split; reflexivity. }
  destruct (Git.build_response (fun x => x) Scenario.hello_files)
    as [[response|]|] eqn:Hb; try (vm_compute in Hb; discriminate Hb).
  exists response, (Git.cleanup Scenario.hello_env (Some d) fs1).
  unfold Git.generate_pack. rewrite Hparse, Htry. reflexivity.
Qed.

(** X10. The identity that [get_refs] advertises is the identity of the
    commit that [generate_pack] sends: when a fetch succeeds in some
    surroundings, the advertisement made in the same surroundings carries
    the identity of a commit object that is one of the objects of the
    pack. *)
Theorem advertised_commit_is_fetched (zlib_compress : bytes → bytes)
  (fuel : nat) (e : Git.env) (fs fs' fs0 : Git.filesystem)
  (request response : bytes) :
  Git.generate_pack zlib_compress fuel e fs request = Some (Ok (Some response), fs') →
  ∃ objects tree commit pack,
    (Git.get_refs e fs0).1 = Ok (Spec.advertised (Spec.ascii_bytes commit.1))
    ∧ commit ∈ Git.pack_objects_of objects tree commit
    ∧ Git.obj_type commit.2 = 1
    ∧ commit.1 = SHA1.hexdigest commit.2
    ∧ Git.create_packfile zlib_compress
        (Git.pack_objects_of objects tree commit) = Ok pack
    ∧ Git.format_pack_response pack = Ok response.
Proof.
  intros H.
  destruct (generate_pack_success_inv _ _ _ _ _ _ _ H)
    as (p & code & name & w & ws & _ & Hp & Hm & Hd & Hr & Hb).
  destruct (build_response_inv _ _ _ Hb)
    as (objects & tree & [ch cc] & pack & Hobj & Hne & Ht & Hc & Hpk & Hresp).
  destruct (create_commit_hash _ _ _ Hc) as [Hch Hty].
  exists objects, tree, (ch, cc), pack.
  split; [|split; [|split; [exact Hty|split; [exact Hch|split; assumption]]]].
  - cbn [fst]. rewrite Hch. apply get_refs_of_hash.
    rewrite (get_refs_try_synthesized e fs0 p code name Hp Hm Hd Hr).
    unfold Git.refs_commit_hash. rewrite Hobj. cbn [mbind Res_bind].
    destruct objects as [|o objects]; [congruence|].
    rewrite Ht. cbn [mbind Res_bind]. destruct tree as [th tc]. cbn [fst] in Hc.
    rewrite Hc. cbn [mbind Res_bind]. rewrite Hch. reflexivity.
  - unfold Git.pack_objects_of. rewrite sorted_perm.
    apply elem_of_app. right. apply list_elem_of_singleton. reflexivity.
Qed.

Lemma advertised_commit_is_fetched_witness :
  ∃ response fs',
    Git.generate_pack (fun x => x) 3 Scenario.hello_env ∅ Scenario.want_request
    = Some (Ok (Some response), fs')
    ∧ ∃ objects tree commit pack,
        (Git.get_refs Scenario.hello_env ∅).1
        = Ok (Spec.advertised (Spec.ascii_bytes commit.1))
        ∧ commit ∈ Git.pack_objects_of objects tree commit
        ∧ Git.obj_type commit.2 = 1
        ∧ commit.1 = SHA1.hexdigest commit.2
        ∧ Git.create_packfile (fun x => x)
            (Git.pack_objects_of objects tree commit) = Ok pack
        ∧ Git.format_pack_response pack = Ok response.
Proof.
  destruct hello_fetch_succeeds as (response & fs' & H).
  exists response, fs'. split; [exact H|].
  exact (advertised_commit_is_fetched _ _ _ _ _ ∅ _ _ H).
Defined.

(** X11. What a client reads from a successful fetch. The response is a
    sequence of pkt-lines: first the line [NAK], then side-band packets of
    band 1, then a flush. The payloads of the band-1 packets, put
    together, are a pack: it starts with [PACK], version 2 and, as its
    object count, the number of synthesized files plus two (the tree and
    the commit), and its last 20 bytes are the SHA-1 of all that precedes
    them. *)
Theorem fetch_response_readable (zlib_compress : bytes → bytes)
  (fuel : nat) (e : Git.env) (fs fs' : Git.filesystem)
  (request response : bytes) :
  Git.generate_pack zlib_compress fuel e fs request = Some (Ok (Some response), fs') →
  ∃ name ps pack,
    Git.mkdtemp e = Ok name
    ∧ PktLine.decode response
      = Some (PktLine.Data Git.nak :: ps ++ [PktLine.Flush])
    ∧ Forall (fun p => ∃ chunk, p = PktLine.Data (x01 :: chunk)) ps
    ∧ PktLine.demultiplex (ps ++ [PktLine.Flush]) = pack
    ∧ take 4 pack = Py.b "PACK"
    ∧ Wire.read_be32 (take 4 (drop 4 pack)) = 2
    ∧ Wire.read_be32 (take 4 (drop 8 pack))
      = Py.len (Git.walk e (Git.out_dir [name])) + 2
    ∧ PackSpec.trailer_ok pack.
Proof.
  intros H.
  destruct (generate_pack_success_inv _ _ _ _ _ _ _ H)
    as (p & code & name & w & ws & _ & Hp & Hm & Hd & Hr & Hb).
  destruct (build_response_inv _ _ _ Hb)
    as (objects & tree & commit & pack & Hobj & Hne & Ht & Hc & Hpk & Hresp).
  destruct (collect_objects_spec _ _ _ Hobj) as (new & -> & Hnew).
  cbn [app] in *.
  destruct (create_packfile_ok_inv _ _ _ Hpk) as [Hlt Hpack].
  destruct (format_side_band_chunked_spec Git.chunk_size eq_refl eq_refl pack)
    as (side & ps & Hside & Hdec & Hband & Hdemux).
  rewrite (format_pack_response_spec pack side Hside) in Hresp.
  injection Hresp as <-.
  assert (Hcount : Py.len (Git.pack_objects_of new tree commit)
                   = Py.len (Git.walk e (Git.out_dir [name])) + 2).
  { unfold Py.len. rewrite pack_objects_of_length.
    rewrite (Forall2_length _ _ _ Hnew). lia. }
  exists name, ps, pack. split; [exact Hd|]. split.
  { apply (decode_frame (Py.b "0008") Git.nak side (ps ++ [PktLine.Flush]));
      [reflexivity|reflexivity|reflexivity|exact Hdec]. }
  split.
  { eapply Forall_impl; [exact Hband|]. intros q (chunk & -> & _). eauto. }
  split; [exact Hdemux|].
  rewrite Hpack. unfold PackSpec.pack_body.
  split; [reflexivity|]. split; [reflexivity|]. split.
  { change (take 4 (drop 8 ((Py.b "PACK" ++ PackSpec.be32 2
        ++ PackSpec.be32 (Py.len (Git.pack_objects_of new tree commit))
        ++ concat (map (PackSpec.pack_entry zlib_compress)
                       (Git.pack_objects_of new tree commit)))
        ++ SHA1.digest _)))
      with (PackSpec.be32 (Py.len (Git.pack_objects_of new tree commit))).
    rewrite read_be32_be32; [exact Hcount|].
    pose proof (len_nonneg (Git.pack_objects_of new tree commit)). lia. }
  apply trailer_ok_iff; [apply digest_length|reflexivity].
Qed.

Lemma fetch_response_readable_witness :
  ∃ response fs',
    Git.generate_pack (fun x => x) 3 Scenario.hello_env ∅ Scenario.want_request
    = Some (Ok (Some response), fs')
    ∧ ∃ name ps pack,
        Git.mkdtemp Scenario.hello_env = Ok name
        ∧ PktLine.decode response
          = Some (PktLine.Data Git.nak :: ps ++ [PktLine.Flush])
        ∧ Forall (fun p => ∃ chunk, p = PktLine.Data (x01 :: chunk)) ps
        ∧ PktLine.demultiplex (ps ++ [PktLine.Flush]) = pack
        ∧ take 4 pack = Py.b "PACK"
        ∧ Wire.read_be32 (take 4 (drop 4 pack)) = 2
        ∧ Wire.read_be32 (take 4 (drop 8 pack))
          = Py.len (Git.walk Scenario.hello_env (Git.out_dir [name])) + 2
        ∧ PackSpec.trailer_ok pack.
Proof.
  destruct hello_fetch_succeeds as (response & fs' & H).
  exists response, fs'. split; [exact H|].
  exact (fetch_response_readable _ _ _ _ _ _ _ H).
Defined.

Section FetchableFacts.

Import Py Spec Wire Fetch.

Variable zlib_compress : bytes → bytes.

Lemma collect_objects_ok (files : list (str * Res str)) :
  Forall usable_file files →
  ∀ acc, ∃ new, Git.collect_objects files acc = Ok (acc ++ new)
                ∧ length new = length files.
Proof.
  induction 1 as [|[rel_path read] files (_ & content & Hread & Hc) _ IH];
    intros acc.
  - exists []. rewrite app_nil_r. split; reflexivity.
  - cbn [snd] in Hread. subst read. cbn [Git.collect_objects mbind Res_bind].
    destruct (encode_utf8 content) as [data|] eqn:Hd; [|discriminate Hc].
    rewrite (create_blob_ok content data Hd). cbn [mbind Res_bind].
    destruct (IH (acc ++ [(rel_path, SHA1.hexdigest (store "blob" data),
                           store "blob" data)])) as (new & Hnew & Hlen).
    eexists (_ :: new). rewrite Hnew, <- app_assoc. split; [reflexivity|].
    cbn. lia.
Qed.

Lemma usable_collected (files : list (str * Res str))
  (objects : list Git.entry) (tree : str * bytes) :
  Git.collect_objects files [] = Ok objects →
  Git.create_tree objects = Ok tree →
  Forall usable_file files.
Proof.
  intros Hobj Ht. apply create_tree_paths in Ht.
  destruct (collected_entries _ _ Hobj) as [_ Hfiles]. clear Hobj.
  induction Hfiles as [|f o files objects (Hp & content & data & Hr & Hd & _) _ IH];
    [constructor|].
  apply Forall_cons in Ht as [Ho Ht]. constructor; [|exact (IH Ht)].
  split; [rewrite <- Hp; exact Ho|].
  exists content. split; [exact Hr|]. rewrite Hd. reflexivity.
Qed.

Lemma build_response_ok (files : list (str * Res str)) :
  files ≠ [] → Forall usable_file files → len files + 2 < 2 ^ 32 →
  ∃ response, Git.build_response zlib_compress files = Ok (Some response).
Proof.
  intros Hne Hall Hlen.
  destruct (collect_objects_ok files Hall []) as (objects & Hobj & Hn).
  cbn [app] in Hobj.
  assert (Hpaths : Forall (fun f => is_ok (encode_utf8 f.1) = true) files).
  { eapply Forall_impl; [exact Hall|]. intros f [Hf _]. exact Hf. }
  pose proof (create_tree_collected files objects Hobj Hpaths) as Ht.
  cbv zeta in Ht.
  set (tree := store "tree" _) in Ht.
  pose proof (create_commit_ok (SHA1.hexdigest tree) (hexdigest_ascii tree)) as Hc.
  cbv zeta in Hc. set (commit := store "commit" _) in Hc.
  set (pack_objects := Git.pack_objects_of objects (SHA1.hexdigest tree, tree)
                         (SHA1.hexdigest commit, commit)).
  assert (Hcount : len pack_objects < 2 ^ 32).
  { unfold len, pack_objects. rewrite pack_objects_of_length, Hn.
    unfold len in Hlen. lia. }
  pose proof (create_packfile_spec zlib_compress pack_objects Hcount) as Hpk.
  set (pack := PackSpec.pack_body zlib_compress pack_objects ++ _) in Hpk.
  destruct (format_side_band_ok pack) as (side & Hside).
  exists ((b "0008" ++ Git.nak) ++ side).
  unfold Git.build_response. rewrite Hobj. cbn [mbind Res_bind].
  destruct objects as [|o objects].
  { destruct files; [congruence|discriminate Hn]. }
  rewrite Ht. cbn [mbind Res_bind]. rewrite Hc. cbn [mbind Res_bind].
  fold pack_objects. rewrite Hpk. cbn [mbind Res_bind].
  rewrite (format_pack_response_spec pack side Hside). reflexivity.
Qed.

Lemma fetchable_generates (fuel : nat) (e : Git.env) (fs : Git.filesystem)
  (request : bytes) (w : str) (ws : list str) :
  Git.parse_request fuel request = Some (w :: ws) →
  fetchable e →
  ∃ response fs',
    Git.generate_pack zlib_compress fuel e fs request = Some (Ok (Some response), fs').
Proof.
  intros Hparse (p & code & name & Hp & Hm & Hd & Hr & Hne & Hall & Hlen).
  destruct (build_response_ok _ Hne Hall Hlen) as (response & Hb).
  destruct (synthesize_synthesized e code name fs Hd Hr) as (fs1 & Hs & _).
  exists response, (Git.cleanup e (Some (Git.out_dir [name])) fs1).
  unfold Git.generate_pack, Git.generate_pack_try, Git.get_project_dir.
  rewrite Hparse, Hp, Hm, Hs, Hb. reflexivity.
Qed.

Lemma generates_fetchable (fuel : nat) (e : Git.env) (fs fs' : Git.filesystem)
  (request response : bytes) :
  Git.generate_pack zlib_compress fuel e fs request = Some (Ok (Some response), fs') →
  fetchable e ∧ response ≠ [].
Proof.
  intros H.
  destruct (generate_pack_success_inv _ _ _ _ _ _ _ H)
    as (p & code & name & w' & ws' & _ & Hp & Hm & Hd & Hr & Hb).
  destruct (build_response_inv _ _ _ Hb)
    as (objects & tree & commit & pack & Hobj & Hne & Ht & Hc & Hpk & Hresp).
  split.
  - exists p, code, name. repeat split; try assumption.
    + intros Hnil. rewrite Hnil in Hobj. cbn in Hobj. congruence.
    + exact (usable_collected _ _ _ Hobj Ht).
    + destruct (create_packfile_ok_inv _ _ _ Hpk) as [Hlt _].
      destruct (collect_objects_spec _ _ _ Hobj) as (new & -> & Hnew).
      unfold Py.len in *. rewrite pack_objects_of_length in Hlt.
      rewrite (Forall2_length _ _ _ Hnew). cbn [app] in *. lia.
  - destruct (format_side_band_ok pack) as (side & Hside).
    rewrite (format_pack_response_spec pack side Hside) in Hresp.
    injection Hresp as <-. discriminate.
Qed.

Lemma generate_pack_returns (fuel : nat) (e : Git.env) (fs : Git.filesystem)
  (request : bytes) (wants : list str) :
  Git.parse_request fuel request = Some wants →
  ∃ r fs', Git.generate_pack zlib_compress fuel e fs request = Some (r, fs').
Proof.
  intros Hparse. unfold Git.generate_pack. rewrite Hparse.
  destruct wants; [eauto|].
  destruct (Git.generate_pack_try zlib_compress e fs) as [[r sd] fs1]. eauto.
Qed.

Lemma build_response_raises (x : exn) (files : list (str * Res str)) :
  Git.build_response zlib_compress files = Raise x →
  is_exception x = true ∨ ∃ rel_path, (rel_path, Raise x) ∈ files.
Proof.
  unfold Git.build_response.
  destruct (Git.collect_objects files []) as [[|o objects]|x'] eqn:Ec.
  - discriminate.
  - cbn [mbind Res_bind].
    destruct (Git.create_tree (o :: objects)) as [[th tc]|x'] eqn:Et.
    2:{ cbn. intros H. injection H as <-. left. exact (create_tree_raises _ _ Et). }
    cbn [mbind Res_bind].
    destruct (Git.create_commit th) as [[ch cc]|x'] eqn:Em.
    2:{ cbn. intros H. injection H as <-. left. exact (create_commit_raises _ _ Em). }
    cbn [mbind Res_bind].
    set (pack_objects := Git.pack_objects_of _ _ _).
    destruct (Z.lt_ge_cases (len pack_objects) (2 ^ 32)) as [Hlt | Hge].
    + rewrite (create_packfile_spec zlib_compress pack_objects Hlt).
      cbn [mbind Res_bind].
      destruct (format_side_band_ok
                  (PackSpec.pack_body zlib_compress pack_objects
                   ++ SHA1.digest (PackSpec.pack_body zlib_compress pack_objects)))
        as (side & Hside).
      rewrite (format_pack_response_spec _ side Hside). discriminate.
    + rewrite (create_packfile_overflow zlib_compress pack_objects Hge).
      cbn. intros H. injection H as <-. left. reflexivity.
  - cbn. intros H. injection H as <-. exact (collect_objects_raises _ _ _ Ec).
Qed.

Lemma generate_pack_try_raises (e : Git.env) (fs : Git.filesystem) (x : exn) :
  (Git.generate_pack_try zlib_compress e fs).1.1 = Raise x →
  is_exception x = true ∨ raises e x.
Proof.
  unfold Git.generate_pack_try, Git.get_project_dir, raises.
  destruct (Git.project_path e) as [p|].
  2:{ cbn. intros H. injection H as <-. left. reflexivity. }
  destruct (Git.main_py e) as [[code|x']|].
  - destruct (Git.synthesize e code fs) as [[[d|]|x'] fs1] eqn:Es; cbn [fst].
    + intros H. destruct (build_response_raises _ _ H) as [Hx | [rp Hrp]];
        [left; exact Hx|]. right. right. right. right. eauto.
    + discriminate.
    + intros H. injection H as <-.
      destruct (synthesize_raises e code fs x') as [_ [Hm | Hr]];
        [rewrite Es; reflexivity| |]; right; eauto.
  - cbn. intros H. injection H as <-. right. left. reflexivity.
  - discriminate.
Qed.

Lemma generate_pack_raises (fuel : nat) (e : Git.env) (fs fs' : Git.filesystem)
  (request : bytes) (x : exn) :
  Git.generate_pack zlib_compress fuel e fs request = Some (Raise x, fs') →
  is_exception x = false ∧ raises e x.
Proof.
  unfold Git.generate_pack.
  destruct (Git.parse_request fuel request) as [[|w ws]|]; try discriminate.
  pose proof (generate_pack_try_raises e fs) as Hr.
  destruct (Git.generate_pack_try zlib_compress e fs) as [[r sd] fs1].
  cbn [fst] in Hr. destruct r as [v|x']; [discriminate|].
  cbn [except_Exception]. destruct (is_exception x') eqn:Ex; [discriminate|].
  intros H. injection H as <- _. split; [exact Ex|].
  destruct (Hr x' eq_refl) as [H | H]; [congruence|exact H].
Qed.

Lemma generate_pack_exits (fuel : nat) (e : Git.env) (fs : Git.filesystem)
  (request : bytes) (w : str) (ws : list str) (x : exn) :
  Git.parse_request fuel request = Some (w :: ws) →
  exits e x →
  ∃ fs', Git.generate_pack zlib_compress fuel e fs request = Some (Raise x, fs').
Proof.
  intros Hparse (p & code & name & Hp & Hm & Hd & Hr & Hx).
  unfold Git.generate_pack, Git.generate_pack_try, Git.get_project_dir,
    Git.synthesize.
  rewrite Hparse, Hp, Hm, Hd, Hr, Hx. cbn. rewrite Hx. eauto.
Qed.

Lemma exits_not_fetchable (e : Git.env) (x : exn) : exits e x → ¬ fetchable e.
Proof.
  intros (p & code & name & Hp & Hm & Hd & Hr & Hx)
         (p' & code' & name' & Hp' & Hm' & Hd' & Hr' & _).
  rewrite Hm in Hm'. injection Hm' as <-. rewrite Hr in Hr'. discriminate Hr'.
Qed.

End FetchableFacts.

(** X12. When a fetch succeeds. For a request with at least one want,
    [generate_pack] returns a response exactly when a project path is set,
    its [main.py] exists and can be read, the scratch directory can be
    made, the synthesis writes its output, the output holds at least one
    file, every file has a path and a content that UTF-8 can encode, and
    the files plus the tree and the commit are fewer than 2^32 objects.
    It raises only what the surroundings raise outside [Exception], and
    does so when the project's code raises such an exception. In
    surroundings that raise nothing but [Exception]s, it returns [None]
    in every other case. *)
Theorem fetch_succeeds_iff (zlib_compress : bytes → bytes) (fuel : nat)
  (e : Git.env) (fs : Git.filesystem) (request : bytes)
  (w : str) (ws : list str) :
  Git.parse_request fuel request = Some (w :: ws) →
  (Fetch.fetchable e
   ↔ ∃ response fs',
       Git.generate_pack zlib_compress fuel e fs request
       = Some (Ok (Some response), fs'))
  ∧ (∀ x fs',
       Git.generate_pack zlib_compress fuel e fs request = Some (Raise x, fs') →
       is_exception x = false ∧ Fetch.raises e x)
  ∧ (∀ x, Fetch.exits e x →
          ∃ fs', Git.generate_pack zlib_compress fuel e fs request
                 = Some (Raise x, fs'))
  ∧ (Fetch.tame e →
     (¬ Fetch.fetchable e
      ↔ ∃ fs', Git.generate_pack zlib_compress fuel e fs request
               = Some (Ok None, fs'))).
Proof.
  intros Hparse. split; [split|split; [|split]].
  - apply (fetchable_generates zlib_compress fuel e fs request w ws Hparse).
  - intros (r & fs' & H).
    exact (proj1 (generates_fetchable zlib_compress _ _ _ _ _ _ H)).
  - intros x fs' H. exact (generate_pack_raises zlib_compress _ _ _ _ _ _ H).
  - intros x Hx.
    exact (generate_pack_exits zlib_compress fuel e fs request w ws x Hparse Hx).
  - intros Ht.
    destruct (generate_pack_returns zlib_compress fuel e fs request _ Hparse)
      as ([[r|]|x] & fs' & Hg).
    + split.
      * intros Hn. exfalso. apply Hn.
        exact (proj1 (generates_fetchable zlib_compress _ _ _ _ _ _ Hg)).
      * intros (fs'' & H). rewrite H in Hg. discriminate Hg.
    + split.
      * intros _. exists fs'. exact Hg.
      * intros _ Hf.
        destruct (fetchable_generates zlib_compress fuel e fs request w ws
                    Hparse Hf) as (r & fs'' & H).
        rewrite H in Hg. discriminate Hg.
    + destruct (generate_pack_raises zlib_compress _ _ _ _ _ _ Hg) as [Hx Hr].
      rewrite (Ht x Hr) in Hx. discriminate Hx.
Qed.

Lemma fetch_succeeds_iff_witness :
  Git.parse_request 3 Scenario.want_request
  = Some [Py.s "45b983be36b73c0788dc9cbcb76cbb80fc7bb057"]
  ∧ Fetch.tame Scenario.failing_env
  ∧ (¬ Fetch.fetchable Scenario.failing_env
     ↔ ∃ fs', Git.generate_pack (fun x => x) 3 Scenario.failing_env ∅
                Scenario.want_request
              = Some (Ok None, fs'))
  ∧ Fetch.exits Scenario.exiting_env SystemExit
  ∧ ∃ fs', Git.generate_pack (fun x => x) 3 Scenario.exiting_env ∅
             Scenario.want_request
           = Some (Raise SystemExit, fs').
Proof.
  assert (Ht : Fetch.tame Scenario.failing_env).
  { intros x [H | [H | [[code H] | (d & rp & H)]]].
    - discriminate H.
    - discriminate H.
    - cbn in H. injection H as <-. reflexivity.
    - cbn in H. apply elem_of_nil in H. destruct H. }
  assert (Hx : Fetch.exits Scenario.exiting_env SystemExit).
  { exists (Py.s "your-cdktf-project"), (Py.s "import sys; sys.exit(1)"),
      (Py.s "tmpk3v9"). repeat split; reflexivity. }
  split; [reflexivity|]. split; [exact Ht|]. split.
  - exact (proj2 (proj2 (proj2
      (fetch_succeeds_iff (fun x => x) 3 Scenario.failing_env ∅
         Scenario.want_request
         (Py.s "45b983be36b73c0788dc9cbcb76cbb80fc7bb057") [] eq_refl))) Ht).
  - split; [exact Hx|].
    exact (proj1 (proj2 (proj2
      (fetch_succeeds_iff (fun x => x) 3 Scenario.exiting_env ∅
         Scenario.want_request
         (Py.s "45b983be36b73c0788dc9cbcb76cbb80fc7bb057") [] eq_refl)))
      SystemExit Hx).
Defined.

(* ===================================================================== *)
(** * Further properties: the file system *)
(* ===================================================================== *)

Section FileSystemFacts.

Import Py.


Lemma rmtree_below (e : Git.env) (d p : Git.path) (fs : Git.filesystem) :
  d `prefix_of` p →
  p ∈ Git.rmtree e d fs ↔ p ∈ fs ∧ p ∈ Git.undeleted e d.
Proof.
  intros Hp. unfold Git.rmtree. rewrite elem_of_filter. split.
  - intros [[Hn | Hu] Hin]; [destruct (Hn Hp)|auto].
  - intros [Hin Hu]. auto.
Qed.


Lemma cleanup_below (e : Git.env) (d p : Git.path) (fs : Git.filesystem) :
  d ∈ fs → d `prefix_of` p →
  p ∈ Git.cleanup e (Some d) fs ↔ p ∈ fs ∧ p ∈ Git.undeleted e d.
Proof.
  intros Hd Hp. unfold Git.cleanup, Git.exists_path.
  rewrite bool_decide_eq_true_2 by exact Hd. apply rmtree_below. exact Hp.
Qed.


End FileSystemFacts.



(** X14. What is left of the output of a synthesis. When the project is
    synthesized, a path at or below the directory [cdktf.out] of the
    scratch directory exists after [get_refs], and after a
    [generate_pack] whose request has a want, exactly when it existed
    after the synthesis and [shutil.rmtree] failed to remove it; so when
    [rmtree] succeeds, nothing of the output outlives the request. *)
Theorem output_directory_removed (zlib_compress : bytes → bytes)
  (fuel : nat) (e : Git.env) (fs : Git.filesystem) (request : bytes)
  (p code name w : str) (ws : list str) (q : Git.path) :
  Git.project_path e = Some p → Git.main_py e = Some (Ok code) →
  Git.mkdtemp e = Ok name → Git.run_cdktf e code = Git.Synthesized →
  Git.parse_request fuel request = Some (w :: ws) →
  Git.out_dir [name] `prefix_of` q →
  (q ∈ (Git.get_refs e fs).2
   ↔ q ∈ (Git.synthesize e code fs).2
     ∧ q ∈ Git.undeleted e (Git.out_dir [name]))
  ∧ (∃ r fs', Git.generate_pack zlib_compress fuel e fs request = Some (r, fs')
              ∧ (q ∈ fs'
                 ↔ q ∈ (Git.synthesize e code fs).2
                   ∧ q ∈ Git.undeleted e (Git.out_dir [name])))
  ∧ (Git.undeleted e (Git.out_dir [name]) = ∅ → q ∉ (Git.get_refs e fs).2).
Proof.
  intros Hp Hm Hd Hr Hw Hq.
  destruct (synthesize_synthesized e code name fs Hd Hr) as (fs1 & Hs & _ & Hin).
  assert (Hrefs : q ∈ (Git.get_refs e fs).2
                  ↔ q ∈ (Git.synthesize e code fs).2
                    ∧ q ∈ Git.undeleted e (Git.out_dir [name])).
  { unfold Git.get_refs, Git.get_refs_try, Git.get_project_dir, Git.read_main_py.
    rewrite Hp, Hm, Hs. cbn [snd]. apply cleanup_below; assumption. }
  split; [exact Hrefs|]. split.
  - unfold Git.generate_pack, Git.generate_pack_try, Git.get_project_dir.
    rewrite Hw, Hp, Hm, Hs. eexists _, _. split; [reflexivity|].
    cbn [snd]. apply cleanup_below; assumption.
  - intros Hu Hin'. apply Hrefs in Hin' as [_ Hin']. rewrite Hu in Hin'.
    apply elem_of_empty in Hin'. exact Hin'.
Qed.

Lemma output_directory_removed_witness :
  Git.out_dir [Py.s "tmpk3v9"]
    `prefix_of` Git.out_dir [Py.s "tmpk3v9"] ++ [Py.s "hello.txt"]
  ∧ Git.undeleted Scenario.hello_env (Git.out_dir [Py.s "tmpk3v9"]) = ∅
  ∧ (Git.out_dir [Py.s "tmpk3v9"] ++ [Py.s "hello.txt"]
       ∈ (Git.synthesize Scenario.hello_env
            (Py.s "class MyStack(TerraformStack): pass") ∅).2)
  ∧ (Git.out_dir [Py.s "tmpk3v9"] ++ [Py.s "hello.txt"]
       ∉ (Git.get_refs Scenario.hello_env ∅).2).
Proof.
  assert (Hq : Git.out_dir [Py.s "tmpk3v9"]
                 `prefix_of` Git.out_dir [Py.s "tmpk3v9"] ++ [Py.s "hello.txt"]).
  { exists [Py.s "hello.txt"]. reflexivity. }
  split; [exact Hq|]. split; [reflexivity|]. split.
  - cbn. set_solver.
  - exact (proj2 (proj2
      (output_directory_removed (fun x => x) 3 Scenario.hello_env ∅
         Scenario.want_request (Py.s "your-cdktf-project")
         (Py.s "class MyStack(TerraformStack): pass") (Py.s "tmpk3v9")
         (Py.s "45b983be36b73c0788dc9cbcb76cbb80fc7bb057") []
         (Git.out_dir [Py.s "tmpk3v9"] ++ [Py.s "hello.txt"])
         eq_refl eq_refl eq_refl eq_refl eq_refl Hq)) eq_refl).
Defined.

(* ===================================================================== *)
(** * Further properties: the routes *)
(* ===================================================================== *)

Section RouteFacts.

Import Py App.

Lemma str_eqb_eq (a c : str) : str_eqb a c = true ↔ a = c.
Proof.
  revert c. induction a as [|x a IH]; intros [|y c]; cbn; try (split; congruence).
  rewrite andb_true_iff, N.eqb_eq, IH. split; [intros [-> ->]|intros [= -> ->]]; auto.
Qed.

Lemma differs_false (x : option str) (text : str) :
  differs x text = false ↔ x = Some text.
Proof.
  destruct x as [v|]; cbn; [|split; discriminate].
  rewrite negb_false_iff, str_eqb_eq. split; congruence.
Qed.

Lemma differs_true (x : option str) (text : str) :
  differs x text = true ↔ x ≠ Some text.
Proof.
  rewrite <- differs_false. destruct (differs x text); split; congruence.
Qed.

End RouteFacts.

(** X15. The route [info/refs]. With any service other than
    [git-upload-pack] (or none) it replies 400 and touches neither the
    handler nor the file system. With the service [git-upload-pack] it
    leaves the handler at the project of the request and either replies
    200, of type [application/x-git-upload-pack-advertisement], with a
    complete advertisement of one identity of 40 hexadecimal characters,
    or raises an exception that the surroundings raised and that is no
    [Exception]; it replies whenever the surroundings raise nothing but
    [Exception]s. *)
Theorem info_refs_replies (w : App.world) (h : App.handler)
  (fs : Git.filesystem) (project : str) (service : option str) :
  (service ≠ Some (Py.s "git-upload-pack") →
   App.info_refs w h fs project service
   = (Ok (App.Response 400 (Py.b "Service not available") None), h, fs))
  ∧ (service = Some (Py.s "git-upload-pack") →
     ∃ r,
       App.info_refs w h fs project service
       = (r, Some project, (Git.get_refs (App.env_of w (Some project)) fs).2)
       ∧ ((∃ identity,
             r = Ok (App.Response 200 (Spec.advertised identity)
                       (Some (Py.s "application/x-git-upload-pack-advertisement")))
             ∧ Wire.is_hex40 identity)
          ∨ (∃ x, r = Raise x ∧ is_exception x = false
                  ∧ Fetch.raises (App.env_of w (Some project)) x))
       ∧ (Fetch.tame (App.env_of w (Some project)) → is_ok r = true)).
Proof.
  unfold App.info_refs. split.
  - intros Hs. apply differs_true in Hs. rewrite Hs. reflexivity.
  - intros Hs. apply differs_false in Hs. rewrite Hs.
    unfold App.set_project_path.
    pose proof (get_refs_outcome (App.env_of w (Some project)) fs) as Ho.
    destruct (Git.get_refs (App.env_of w (Some project)) fs) as [r fs1].
    cbn [fst snd] in *. eexists. split; [reflexivity|].
    destruct Ho as [(identity & -> & Hhex) | (x & -> & Hx & Hr)].
    + split; [left; exists identity; split; [reflexivity|exact Hhex]|].
      reflexivity.
    + split; [right; exists x; auto|].
      intros Ht. rewrite (Ht x Hr) in Hx. discriminate Hx.
Qed.

Lemma info_refs_replies_witness :
  ∃ r,
    App.info_refs
      (App.World (fun _ => Git.main_py Scenario.hello_env)
              (Git.mkdtemp Scenario.hello_env)
              (Git.run_cdktf Scenario.hello_env)
              (Git.written Scenario.hello_env)
              (Git.walk Scenario.hello_env)
              (Git.undeleted Scenario.hello_env))
      None ∅ (Py.s "your-cdktf-project") (Some (Py.s "git-upload-pack"))
    = (r, Some (Py.s "your-cdktf-project"),
       (Git.get_refs
          (App.env_of
             (App.World (fun _ => Git.main_py Scenario.hello_env)
              (Git.mkdtemp Scenario.hello_env)
              (Git.run_cdktf Scenario.hello_env)
              (Git.written Scenario.hello_env)
              (Git.walk Scenario.hello_env)
              (Git.undeleted Scenario.hello_env))
             (Some (Py.s "your-cdktf-project"))) ∅).2)
    ∧ ((∃ identity,
          r = Ok (App.Response 200 (Spec.advertised identity)
                    (Some (Py.s "application/x-git-upload-pack-advertisement")))
          ∧ Wire.is_hex40 identity)
       ∨ (∃ x, r = Raise x ∧ is_exception x = false
               ∧ Fetch.raises
                   (App.env_of
                      (App.World (fun _ => Git.main_py Scenario.hello_env)
              (Git.mkdtemp Scenario.hello_env)
              (Git.run_cdktf Scenario.hello_env)
              (Git.written Scenario.hello_env)
              (Git.walk Scenario.hello_env)
              (Git.undeleted Scenario.hello_env))
                      (Some (Py.s "your-cdktf-project"))) x))
    ∧ (Fetch.tame
         (App.env_of
            (App.World (fun _ => Git.main_py Scenario.hello_env)
              (Git.mkdtemp Scenario.hello_env)
              (Git.run_cdktf Scenario.hello_env)
              (Git.written Scenario.hello_env)
              (Git.walk Scenario.hello_env)
              (Git.undeleted Scenario.hello_env))
            (Some (Py.s "your-cdktf-project"))) →
       is_ok r = true).
Proof.
  exact (proj2 (info_refs_replies
                  (App.World (fun _ => Git.main_py Scenario.hello_env)
              (Git.mkdtemp Scenario.hello_env)
              (Git.run_cdktf Scenario.hello_env)
              (Git.written Scenario.hello_env)
              (Git.walk Scenario.hello_env)
              (Git.undeleted Scenario.hello_env))
                  None ∅ (Py.s "your-cdktf-project") (Some (Py.s "git-upload-pack"))) eq_refl).
Defined.

(** X16. The route [git-upload-pack]. With a content type other than
    [application/x-git-upload-pack-request] it replies 400 and touches
    neither the handler nor the file system. Otherwise, once the request
    has been read, it leaves the handler at the project of the request
    and does one of three things: it replies 200 with the response of
    [generate_pack] and the type [application/x-git-upload-pack-result],
    exactly when the request holds a want and the project of the request
    can be fetched; or it raises an exception that the surroundings
    raised and that is no [Exception]; or it replies 500 with
    [Failed to generate pack data]. *)
Theorem git_upload_pack_replies (zlib_compress : bytes → bytes) (fuel : nat)
  (w : App.world) (h : App.handler) (fs : Git.filesystem)
  (project : str) (content_type : option str) (data : bytes) :
  (content_type ≠ Some (Py.s "application/x-git-upload-pack-request") →
   App.git_upload_pack zlib_compress fuel w h fs project content_type data
   = Some (Ok (App.Response 400 (Py.b "Invalid content type") None), h, fs))
  ∧ (content_type = Some (Py.s "application/x-git-upload-pack-request") →
     ∀ wants, Git.parse_request fuel data = Some wants →
     ∃ r fs',
       App.git_upload_pack zlib_compress fuel w h fs project content_type data
       = Some (r, Some project, fs')
       ∧ ((wants ≠ [] ∧ Fetch.fetchable (App.env_of w (Some project)))
          ↔ ∃ response,
              r = Ok (App.Response 200 response
                        (Some (Py.s "application/x-git-upload-pack-result")))
              ∧ Git.generate_pack zlib_compress fuel
                  (App.env_of w (Some project)) fs data
                = Some (Ok (Some response), fs'))
       ∧ (is_ok r = true
          ∨ ∃ x, r = Raise x ∧ is_exception x = false
                 ∧ Fetch.raises (App.env_of w (Some project)) x)
       ∧ (¬ (wants ≠ [] ∧ Fetch.fetchable (App.env_of w (Some project))) →
          is_ok r = true →
          r = Ok (App.Response 500 (Py.b "Failed to generate pack data") None))).
Proof.
  unfold App.git_upload_pack. split.
  - intros Hs. apply differs_true in Hs. rewrite Hs. reflexivity.
  - intros Hs wants Hparse. apply differs_false in Hs. rewrite Hs.
    unfold App.set_project_path.
    set (e := App.env_of w (Some project)).
    destruct (generate_pack_returns zlib_compress fuel e fs data wants Hparse)
      as (r & fs' & Hg).
    rewrite Hg. eexists _, fs'. split; [reflexivity|].
    destruct r as [[response|]|x].
    + destruct (generates_fetchable zlib_compress _ _ _ _ _ _ Hg) as [Hf Hne].
      destruct response as [|c response]; [congruence|].
      assert (Hw : wants ≠ []).
      { intros ->. unfold Git.generate_pack in Hg. rewrite Hparse in Hg.
        discriminate Hg. }
      split; [|split].
      * split; [intros _; exists (c :: response); split; reflexivity|].
        intros _. split; assumption.
      * left. reflexivity.
      * intros Hn. destruct Hn. split; assumption.
    + assert (Hn : ¬ (wants ≠ [] ∧ Fetch.fetchable e)).
      { intros [Hw Hf]. destruct wants as [|wt ws]; [congruence|].
        destruct (fetchable_generates zlib_compress fuel e fs data wt ws
                    Hparse Hf) as (r & fs'' & H).
        rewrite H in Hg. discriminate Hg. }
      split; [|split].
      * split; [intros H; destruct (Hn H)|].
        intros (response & H & _). discriminate H.
      * left. reflexivity.
      * intros _ _. reflexivity.
    + destruct wants as [|wt ws].
      { unfold Git.generate_pack in Hg. rewrite Hparse in Hg. discriminate Hg. }
      destruct (generate_pack_raises zlib_compress _ _ _ _ _ _ Hg) as [Hx Hr].
      cbn [except_Exception]. rewrite Hx.
      split; [|split].
      * split.
        -- intros [_ Hf].
           destruct (fetchable_generates zlib_compress fuel e fs data wt ws
                       Hparse Hf) as (r & fs'' & H).
           rewrite H in Hg. discriminate Hg.
        -- intros (response & H & _). discriminate H.
      * right. exists x. auto.
      * intros _ H. discriminate H.
Qed.

Lemma git_upload_pack_replies_witness :
  Git.parse_request 3 Scenario.want_request = Some [Py.s "45b983be36b73c0788dc9cbcb76cbb80fc7bb057"]
  ∧ ∃ r fs',
      App.git_upload_pack (fun x => x) 3
        (App.World (fun _ => Git.main_py Scenario.hello_env)
              (Git.mkdtemp Scenario.hello_env)
              (Git.run_cdktf Scenario.hello_env)
              (Git.written Scenario.hello_env)
              (Git.walk Scenario.hello_env)
              (Git.undeleted Scenario.hello_env))
        None ∅ (Py.s "your-cdktf-project")
        (Some (Py.s "application/x-git-upload-pack-request"))
        Scenario.want_request
      = Some (r, Some (Py.s "your-cdktf-project"), fs')
      ∧ (([Py.s "45b983be36b73c0788dc9cbcb76cbb80fc7bb057"] ≠ []
          ∧ Fetch.fetchable
              (App.env_of
                 (App.World (fun _ => Git.main_py Scenario.hello_env)
              (Git.mkdtemp Scenario.hello_env)
              (Git.run_cdktf Scenario.hello_env)
              (Git.written Scenario.hello_env)
              (Git.walk Scenario.hello_env)
              (Git.undeleted Scenario.hello_env))
                 (Some (Py.s "your-cdktf-project"))))
         ↔ ∃ response,
             r = Ok (App.Response 200 response
                       (Some (Py.s "application/x-git-upload-pack-result")))
             ∧ Git.generate_pack (fun x => x) 3
                 (App.env_of
                    (App.World (fun _ => Git.main_py Scenario.hello_env)
              (Git.mkdtemp Scenario.hello_env)
              (Git.run_cdktf Scenario.hello_env)
              (Git.written Scenario.hello_env)
              (Git.walk Scenario.hello_env)
              (Git.undeleted Scenario.hello_env))
                    (Some (Py.s "your-cdktf-project")))
                 ∅ Scenario.want_request
               = Some (Ok (Some response), fs'))
      ∧ (is_ok r = true
         ∨ ∃ x, r = Raise x ∧ is_exception x = false
                ∧ Fetch.raises
                    (App.env_of
                       (App.World (fun _ => Git.main_py Scenario.hello_env)
              (Git.mkdtemp Scenario.hello_env)
              (Git.run_cdktf Scenario.hello_env)
              (Git.written Scenario.hello_env)
              (Git.walk Scenario.hello_env)
              (Git.undeleted Scenario.hello_env))
                       (Some (Py.s "your-cdktf-project"))) x)
      ∧ (¬ ([Py.s "45b983be36b73c0788dc9cbcb76cbb80fc7bb057"] ≠ []
            ∧ Fetch.fetchable
                (App.env_of
                   (App.World (fun _ => Git.main_py Scenario.hello_env)
              (Git.mkdtemp Scenario.hello_env)
              (Git.run_cdktf Scenario.hello_env)
              (Git.written Scenario.hello_env)
              (Git.walk Scenario.hello_env)
              (Git.undeleted Scenario.hello_env))
                   (Some (Py.s "your-cdktf-project")))) →
         is_ok r = true →
         r = Ok (App.Response 500 (Py.b "Failed to generate pack data") None)).
Proof.
  split; [reflexivity|].
  exact (proj2 (git_upload_pack_replies (fun x => x) 3
                  (App.World (fun _ => Git.main_py Scenario.hello_env)
              (Git.mkdtemp Scenario.hello_env)
              (Git.run_cdktf Scenario.hello_env)
              (Git.written Scenario.hello_env)
              (Git.walk Scenario.hello_env)
              (Git.undeleted Scenario.hello_env))
                  None ∅ (Py.s "your-cdktf-project")
                  (Some (Py.s "application/x-git-upload-pack-request"))
                  Scenario.want_request) eq_refl
           [Py.s "45b983be36b73c0788dc9cbcb76cbb80fc7bb057"] eq_refl).
Defined.

(** X17. The one handler object shared by all requests carries nothing
    from one request to the next: the reply of either route, and the file
    system it leaves, do not depend on the project the handler was left
    at by an earlier request. *)
Theorem replies_ignore_earlier_project (zlib_compress : bytes → bytes)
  (fuel : nat) (w : App.world) (h1 h2 : App.handler) (fs : Git.filesystem)
  (project : str) (header : option str) (data : bytes) :
  (App.info_refs w h1 fs project header).1.1
  = (App.info_refs w h2 fs project header).1.1
  ∧ (App.info_refs w h1 fs project header).2
    = (App.info_refs w h2 fs project header).2
  ∧ (r ← App.git_upload_pack zlib_compress fuel w h1 fs project header data;
     Some (r.1.1, r.2))
    = (r ← App.git_upload_pack zlib_compress fuel w h2 fs project header data;
       Some (r.1.1, r.2)).
Proof.
  unfold App.info_refs, App.git_upload_pack, App.set_project_path.
  split; [|split].
  - destruct (App.differs header _); [reflexivity|].
    destruct (Git.get_refs _ fs). reflexivity.
  - destruct (App.differs header _); [reflexivity|].
    destruct (Git.get_refs _ fs). reflexivity.
  - destruct (App.differs header _); [reflexivity|].
    destruct (Git.generate_pack _ _ _ fs data) as [[r fs']|]; reflexivity.
Qed.

(* ===================================================================== *)
(** * The pack of a fetch *)
(* ===================================================================== *)

Section PackOfFetch.

Import Py Spec Objects.

Variable zlib_compress : bytes → bytes.

Lemma utf8_ok (t : str) (data : bytes) : encode_utf8 t = Ok data → utf8 t = data.
Proof. unfold utf8. intros ->. reflexivity. Qed.

(** The encoder reads the kind and the payload back from the store. *)
Lemma pack_entry_object (o : object) :
  PackSpec.pack_entry zlib_compress (to_pobject o) = pack_entry zlib_compress o.
Proof.
  destruct o as [k payload]. unfold PackSpec.pack_entry, pack_entry, to_pobject.
  cbn [fst snd]. unfold store_of. cbn [fst snd].
  assert (Hs : Git.strip_header (store (kind_name k) payload) = payload).
  { unfold store. destruct k; apply strip_header_store_gen;
      repeat constructor; discriminate. }
  assert (Ht : Git.obj_type (store (kind_name k) payload) = kind_code k).
  { unfold Git.obj_type. destruct k; cbn [kind_name kind_code].
    - replace (startswith (store "commit" payload) (b "commit ")) with true;
        [reflexivity|].
      symmetry.
      change (store "commit" payload)
        with (b "commit " ++ ascii_bytes (str_of_int (len payload))
              ++ [x00] ++ payload).
      apply startswith_app.
    - replace (startswith (store "tree" payload) (b "tree ")) with true;
        [reflexivity|].
      symmetry.
      change (store "tree" payload)
        with (b "tree " ++ ascii_bytes (str_of_int (len payload))
              ++ [x00] ++ payload).
      apply startswith_app. 
    - reflexivity. }
  rewrite Hs, Ht. reflexivity.
Qed.

Lemma pack_body_objects (objects : list object) :
  PackSpec.pack_body zlib_compress (map to_pobject objects)
  = pack_body zlib_compress objects.
Proof.
  unfold PackSpec.pack_body, pack_body, len. rewrite length_map, map_map.
  do 4 f_equal. apply map_ext. intros o. apply pack_entry_object.
Qed.

(** The walk loop: every file was read, its content encoded, and one
    entry appended for it. *)
Lemma collect_objects_files (files : list (str * Res str)) : ∀ acc objects,
  Git.collect_objects files acc = Ok objects →
  ∃ contents,
    files = map read_file contents
    ∧ Forall (fun f => is_ok (encode_utf8 f.2) = true) contents
    ∧ objects = acc ++ map entry_of_file contents.
Proof.
  induction files as [|[rel_path read] files IH]; intros acc objects H.
  - cbn in H. injection H as <-. exists []. rewrite app_nil_r. auto.
  - cbn [Git.collect_objects] in H.
    destruct read as [content|]; [|discriminate].
    cbn [mbind Res_bind] in H.
    destruct (encode_utf8 content) as [data|] eqn:Ec.
    2:{ unfold Git.create_blob in H. rewrite Ec in H. discriminate H. }
    rewrite (create_blob_ok content data Ec) in H. cbn [mbind Res_bind] in H.
    destruct (IH _ _ H) as (contents & -> & Hall & ->).
    exists ((rel_path, content) :: contents). split; [reflexivity|]. split.
    + constructor; [cbn; rewrite Ec; reflexivity|exact Hall].
    + rewrite <- app_assoc. cbn [app map]. do 2 f_equal.
      unfold entry_of_file, identity, store_of, blob_of. cbn [fst snd kind_name].
      rewrite (utf8_ok _ _ Ec). reflexivity.
Qed.

Lemma hex_entry_raw_file (f : str * str) : hex_entry (raw_file f) = entry_of_file f.
Proof. reflexivity. Qed.

Lemma create_tree_files (contents : list (str * str)) :
  Forall (fun f => is_ok (encode_utf8 f.1) = true) contents →
  Git.create_tree (map entry_of_file contents)
  = Ok (to_pobject (tree_of (sorted fst contents))).
Proof.
  intros Hp.
  replace (map entry_of_file contents) with (map hex_entry (map raw_file contents))
    by (rewrite map_map; reflexivity).
  rewrite create_tree_store.
  2:{ apply Forall_map. eapply Forall_impl; [exact Hp|]. intros f Hf.
      split; [exact Hf|apply digest_length]. }
  cbv zeta. rewrite (sorted_map raw_file (fun o => o.1.1)).
  change ((fun o : str * bytes * bytes => o.1.1) ∘ raw_file)
    with (fst : str * str → str).
  unfold tree_payload. rewrite map_map. reflexivity.
Qed.

Lemma create_commit_object (tree : object) :
  Git.create_commit (identity tree) = Ok (to_pobject (commit_of tree)).
Proof.
  apply (create_commit_ok (identity tree)). apply hexdigest_ascii.
Qed.

Lemma pack_objects_of_files (contents : list (str * str)) (tree commit : object) :
  Git.pack_objects_of (map entry_of_file contents)
    (to_pobject tree) (to_pobject commit)
  = map to_pobject
      (sorted identity (map (fun f => blob_of f.2) contents ++ [tree; commit])).
Proof.
  unfold Git.pack_objects_of.
  rewrite <- (sorted_map to_pobject fst).
  f_equal. rewrite <- app_assoc, map_app, !map_map. reflexivity.
Qed.

(** The response of a fetch is the formatted pack of the blobs of the
    files, the tree that lists them and the commit of the tree, in the
    order of their identities. *)
Lemma build_response_pack (files : list (str * Res str)) (response : bytes) :
  Git.build_response zlib_compress files = Ok (Some response) →
  ∃ contents,
    files = map read_file contents
    ∧ contents ≠ []
    ∧ Forall encodable_file contents
    ∧ Git.format_pack_response
        (pack zlib_compress
           (sorted identity
              (map (fun f => blob_of f.2) contents
               ++ [tree_of (sorted fst contents);
                   commit_of (tree_of (sorted fst contents))])))
      = Ok response.
Proof.
  intros H.
  destruct (build_response_inv _ _ _ H)
    as (objects & tree & commit & pk & Hobj & Hne & Ht & Hc & Hpk & Hresp).
  destruct (collect_objects_files _ _ _ Hobj) as (contents & -> & Hcont & ->).
  cbn [app] in *.
  assert (Hpaths : Forall (fun f => is_ok (encode_utf8 f.1) = true) contents).
  { pose proof (create_tree_paths _ _ Ht) as Hp.
    apply Forall_map in Hp. exact Hp. }
  rewrite (create_tree_files contents Hpaths) in Ht. injection Ht as <-.
  cbn [fst to_pobject] in Hc. rewrite create_commit_object in Hc.
  injection Hc as <-.
  rewrite pack_objects_of_files in Hpk.
  destruct (create_packfile_ok_inv _ _ _ Hpk) as [_ ->].
  rewrite pack_body_objects in Hresp.
  exists contents. split; [reflexivity|]. split.
  { intros ->. apply Hne. reflexivity. }
  split; [|exact Hresp].
  apply Forall_forall. intros f Hf. split.
  - exact (proj1 (Forall_forall _ _) Hpaths f Hf).
  - exact (proj1 (Forall_forall _ _) Hcont f Hf).
Qed.

(** What the formatted response decodes to. *)
Lemma format_pack_response_decodes (pk response : bytes) :
  Git.format_pack_response pk = Ok response →
  ∃ side ps,
    response = b "0008NAK" ++ [x0a] ++ side
    ∧ PktLine.decode side = Some (ps ++ [PktLine.Flush])
    ∧ Forall (fun p => ∃ chunk, p = PktLine.Data (x01 :: chunk)) ps
    ∧ PktLine.demultiplex (ps ++ [PktLine.Flush]) = pk
    ∧ PktLine.decode response
      = Some (PktLine.Data Git.nak :: ps ++ [PktLine.Flush]).
Proof.
  intros H.
  destruct (format_side_band_chunked_spec Git.chunk_size eq_refl eq_refl pk)
    as (side & ps & Hside & Hdec & Hband & Hdemux).
  rewrite (format_pack_response_spec pk side Hside) in H. injection H as <-.
  exists side, ps. split; [reflexivity|]. split; [exact Hdec|]. split.
  { eapply Forall_impl; [exact Hband|]. intros q (chunk & -> & _). eauto. }
  split; [exact Hdemux|].
  apply (decode_frame (b "0008") Git.nak side (ps ++ [PktLine.Flush]));
    [reflexivity|reflexivity|reflexivity|exact Hdec].
Qed.

End PackOfFetch.



(** The objects of Scenario A have the identities Git gives them, and
    are listed in the order of these identities. *)
Lemma hello_objects_sorted :
  map Objects.identity Scenario.hello_objects
  = [Py.s "45b983be36b73c0788dc9cbcb76cbb80fc7bb057";
     Py.s "7a2871192d49caaff5451df37b27afc373d8298b";
     Py.s "aec7d02437c225d278939c832d9881eb2591ad3a"]
  ∧ Py.sorted Objects.identity
      (map (fun f : str * str => Objects.blob_of f.2)
           [(Py.s "hello.txt", Py.s "hi" ++ [Git.LF])]
       ++ [Objects.tree_of (Py.sorted fst [(Py.s "hello.txt", Py.s "hi" ++ [Git.LF])]);
           Objects.commit_of
             (Objects.tree_of
                (Py.sorted fst [(Py.s "hello.txt", Py.s "hi" ++ [Git.LF])]))])
    = Scenario.hello_objects.
Proof. split; vm_compute; reflexivity. Qed.

(** C1. Scenario A: when the synthesis produces the one file [hello.txt]
    containing ["hi\n"] and the want-list parsed from the request is not
    empty, [generate_pack] returns the packet-line [0008NAK\n] followed by
    side-band packets of band 1 and a flush, and the payloads of these
    packets, put together, are the pack of three objects: the blob of
    ["hi\n"], the tree that lists [hello.txt] with the digest of the
    blob, and the commit of the tree. Its object count field is 3. *)
Theorem fetch_hello (zlib_compress : bytes → bytes) (fuel : nat)
  (e : Git.env) (fs : Git.filesystem) (request : bytes) (wants : list str) :
  Scenario.synthesizes e Scenario.hello_files →
  Git.parse_request fuel request = Some wants →
  wants ≠ [] →
  ∃ side ps fs',
    Git.generate_pack zlib_compress fuel e fs request
    = Some (Ok (Some (Py.b "0008NAK" ++ [x0a] ++ side)), fs')
    ∧ PktLine.decode side = Some (ps ++ [PktLine.Flush])
    ∧ Forall (fun p => ∃ chunk, p = PktLine.Data (x01 :: chunk)) ps
    ∧ PktLine.demultiplex (ps ++ [PktLine.Flush])
      = Objects.pack zlib_compress Scenario.hello_objects
    ∧ take 12 (Objects.pack zlib_compress Scenario.hello_objects)
      = Py.b "PACK" ++ [x00; x00; x00; x02; x00; x00; x00; x03]
    ∧ map fst Scenario.hello_objects
      = [Objects.Blob; Objects.Tree; Objects.Commit]
    ∧ map Objects.identity Scenario.hello_objects
      = [Py.s "45b983be36b73c0788dc9cbcb76cbb80fc7bb057";
         Py.s "7a2871192d49caaff5451df37b27afc373d8298b";
         Py.s "aec7d02437c225d278939c832d9881eb2591ad3a"].
Proof.
  intros Hsyn Hparse Hwants.
  destruct (generate_pack_try_synthesizes zlib_compress e fs _ Hsyn)
    as (d & fs1 & Htry).
  destruct (build_response_ok zlib_compress Scenario.hello_files)
    as (response & Hb).
  { discriminate. }
  { repeat constructor. exists (Py.s "hi" ++ [Git.LF]). split; reflexivity. }
  { reflexivity. }
  destruct (build_response_pack _ _ _ Hb) as (contents & Hw & _ & _ & Hresp).
  assert (Hc : contents = [(Py.s "hello.txt", Py.s "hi" ++ [Git.LF])]).
  { destruct contents as [|[p c] [|f contents]]; try discriminate Hw.
    injection Hw as <- <-. reflexivity. }
  subst contents. rewrite (proj2 hello_objects_sorted) in Hresp.
  destruct (format_pack_response_decodes _ _ Hresp)
    as (side & ps & -> & Hdec & Hband & Hdemux & _).
  exists side, ps, (Git.cleanup e (Some d) fs1).
  split; [|split; [exact Hdec|split; [exact Hband|split; [exact Hdemux|]]]].
  - unfold Git.generate_pack. rewrite Hparse, Htry.
    destruct wants as [|w wants]; [congruence|]. rewrite Hb. reflexivity.
  - split; [reflexivity|]. split; [reflexivity|].
    exact (proj1 hello_objects_sorted).
Qed.

Lemma fetch_hello_witness :
  Scenario.synthesizes Scenario.hello_env Scenario.hello_files
  ∧ Git.parse_request 3 Scenario.want_request
    = Some [Py.s "45b983be36b73c0788dc9cbcb76cbb80fc7bb057"]
  ∧ ∃ side ps fs',
      Git.generate_pack (fun x => x) 3 Scenario.hello_env ∅ Scenario.want_request
      = Some (Ok (Some (Py.b "0008NAK" ++ [x0a] ++ side)), fs')
      ∧ PktLine.decode side = Some (ps ++ [PktLine.Flush])
      ∧ Forall (fun p => ∃ chunk, p = PktLine.Data (x01 :: chunk)) ps
      ∧ PktLine.demultiplex (ps ++ [PktLine.Flush])
        = Objects.pack (fun x => x) Scenario.hello_objects
      ∧ take 12 (Objects.pack (fun x => x) Scenario.hello_objects)
        = Py.b "PACK" ++ [x00; x00; x00; x02; x00; x00; x00; x03]
      ∧ map fst Scenario.hello_objects
        = [Objects.Blob; Objects.Tree; Objects.Commit]
      ∧ map Objects.identity Scenario.hello_objects
        = [Py.s "45b983be36b73c0788dc9cbcb76cbb80fc7bb057";
           Py.s "7a2871192d49caaff5451df37b27afc373d8298b";
           Py.s "aec7d02437c225d278939c832d9881eb2591ad3a"].
Proof.
  assert (Hsyn : Scenario.synthesizes Scenario.hello_env Scenario.hello_files).
  { exists (Py.s "your-cdktf-project"),
      (Py.s "class MyStack(TerraformStack): pass"), (Py.s "tmpk3v9").
    repeat split; reflexivity. }
  split; [exact Hsyn|]. split; [reflexivity|].
  apply (fetch_hello (fun x => x) 3 Scenario.hello_env ∅ Scenario.want_request
           [Py.s "45b983be36b73c0788dc9cbcb76cbb80fc7bb057"] Hsyn eq_refl).
  discriminate.
Defined.
